(** * Variant analytics, stale-inventory analysis and suggestion rules

    A shallow embedding of the analytics core of the products service
    ([ProductsService]): the percentage-based stale analysis, the focused
    variant analytics pipeline, the rule-based suggestion engine, the product
    category resolver and the paginated product fetch.

    Numbers.  The service computes on JavaScript numbers.  There are two
    models of them.  The exact model takes them as exact rationals extended
    with the three non-finite values a JavaScript computation can produce
    ([Infinity], [-Infinity], [NaN]); it knows neither the rounding of
    binary64 nor the sign of zero, and a division of a non-zero number by
    zero yields the infinity of the sign of the dividend.  It carries the
    properties that hold of the service whatever the rounding: which rule
    fires, which label is given, how counts relate, how often a store is
    asked.  The binary64 model (module [B64]) takes them as IEEE 754 doubles
    and embeds a second time, operation for operation, the functions whose
    verdict or printed figure turns on the rounding of a quotient or a
    product: the stale analysis and the suggestion rules. *)

From Stdlib Require Import Floats Uint63.
From Stdlib Require Import QArith Qround Qabs Qminmax Lqa Lia ZArith String Ascii List Sorted.
From stdpp Require Import base option list strings gmap.
Import ListNotations.

Open Scope Q_scope.

Set Warnings "-inexact-float".

(** ** JavaScript numbers *)

Inductive num : Type :=
| Fin (q : Q)
| PInf
| NInf
| NaN.

Definition Qltb (x y : Q) : bool :=
  match x ?= y with Lt => true | _ => false end.

Definition is_nan (a : num) : bool :=
  match a with NaN => true | _ => false end.

(** [a < b] *)
Definition js_lt (a b : num) : bool :=
  match a, b with
  | NaN, _ | _, NaN => false
  | Fin x, Fin y => Qltb x y
  | Fin _, PInf => true
  | Fin _, NInf => false
  | PInf, _ => false
  | NInf, NInf => false
  | NInf, _ => true
  end.

(** [a <= b] *)
Definition js_le (a b : num) : bool :=
  negb (is_nan a) && negb (is_nan b) && negb (js_lt b a).

(** [a > b] and [a >= b] *)
Definition js_gt (a b : num) : bool := js_lt b a.
Definition js_ge (a b : num) : bool := js_le b a.

(** [a === b] on numbers *)
Definition js_eq (a b : num) : bool :=
  match a, b with
  | Fin x, Fin y => Qeq_bool x y
  | PInf, PInf => true
  | NInf, NInf => true
  | _, _ => false
  end.

Definition js_neg (a : num) : num :=
  match a with
  | Fin x => Fin (- x)
  | PInf => NInf
  | NInf => PInf
  | NaN => NaN
  end.

(** [a + b] *)
Definition js_add (a b : num) : num :=
  match a, b with
  | NaN, _ | _, NaN => NaN
  | Fin x, Fin y => Fin (x + y)
  | PInf, NInf | NInf, PInf => NaN
  | PInf, _ | _, PInf => PInf
  | NInf, _ | _, NInf => NInf
  end.

(** The infinity that a non-zero finite [x] scales [PInf] to; [NaN] at zero. *)
Definition inf_of_sign (x : Q) : num :=
  match x ?= 0 with
  | Gt => PInf
  | Lt => NInf
  | Eq => NaN
  end.

(** [a * b] *)
Definition js_mul (a b : num) : num :=
  match a, b with
  | NaN, _ | _, NaN => NaN
  | Fin x, Fin y => Fin (x * y)
  | PInf, Fin y | Fin y, PInf => inf_of_sign y
  | NInf, Fin y | Fin y, NInf => js_neg (inf_of_sign y)
  | PInf, PInf | NInf, NInf => PInf
  | PInf, NInf | NInf, PInf => NInf
  end.

(** [a / b].  A finite non-zero dividend over zero gives an infinity, zero
    over zero gives [NaN]. *)
Definition js_div (a b : num) : num :=
  match a, b with
  | NaN, _ | _, NaN => NaN
  | Fin x, Fin y => if Qeq_bool y 0 then inf_of_sign x else Fin (x / y)
  | Fin _, _ => Fin 0
  | PInf, Fin y => if Qltb y 0 then NInf else PInf
  | NInf, Fin y => if Qltb y 0 then PInf else NInf
  | _, _ => NaN
  end.

(** Truthiness of a number: everything but [0] and [NaN]. *)
Definition js_truthy (a : num) : bool :=
  match a with
  | Fin x => negb (Qeq_bool x 0)
  | NaN => false
  | _ => true
  end.

(** [x || d] for a numeric field [x] that may be absent ([undefined]/[null]). *)
Definition js_or (x : option num) (d : num) : num :=
  match x with
  | Some a => if js_truthy a then a else d
  | None => d
  end.

(** [Math.round]: the nearest integer, ties towards [+Infinity]. *)
Definition Math_round (a : num) : num :=
  match a with
  | Fin x => Fin (inject_Z (Qfloor (x + (1 # 2))))
  | _ => a
  end.

Definition Math_ceil (a : num) : num :=
  match a with
  | Fin x => Fin (inject_Z (Qceiling x))
  | _ => a
  end.

Definition Math_max (a b : num) : num :=
  match a, b with
  | NaN, _ | _, NaN => NaN
  | _, _ => if js_lt a b then b else a
  end.

(** The number denoted by [x.toFixed(d)]: [x] rounded to [d] decimals, ties
    away from zero. *)
Definition toFixed (d : nat) (a : num) : num :=
  match a with
  | Fin x =>
      let scale := inject_Z (10 ^ Z.of_nat d) in
      let n := inject_Z (Qfloor (Qabs x * scale + (1 # 2))) / scale in
      Fin (if Qltb x 0 then - n else n)
  | _ => a
  end.

(** [Math.round(x * 100) / 100], the rounding applied to every reported
    rate and amount. *)
Definition round2 (a : num) : num :=
  js_div (Math_round (js_mul a (Fin 100))) (Fin 100).

(** Numeric equality of results: finite values are compared as rationals. *)
Definition num_equiv (a b : num) : Prop :=
  match a, b with
  | Fin x, Fin y => x == y
  | PInf, PInf | NInf, NInf | NaN, NaN => True
  | _, _ => False
  end.

Infix "=n=" := num_equiv (at level 70, no associativity).

Definition is_finite (a : num) : bool :=
  match a with Fin _ => true | _ => false end.

(** ** Constants ([product.constants.ts]) *)

Definition PREDEFINED_CATEGORIES : list string :=
  ["furniture"; "fashion"; "food"; "fitness"; "electronics"]%string.

Definition MILLISECONDS_PER_DAY : Q := 1000 * 60 * 60 * 24.
Definition DAYS_PER_MONTH : Q := 30.
Definition MINIMUM_MONTHS_LIVE : Q := 33 # 1000.

Definition STALE_PERCENTAGE : Q := 10.

Definition CATEGORY_MAPPING : gmap string string :=
  list_to_map
    [ ("clothing", "fashion");
      ("accessories", "fashion");
      ("electronics", "electronics");
      ("home", "home");
      ("sports", "fitness");
      ("health", "health");
      ("beauty", "beauty");
      ("toys", "toys");
      ("books", "books");
      ("automotive", "automotive") ]%string.

(** The names every object inherits from [Object.prototype]; a count table
    built on a plain object is a count table only for keys outside them. *)
Definition object_prototype_names : list string :=
  [ "constructor"; "__defineGetter__"; "__defineSetter__"; "hasOwnProperty";
    "__lookupGetter__"; "__lookupSetter__"; "isPrototypeOf";
    "propertyIsEnumerable"; "toString"; "valueOf"; "__proto__";
    "toLocaleString" ]%string.

(** What a lookup in a table of strings that is a plain object can yield:
    a string, or the member of [Object.prototype] the key names (a function,
    or for [__proto__] the prototype itself). *)
Inductive JsValue : Type :=
| JsString (s : string)
| ObjectPrototypeMember (name : string).

(** ** Percentage-based stale analysis *)

Record PercentageBasedStaleAnalysis : Type := {
  is_stale : bool;
  monthly_sales_rate : num;
  percent_sold_per_month : num;
  months_live : num;
  threshold_percent_used : num
}.

(** Dates are millisecond timestamps ([Date.getTime()]).  The threshold is
    optional and defaults to [STALE_PERCENTAGE]. *)
Definition calculatePercentageBasedStaleAnalysis
    (unitsSold totalInventoryAdded : num) (publishDate currentDate : Z)
    (thresholdPercentArg : option num) : PercentageBasedStaleAnalysis :=
  let thresholdPercent := default (Fin STALE_PERCENTAGE) thresholdPercentArg in
  let daysLive :=
    Math_ceil (js_div (Fin (inject_Z (currentDate - publishDate)))
                      (Fin MILLISECONDS_PER_DAY)) in
  let monthsLive :=
    Math_max (js_div daysLive (Fin DAYS_PER_MONTH)) (Fin MINIMUM_MONTHS_LIVE) in
  let monthlySalesRate := js_div unitsSold monthsLive in
  let percentSoldPerMonth :=
    if js_gt totalInventoryAdded (Fin 0)
    then js_mul (js_div monthlySalesRate totalInventoryAdded) (Fin 100)
    else Fin 0 in
  let isStale := js_lt percentSoldPerMonth thresholdPercent in
  {| is_stale := isStale;
     monthly_sales_rate := round2 monthlySalesRate;
     percent_sold_per_month := round2 percentSoldPerMonth;
     months_live := round2 monthsLive;
     threshold_percent_used := thresholdPercent |}.

(** ** Shopify records (the fields the analytics read)

    Identifiers are integers and are compared with [==].  [price] holds
    [parseFloat] of the price string ([NaN] when it does not parse).  Numeric
    fields read through [|| 0] may be absent. *)

Record Variant : Type := {
  v_id : Z;
  v_price : num;
  v_inventory_quantity : option num
}.

Record Product : Type := {
  p_published_at : option Z;
  p_created_at : Z;
  p_product_type : option string;
  p_tags : option string
}.

Record LineItem : Type := {
  li_variant_id : Z;
  li_quantity : option num;
  li_price : num
}.

Record Order : Type := {
  o_created_at : Z;
  o_line_items : option (list LineItem)
}.

(** ** Suggestions *)

Inductive SuggestionType : Type :=
| CRITICAL_INVENTORY | LOW_INVENTORY | INVENTORY_WARNING | OVERSTOCK
| NO_SALES | POOR_PERFORMANCE | BELOW_TARGET | HIGH_PERFORMER
| DECLINING_TREND | POSITIVE_MOMENTUM
| PRICING_OPPORTUNITY | SEASONAL_PLANNING | BUNDLING_OPPORTUNITY.

Inductive Priority : Type := URGENT | HIGH | MEDIUM | LOW | CRITICAL.

Inductive InventoryStatus : Type :=
| OUT_OF_STOCK | CRITICAL_LOW | STATUS_LOW | OPTIMAL | STATUS_HIGH | OVERSTOCKED.

Inductive Trend : Type := IMPROVING | DECLINING | STABLE.

Inductive Performance : Type := BELOW_THRESHOLD | ABOVE_THRESHOLD.

#[global] Instance SuggestionType_eq_dec : EqDecision SuggestionType.
Proof. solve_decision. Defined.

#[global] Instance Priority_eq_dec : EqDecision Priority.
Proof. solve_decision. Defined.

#[global] Instance InventoryStatus_eq_dec : EqDecision InventoryStatus.
Proof. solve_decision. Defined.

(** A template literal: its text with [{}] in place of each interpolation,
    and the interpolated numbers in order. *)
Record Template : Type := {
  text : string;
  args : list num
}.

Definition tpl (s : string) (xs : list num) : Template :=
  {| text := s; args := xs |}.

Record Suggestion : Type := {
  type : SuggestionType;
  action : Template;
  reason : Template;
  priority : Priority
}.

Record PerformanceSummary : Type := {
  ps_monthly_sales_rate : num;
  ps_stale_threshold_used : num;
  inventory_status : InventoryStatus;
  trend : Trend
}.

Record VariantSuggestions : Type := {
  total_suggestions : nat;
  suggestions : list Suggestion;
  performance_summary : PerformanceSummary;
  current_performance : Performance
}.

Definition getSimpleInventoryStatus (daysRemaining currentStock : num)
  : InventoryStatus :=
  if js_eq currentStock (Fin 0) then OUT_OF_STOCK
  else if js_le daysRemaining (Fin 7) then CRITICAL_LOW
  else if js_le daysRemaining (Fin 30) then STATUS_LOW
  else if js_le daysRemaining (Fin 90) then OPTIMAL
  else if js_le daysRemaining (Fin 180) then STATUS_HIGH
  else OVERSTOCKED.

(** The six rule groups of [generateVariantSuggestions], in the order in
    which they push onto the result array. *)

Definition inventorySuggestions (currentInventory daysOfStockRemaining : num)
  : list Suggestion :=
  if js_eq currentInventory (Fin 0) then
    [ {| type := CRITICAL_INVENTORY;
         action := tpl "Emergency restock required immediately" [];
         reason := tpl "Product is out of stock" [];
         priority := URGENT |} ]
  else if js_le daysOfStockRemaining (Fin 7) then
    [ {| type := LOW_INVENTORY;
         action := tpl "Reorder immediately - only {} days of stock remaining"
                       [Math_round daysOfStockRemaining];
         reason := tpl "Critical low inventory level" [];
         priority := HIGH |} ]
  else if js_le daysOfStockRemaining (Fin 30) then
    [ {| type := INVENTORY_WARNING;
         action := tpl "Plan reorder within 1 week - {} days remaining"
                       [Math_round daysOfStockRemaining];
         reason := tpl "Low inventory approaching" [];
         priority := MEDIUM |} ]
  else if js_gt daysOfStockRemaining (Fin 180) then
    [ {| type := OVERSTOCK;
         action := tpl "Consider clearance strategy - excess inventory detected" [];
         reason := tpl "{} days of stock remaining"
                       [Math_round daysOfStockRemaining];
         priority := MEDIUM |} ]
  else [].

Definition performanceSuggestions (monthlySalesRate staleThreshold : num)
  : list Suggestion :=
  if js_eq monthlySalesRate (Fin 0) then
    [ {| type := NO_SALES;
         action := tpl "Apply 40-50% discount or consider discontinuation" [];
         reason := tpl "No sales recorded in analysis period" [];
         priority := CRITICAL |} ]
  else if js_lt monthlySalesRate (js_mul staleThreshold (Fin (3 # 10))) then
    [ {| type := POOR_PERFORMANCE;
         action := tpl "Apply 25-35% discount and run targeted ads" [];
         reason := tpl "Very low sales rate: {} units/month"
                       [toFixed 1 monthlySalesRate];
         priority := HIGH |} ]
  else if js_lt monthlySalesRate staleThreshold then
    [ {| type := BELOW_TARGET;
         action := tpl "Apply 15-20% discount and optimize product visibility" [];
         reason := tpl "Below target sales rate: {} units/month (target: {})"
                       [toFixed 1 monthlySalesRate; staleThreshold];
         priority := MEDIUM |} ]
  else if js_ge monthlySalesRate (js_mul staleThreshold (Fin 2)) then
    [ {| type := HIGH_PERFORMER;
         action := tpl "Test 10-15% price increase and scale marketing" [];
         reason := tpl "Excellent sales rate: {} units/month"
                       [toFixed 1 monthlySalesRate];
         priority := LOW |} ]
  else [].

Definition trendSuggestions (salesAcceleration : num) : list Suggestion :=
  if js_lt salesAcceleration (Fin (- (3 # 10))) then
    [ {| type := DECLINING_TREND;
         action := tpl "Investigate cause and implement recovery strategy" [];
         reason := tpl "Rapidly declining sales trend detected" [];
         priority := HIGH |} ]
  else if js_gt salesAcceleration (Fin (3 # 10)) then
    [ {| type := POSITIVE_MOMENTUM;
         action := tpl "Increase marketing budget to capitalize on momentum" [];
         reason := tpl "Strong positive sales trend detected" [];
         priority := MEDIUM |} ]
  else [].

Definition pricingSuggestions (monthlySalesRate staleThreshold price : num)
  : list Suggestion :=
  if js_ge monthlySalesRate staleThreshold && js_gt price (Fin 0) then
    let potentialIncrease := round2 (js_mul price (Fin (15 # 100))) in
    [ {| type := PRICING_OPPORTUNITY;
         action := tpl "Test price increase to ${}"
                       [toFixed 2 (js_add price potentialIncrease)];
         reason := tpl "Strong demand indicates pricing power" [];
         priority := LOW |} ]
  else [].

Definition seasonalSuggestions (seasonalityScore : num) : list Suggestion :=
  if js_gt seasonalityScore (Fin (1 # 2)) then
    [ {| type := SEASONAL_PLANNING;
         action := tpl "Plan seasonal inventory and marketing campaigns" [];
         reason := tpl "High seasonality pattern detected" [];
         priority := MEDIUM |} ]
  else [].

Definition bundlingSuggestions (monthlySalesRate staleThreshold totalRevenue : num)
  : list Suggestion :=
  if js_lt monthlySalesRate staleThreshold && js_gt totalRevenue (Fin 0) then
    [ {| type := BUNDLING_OPPORTUNITY;
         action := tpl "Create bundles with popular products" [];
         reason := tpl "Slow sales could benefit from bundling strategy" [];
         priority := MEDIUM |} ]
  else [].

(** [generateVariantSuggestions].  Of the returned object the model keeps the
    suggestion list, its length, the performance summary and the
    above/below-threshold verdict; the remaining explanatory texts are left
    out. *)
Definition generateVariantSuggestions
    (variant : Variant) (product : Product)
    (monthlySalesRate staleThreshold currentInventory daysOfStockRemaining
       totalRevenue monthsLive salesAcceleration seasonalityScore : num)
    (staleAnalysis : option PercentageBasedStaleAnalysis)
    (totalQuantitySold : option num) : VariantSuggestions :=
  let price := js_or (Some (v_price variant)) (Fin 0) in
  let suggestions :=
    inventorySuggestions currentInventory daysOfStockRemaining
    ++ performanceSuggestions monthlySalesRate staleThreshold
    ++ trendSuggestions salesAcceleration
    ++ pricingSuggestions monthlySalesRate staleThreshold price
    ++ seasonalSuggestions seasonalityScore
    ++ bundlingSuggestions monthlySalesRate staleThreshold totalRevenue in
  {| total_suggestions := length suggestions;
     suggestions := suggestions;
     performance_summary :=
       {| ps_monthly_sales_rate := monthlySalesRate;
          ps_stale_threshold_used := staleThreshold;
          inventory_status :=
            getSimpleInventoryStatus daysOfStockRemaining currentInventory;
          trend :=
            if js_gt salesAcceleration (Fin (1 # 10)) then IMPROVING
            else if js_lt salesAcceleration (Fin (- (1 # 10))) then DECLINING
            else STABLE |};
     current_performance :=
       match staleAnalysis with
       | Some sa => if is_stale sa then BELOW_THRESHOLD else ABOVE_THRESHOLD
       | None =>
           if js_ge monthlySalesRate staleThreshold
           then ABOVE_THRESHOLD else BELOW_THRESHOLD
       end |}.

Definition suggestion_types (out : VariantSuggestions) : list SuggestionType :=
  type <$> suggestions out.

(** ** Focused variant analytics *)

(** The running totals of the order loop. *)
Record SalesTotals : Type := {
  totalQuantitySold : num;
  totalRevenue : num;
  firstSaleDate : option Z;
  lastSaleDate : option Z
}.

Definition noSales : SalesTotals :=
  {| totalQuantitySold := Fin 0; totalRevenue := Fin 0;
     firstSaleDate := None; lastSaleDate := None |}.

Definition addLineItem (variantId orderDate : Z) (acc : SalesTotals)
    (item : LineItem) : SalesTotals :=
  if (li_variant_id item =? variantId)%Z then
    let quantity := js_or (li_quantity item) (Fin 0) in
    let itemRevenue := js_mul (li_price item) quantity in
    {| totalQuantitySold := js_add (totalQuantitySold acc) quantity;
       totalRevenue := js_add (totalRevenue acc) itemRevenue;
       firstSaleDate :=
         match firstSaleDate acc with
         | Some d => if (orderDate <? d)%Z then Some orderDate else Some d
         | None => Some orderDate
         end;
       lastSaleDate :=
         match lastSaleDate acc with
         | Some d => if (d <? orderDate)%Z then Some orderDate else Some d
         | None => Some orderDate
         end |}
  else acc.

Definition addOrder (variantId : Z) (acc : SalesTotals) (order : Order)
  : SalesTotals :=
  match o_line_items order with
  | Some items => foldl (addLineItem variantId (o_created_at order)) acc items
  | None => acc
  end.

Definition salesTotals (variantId : Z) (orders : list Order) : SalesTotals :=
  foldl (addOrder variantId) noSales orders.

Module Analytics.
Record t : Type := {
  variant_id : Z;
  price : num;
  current_quantity : num;
  estimated_initial_quantity : num;
  total_quantity_sold : num;
  inventory_turnover_rate : num;
  current_stock_value : num;
  monthly_sales_rate : num;
  daily_sales_rate : num;
  total_revenue : num;
  total_orders : nat;
  days_live : num;
  months_live : num;
  days_since_last_sale : num;
  is_stale : num;
  stockout_risk : num;
  percent_sold_per_month : num;
  threshold_percent_used : num;
  days_of_stock_remaining : num;
  sales_acceleration : num;
  seasonality_score : num;
  product_category : JsValue;
  intelligent_suggestions : VariantSuggestions
}.
End Analytics.

Definition toLowerAscii (c : ascii) : ascii :=
  let n := nat_of_ascii c in
  if (65 <=? n)%nat && (n <=? 90)%nat then ascii_of_nat (n + 32) else c.

(** [String.prototype.toLowerCase] on ASCII text. *)
Fixpoint toLowerCase (s : string) : string :=
  match s with
  | EmptyString => EmptyString
  | String c s' => String (toLowerAscii c) (toLowerCase s')
  end.

(** [CATEGORY_MAPPING[productType?.toLowerCase()] || "general"]; an absent
    product type indexes with [undefined].  The table is a plain object: a
    key that is none of its own but names a member of [Object.prototype]
    yields that member, which is truthy. *)
Definition getProductCategory (productType : option string) : JsValue :=
  let key := default "undefined"%string (toLowerCase <$> productType) in
  match CATEGORY_MAPPING !! key with
  | Some category => JsString category
  | None =>
      if bool_decide (key ∈ object_prototype_names)
      then ObjectPrototypeMember key
      else JsString "general"
  end.

(** The day count between two timestamps, rounded up. *)
Definition daysBetween (later earlier : Z) : num :=
  Math_ceil (js_div (Fin (inject_Z (later - earlier))) (Fin (1000 * 60 * 60 * 24))).

Section FocusedAnalytics.

(** The trend and seasonality indicators are computed from the orders by
    two further methods (the latter through [Math.sqrt]); the analytics
    below hold whatever they return. *)
Variable calculateSalesAcceleration : list Order -> Z -> num.
Variable calculateSeasonalityScore : list Order -> Z -> num.

(** [now] is the value of [new Date()] at the call. *)
Definition calculateFocusedVariantAnalytics
    (now : Z) (variant : Variant) (orders : list Order) (product : Product)
    (staleThreshold : option num) : Analytics.t :=
  let totals := salesTotals (v_id variant) orders in
  let totalQuantitySold := totalQuantitySold totals in
  let totalRevenue := totalRevenue totals in
  let publishedAt := default (p_created_at product) (p_published_at product) in
  let currentDate := now in
  let daysLive := daysBetween currentDate publishedAt in
  let monthsLive := js_div daysLive (Fin 30) in
  let currentInventory := js_or (v_inventory_quantity variant) (Fin 0) in
  let estimatedInitialInventory := js_add currentInventory totalQuantitySold in
  let monthlySalesRate :=
    if js_gt monthsLive (Fin 0) then js_div totalQuantitySold monthsLive
    else Fin 0 in
  let thresholdPercent := js_or staleThreshold (Fin 10) in
  let staleAnalysis :=
    calculatePercentageBasedStaleAnalysis
      totalQuantitySold estimatedInitialInventory publishedAt currentDate
      (Some thresholdPercent) in
  let averageDailySales :=
    if js_gt daysLive (Fin 0) then js_div totalQuantitySold daysLive
    else Fin 0 in
  let daysOfStockRemaining :=
    if js_gt averageDailySales (Fin 0)
    then js_div currentInventory averageDailySales
    else Fin 0 in
  let inventoryTurnoverRate :=
    if js_gt estimatedInitialInventory (Fin 0)
    then js_div totalQuantitySold estimatedInitialInventory
    else Fin 0 in
  let stockoutRisk :=
    if js_le daysOfStockRemaining (Fin 30) then Fin 1 else Fin 0 in
  let salesAcceleration := calculateSalesAcceleration orders (v_id variant) in
  let seasonalityScore := calculateSeasonalityScore orders (v_id variant) in
  let suggestions :=
    generateVariantSuggestions variant product monthlySalesRate
      thresholdPercent currentInventory daysOfStockRemaining totalRevenue
      monthsLive salesAcceleration seasonalityScore (Some staleAnalysis)
      (Some totalQuantitySold) in
  {| Analytics.variant_id := v_id variant;
     Analytics.price := js_or (Some (v_price variant)) (Fin 0);
     Analytics.current_quantity := currentInventory;
     Analytics.estimated_initial_quantity := estimatedInitialInventory;
     Analytics.total_quantity_sold := totalQuantitySold;
     Analytics.inventory_turnover_rate := round2 inventoryTurnoverRate;
     Analytics.current_stock_value :=
       round2 (js_mul currentInventory (v_price variant));
     Analytics.monthly_sales_rate := round2 monthlySalesRate;
     Analytics.daily_sales_rate := round2 averageDailySales;
     Analytics.total_revenue := round2 totalRevenue;
     Analytics.total_orders := length orders;
     Analytics.days_live := daysLive;
     Analytics.months_live := round2 monthsLive;
     Analytics.days_since_last_sale :=
       match lastSaleDate totals with
       | Some d => daysBetween currentDate d
       | None => daysLive
       end;
     Analytics.is_stale := if is_stale staleAnalysis then Fin 1 else Fin 0;
     Analytics.stockout_risk := stockoutRisk;
     Analytics.percent_sold_per_month := percent_sold_per_month staleAnalysis;
     Analytics.threshold_percent_used := threshold_percent_used staleAnalysis;
     Analytics.days_of_stock_remaining := Math_round daysOfStockRemaining;
     Analytics.sales_acceleration := round2 salesAcceleration;
     Analytics.seasonality_score := round2 seasonalityScore;
     Analytics.product_category := getProductCategory (p_product_type product);
     Analytics.intelligent_suggestions := suggestions |}.

End FocusedAnalytics.

(** ** Stock status *)

Inductive StockStatus : Type :=
| unknown | out_of_stock | low_stock | moderate_stock | high_stock.

Record StockReport : Type := {
  status : StockStatus;
  daysRemaining : num;
  reorderRecommended : bool
}.

Definition calculateStockStatus (currentStock averageDailySales : option num)
  : StockReport :=
  let stock := js_or currentStock (Fin 0) in
  let dailySales := js_or averageDailySales (Fin 0) in
  if js_eq stock (Fin 0) then
    {| status := out_of_stock; daysRemaining := Math_round (Fin 0);
       reorderRecommended := true |}
  else if js_gt dailySales (Fin 0) then
    let daysRemaining := Math_ceil (js_div stock dailySales) in
    if js_le daysRemaining (Fin 7) then
      {| status := low_stock; daysRemaining := Math_round daysRemaining;
         reorderRecommended := true |}
    else if js_le daysRemaining (Fin 30) then
      {| status := moderate_stock; daysRemaining := Math_round daysRemaining;
         reorderRecommended := false |}
    else
      {| status := high_stock; daysRemaining := Math_round daysRemaining;
         reorderRecommended := false |}
  else
    {| status :=
         if js_lt stock (Fin 10) then low_stock
         else if js_lt stock (Fin 50) then moderate_stock
         else high_stock;
       daysRemaining := Math_round (Fin 0);
       reorderRecommended := false |}.

(** ** Calls to external services

    A computation that talks to an external service counts the requests it
    has sent and ends by returning a value or by throwing. *)

Inductive outcome (A : Type) : Type :=
| Returned (a : A)
| Thrown (e : string).

Arguments Returned {A} a.
Arguments Thrown {A} e.

Definition IO (A : Type) : Type := nat -> outcome A * nat.

#[global] Instance IO_ret : MRet IO := fun A a n => (Returned a, n).

#[global] Instance IO_bind : MBind IO := fun A B k m n =>
  match m n with
  | (Returned a, n') => k a n'
  | (Thrown e, n') => (Thrown e, n')
  end.

Definition throw {A : Type} (e : string) : IO A := fun n => (Thrown e, n).

(** [try { body } catch (error) { handler }] *)
Definition try_catch {A : Type} (body : IO A) (handler : string -> IO A) : IO A :=
  fun n =>
    match body n with
    | (Returned a, n') => (Returned a, n')
    | (Thrown e, n') => handler e n'
    end.

(** Sending one request whose result the service determines. *)
Definition request {A : Type} (reply : nat -> outcome A) : IO A :=
  fun n => (reply n, S n).

Definition lift {A : Type} (o : outcome A) : IO A := fun n => (o, n).

(** [while (cond) { body }], run for at most [fuel] iterations; [None] when
    the condition still holds after them. *)
Fixpoint while {St : Type} (fuel : nat) (cond : St -> bool)
    (body : St -> IO St) (s : St) : IO (option St) :=
  if cond s then
    match fuel with
    | O => mret None
    | S fuel' => s' ← body s; while fuel' cond body s'
    end
  else mret (Some s).

(** ** Product category resolver *)

(** [s.includes(sub)] *)
Fixpoint includes (s sub : string) : bool :=
  String.prefix sub s
  || match s with
     | EmptyString => false
     | String _ s' => includes s' sub
     end.

(** A string is truthy unless absent or empty. *)
Definition truthy_string (s : option string) : option string :=
  match s with
  | Some EmptyString => None
  | _ => s
  end.

Definition getCategoryFromTags (tags : option string) : option string :=
  match truthy_string tags with
  | None => None
  | Some tags =>
      let tagsLower := toLowerCase tags in
      List.find (fun category => includes tagsLower category) PREDEFINED_CATEGORIES
  end.

(** The parsed body of the classification response; each field may be absent
    ([categories_in_training_data0] is the first element of that array). *)
Record AIResult : Type := {
  categories_in_training_data0 : option string;
  r_category : option string;
  r_data_category : option string;
  r_predicted_category : option string;
  r_classification : option string;
  r_result_category : option string
}.

(** What [fetch] does: it rejects, or answers with a status and a body that
    parses as JSON or does not. *)
Inductive FetchResult : Type :=
| FetchRejected (e : string)
| FetchResponse (ok : bool) (json : option AIResult).

(** [a || b] on optional strings *)
Definition or_string (a b : option string) : option string :=
  match truthy_string a with
  | Some s => Some s
  | None => b
  end.

Section CategoryResolver.

(** [process.env.AI_CATEGORY_API_BASE_URL] and the behaviour of the
    classification endpoint at a given base URL and product. *)
Variable AI_CATEGORY_API_BASE_URL : option string.
Variable classifyEndpoint : string -> Product -> FetchResult.

Definition getProductCategoryFromAI (product : Product) : IO JsValue :=
  try_catch
    (match getCategoryFromTags (p_tags product) with
     | Some categoryFromTags => mret (JsString categoryFromTags)
     | None =>
         match truthy_string AI_CATEGORY_API_BASE_URL with
         | None => mret (getProductCategory (p_product_type product))
         | Some aiCategoryApiUrl =>
             response ← request (fun _ =>
               match classifyEndpoint aiCategoryApiUrl product with
               | FetchRejected e => Thrown e
               | FetchResponse ok json => Returned (ok, json)
               end);
             if negb (fst response) then throw "AI Category API error"
             else
               result ← lift (match snd response with
                              | Some r => Returned r
                              | None => Thrown "invalid JSON"
                              end);
               let aiCategory :=
                 or_string (categories_in_training_data0 result)
                   (or_string (r_category result)
                      (or_string (r_data_category result)
                         (or_string (r_predicted_category result)
                            (or_string (r_classification result)
                               (truthy_string (r_result_category result)))))) in
               match aiCategory with
               | Some aiCategory => mret (JsString aiCategory)
               | None => mret (getProductCategory (p_product_type product))
               end
         end
     end)
    (fun error => mret (getProductCategory (p_product_type product))).

End CategoryResolver.

(** ** Fetching all products *)

Record Pagination : Type := {
  hasNext : bool;
  hasPrevious : bool;
  nextPageInfo : option string;
  prevPageInfo : option string
}.

(** The [rel -> page_info] table read off a [Link] header. *)
Record Links : Type := {
  next : option string;
  previous : option string
}.

(** The answer of [client.get] to a product page request. *)
Inductive GetResult : Type :=
| GetFailed (e : string)
| GetOk (products : list Product) (link : option string).

Record FetchState : Type := {
  allProducts : list Product;
  pageInfo : option string;
  hasNextPage : bool;
  pageCount : nat
}.

Section GetAllProducts.

(** Splitting the header and reading each link's URL; [new URL] throws on
    a malformed one. *)
Variable parseLinkHeader : string -> outcome Links.

(** The store: what it answers to the request number [n] carrying the
    cursor [page_info]. *)
Variable upstream : nat -> option string -> GetResult.

Definition extractPagination (linkHeader : option string) : IO Pagination :=
  match truthy_string linkHeader with
  | None =>
      mret {| hasNext := false; hasPrevious := false;
              nextPageInfo := None; prevPageInfo := None |}
  | Some linkHeader =>
      links ← lift (parseLinkHeader linkHeader);
      mret {| hasNext := bool_decide (is_Some (truthy_string (next links)));
              hasPrevious := bool_decide (is_Some (truthy_string (previous links)));
              nextPageInfo := truthy_string (next links);
              prevPageInfo := truthy_string (previous links) |}
  end.

Definition fetchPage (st : FetchState) : IO FetchState :=
  let page_info := truthy_string (pageInfo st) in
  response ← request (fun n =>
    match upstream n page_info with
    | GetFailed e => Thrown e
    | GetOk products link => Returned (products, link)
    end);
  let products := fst response in
  let allProducts := allProducts st ++ products in
  pagination ← extractPagination (snd response);
  let hasNextPage := hasNext pagination in
  let pageInfo := nextPageInfo pagination in
  let pageCount := S (pageCount st) in
  mret {| allProducts := allProducts;
          pageInfo := pageInfo;
          hasNextPage :=
            if (length products <? 250)%nat then false else hasNextPage;
          pageCount := pageCount |}.

(** [None] is returned only if the loop is still running when the fuel is
    spent. *)
Definition getAllProducts (fuel : nat) : IO (option (list Product)) :=
  final ← while fuel
             (fun st => hasNextPage st && (pageCount st <? 50)%nat)
             fetchPage
             {| allProducts := []; pageInfo := None;
                hasNextPage := true; pageCount := 0%nat |};
  mret (allProducts <$> final).

End GetAllProducts.

(** ** Structured classification of performance, inventory and trend *)

Module PerformanceClass.
Record t : Type := {
  grade : string;
  urgency : string;
  primaryAction : string;
  expectedImpact : string;
  timeline : string
}.
End PerformanceClass.

Module InventoryClass.
Record t : Type := {
  status : string;
  priority : string;
  action : string
}.
End InventoryClass.

Module TrendClass.
Record t : Type := {
  direction : string;
  momentum : string;
  action : string
}.
End TrendClass.

Definition classifyPerformance (monthlySalesRate threshold : num)
  : PerformanceClass.t :=
  if js_eq monthlySalesRate (Fin 0) then
    {| PerformanceClass.grade := "F";
       PerformanceClass.urgency := "CRITICAL";
       PerformanceClass.primaryAction :=
         "Immediate intervention required - consider discontinuation or major pivot";
       PerformanceClass.expectedImpact :=
         "Prevent total loss, recover some inventory value";
       PerformanceClass.timeline := "1-2 weeks" |}
  else if js_lt monthlySalesRate (js_mul threshold (Fin (3 # 10))) then
    {| PerformanceClass.grade := "D";
       PerformanceClass.urgency := "HIGH";
       PerformanceClass.primaryAction :=
         "Major performance improvement needed - significant discount and promotion";
       PerformanceClass.expectedImpact :=
         "50-100% sales increase expected with aggressive action";
       PerformanceClass.timeline := "2-4 weeks" |}
  else if js_lt monthlySalesRate (js_mul threshold (Fin (7 # 10))) then
    {| PerformanceClass.grade := "C";
       PerformanceClass.urgency := "MEDIUM";
       PerformanceClass.primaryAction :=
         "Performance optimization required - moderate promotion and visibility boost";
       PerformanceClass.expectedImpact :=
         "25-50% sales increase with targeted improvements";
       PerformanceClass.timeline := "4-8 weeks" |}
  else if js_lt monthlySalesRate threshold then
    {| PerformanceClass.grade := "B-";
       PerformanceClass.urgency := "LOW";
       PerformanceClass.primaryAction :=
         "Minor optimization needed - fine-tune marketing and pricing";
       PerformanceClass.expectedImpact := "10-25% improvement with optimization";
       PerformanceClass.timeline := "1-2 months" |}
  else if js_lt monthlySalesRate (js_mul threshold (Fin 2)) then
    {| PerformanceClass.grade := "B+";
       PerformanceClass.urgency := "LOW";
       PerformanceClass.primaryAction :=
         "Maintain performance and explore growth opportunities";
       PerformanceClass.expectedImpact :=
         "Sustained growth with strategic expansion";
       PerformanceClass.timeline := "Ongoing" |}
  else if js_lt monthlySalesRate (js_mul threshold (Fin 3)) then
    {| PerformanceClass.grade := "A";
       PerformanceClass.urgency := "LOW";
       PerformanceClass.primaryAction :=
         "Scale operations and maximize revenue potential";
       PerformanceClass.expectedImpact := "2x revenue growth with proper scaling";
       PerformanceClass.timeline := "2-3 months" |}
  else
    {| PerformanceClass.grade := "A+";
       PerformanceClass.urgency := "LOW";
       PerformanceClass.primaryAction :=
         "Premium positioning and market expansion";
       PerformanceClass.expectedImpact :=
         "3x+ revenue potential with strategic positioning";
       PerformanceClass.timeline := "3-6 months" |}.

Definition classifyInventoryStatus (daysRemaining currentStock : num)
  : InventoryClass.t :=
  if js_eq currentStock (Fin 0) then
    {| InventoryClass.status := "OUT_OF_STOCK";
       InventoryClass.priority := "CRITICAL";
       InventoryClass.action := "Emergency restock required" |}
  else if js_le daysRemaining (Fin 7) then
    {| InventoryClass.status := "CRITICAL_LOW";
       InventoryClass.priority := "HIGH";
       InventoryClass.action := "Immediate reorder required" |}
  else if js_le daysRemaining (Fin 30) then
    {| InventoryClass.status := "LOW_STOCK";
       InventoryClass.priority := "MEDIUM";
       InventoryClass.action := "Plan reorder within 1 week" |}
  else if js_le daysRemaining (Fin 90) then
    {| InventoryClass.status := "OPTIMAL";
       InventoryClass.priority := "LOW";
       InventoryClass.action := "Monitor and maintain current levels" |}
  else if js_le daysRemaining (Fin 180) then
    {| InventoryClass.status := "HIGH_STOCK";
       InventoryClass.priority := "LOW";
       InventoryClass.action := "Consider reducing future orders" |}
  else
    {| InventoryClass.status := "OVERSTOCKED";
       InventoryClass.priority := "MEDIUM";
       InventoryClass.action := "Implement clearance strategy" |}.

Definition classifyTrend (salesAcceleration : num) : TrendClass.t :=
  if js_gt salesAcceleration (Fin (3 # 10)) then
    {| TrendClass.direction := "RAPIDLY_IMPROVING";
       TrendClass.momentum := "HIGH";
       TrendClass.action := "Capitalize on momentum" |}
  else if js_gt salesAcceleration (Fin (1 # 10)) then
    {| TrendClass.direction := "IMPROVING";
       TrendClass.momentum := "MEDIUM";
       TrendClass.action := "Support positive trend" |}
  else if js_gt salesAcceleration (Fin (- (1 # 10))) then
    {| TrendClass.direction := "STABLE";
       TrendClass.momentum := "LOW";
       TrendClass.action := "Maintain current strategy" |}
  else if js_gt salesAcceleration (Fin (- (3 # 10))) then
    {| TrendClass.direction := "DECLINING";
       TrendClass.momentum := "MEDIUM";
       TrendClass.action := "Address negative trend" |}
  else
    {| TrendClass.direction := "RAPIDLY_DECLINING";
       TrendClass.momentum := "HIGH";
       TrendClass.action := "Emergency intervention" |}.

(** [s.startsWith(prefix)] *)
Definition startsWith (s prefix : string) : bool := String.prefix prefix s.

Definition getPerformancePercentile (monthlySalesRate threshold : num) : string :=
  let ratio := js_div monthlySalesRate threshold in
  if js_ge ratio (Fin 3) then "Top 5% (Exceptional)"
  else if js_ge ratio (Fin 2) then "Top 15% (Excellent)"
  else if js_ge ratio (Fin (3 # 2)) then "Top 30% (Above Average)"
  else if js_ge ratio (Fin 1) then "Top 50% (Average)"
  else if js_ge ratio (Fin (1 # 2)) then "Bottom 30% (Below Average)"
  else "Bottom 10% (Poor)".

Definition calculateOpportunityScore
    (performanceClass : PerformanceClass.t) (inventoryStatus : InventoryClass.t)
    (trendStatus : TrendClass.t) : num :=
  let score := Fin 0 in
  let score :=
    if startsWith (PerformanceClass.grade performanceClass) "A"
    then js_add score (Fin 40)
    else if startsWith (PerformanceClass.grade performanceClass) "B"
    then js_add score (Fin 30)
    else if startsWith (PerformanceClass.grade performanceClass) "C"
    then js_add score (Fin 20)
    else js_add score (Fin 10) in
  let score :=
    if String.eqb (TrendClass.direction trendStatus) "RAPIDLY_IMPROVING"
    then js_add score (Fin 30)
    else if String.eqb (TrendClass.direction trendStatus) "IMPROVING"
    then js_add score (Fin 25)
    else if String.eqb (TrendClass.direction trendStatus) "STABLE"
    then js_add score (Fin 15)
    else js_add score (Fin 5) in
  let score :=
    if String.eqb (InventoryClass.status inventoryStatus) "OPTIMAL"
    then js_add score (Fin 30)
    else if String.eqb (InventoryClass.status inventoryStatus) "LOW_STOCK"
    then js_add score (Fin 20)
    else if String.eqb (InventoryClass.status inventoryStatus) "HIGH_STOCK"
    then js_add score (Fin 15)
    else js_add score (Fin 10) in
  Math_round score.

Definition getMarketPosition (monthlySalesRate threshold : num) : string :=
  if js_ge monthlySalesRate (js_mul threshold (Fin 3)) then "Market Leader"
  else if js_ge monthlySalesRate (js_mul threshold (Fin 2)) then "Strong Performer"
  else if js_ge monthlySalesRate threshold then "Average Performer"
  else if js_ge monthlySalesRate (js_mul threshold (Fin (1 # 2))) then "Below Average"
  else "Poor Performer".

Definition getUrgencyLevel (monthlySalesRate threshold : num) : string :=
  if js_eq monthlySalesRate (Fin 0) then "CRITICAL"
  else if js_lt monthlySalesRate (js_mul threshold (Fin (3 # 10))) then "HIGH"
  else if js_lt monthlySalesRate (js_mul threshold (Fin (7 # 10))) then "MEDIUM"
  else if js_lt monthlySalesRate threshold then "LOW"
  else "NONE".

Definition getStockStatus (daysRemaining : num) : string :=
  if js_le daysRemaining (Fin 0) then "OUT_OF_STOCK"
  else if js_le daysRemaining (Fin 7) then "CRITICAL_LOW"
  else if js_le daysRemaining (Fin 30) then "LOW"
  else if js_le daysRemaining (Fin 90) then "MODERATE"
  else "HIGH".

(** ** Catalogue aggregates *)

(** A product as the catalogue endpoints return it: the fields above plus
    the texts the search reads and the variants. *)
Record CatalogVariant : Type := {
  cv_variant : Variant;
  cv_title : option string;
  cv_sku : option string;
  cv_barcode : option string
}.

Record CatalogProduct : Type := {
  cp_product : Product;
  cp_title : option string;
  cp_body_html : option string;
  cp_vendor : option string;
  cp_status : option string;
  cp_variants : option (list CatalogVariant)
}.

Definition Math_min (a b : num) : num :=
  match a, b with
  | NaN, _ | _, NaN => NaN
  | _, _ => if js_lt b a then b else a
  end.

(** [Math.min(...xs)] and [Math.max(...xs)]; without arguments they are
    [Infinity] and [-Infinity]. *)
Definition Math_min_of (xs : list num) : num := foldr Math_min PInf xs.
Definition Math_max_of (xs : list num) : num := foldr Math_max NInf xs.

(** [xs.reduce((sum, x) => sum + x, 0)] *)
Definition sum_of (xs : list num) : num := foldl js_add (Fin 0) xs.

(** [xs.length] as a number *)
Definition length_of {A : Type} (xs : list A) : num :=
  Fin (inject_Z (Z.of_nat (length xs))).

(** [p.variants?.map(f) || []] *)
Definition variants_map {B : Type} (f : CatalogVariant -> B) (p : CatalogProduct)
  : list B :=
  match cp_variants p with
  | Some variants => f <$> variants
  | None => []
  end.

Record PriceRange : Type := {
  pr_min : num;
  pr_max : num;
  pr_average : num
}.

Definition calculatePriceRange (products : list CatalogProduct) : PriceRange :=
  let allPrices :=
    List.filter (fun price => negb (is_nan price))
      (products ≫= variants_map (fun v => v_price (cv_variant v))) in
  if (length allPrices =? 0)%nat then
    {| pr_min := Fin 0; pr_max := Fin 0; pr_average := Fin 0 |}
  else
    {| pr_min := Math_min_of allPrices;
       pr_max := Math_max_of allPrices;
       pr_average := js_div (sum_of allPrices) (length_of allPrices) |}.

Record InventoryStats : Type := {
  totalInventory : num;
  averageInventoryPerVariant : num;
  lowStockVariants : nat;
  outOfStockVariants : nat;
  totalVariants : nat
}.

Definition calculateInventoryStats (products : list CatalogProduct)
  : InventoryStats :=
  let allInventory :=
    products ≫= variants_map
      (fun v => js_or (v_inventory_quantity (cv_variant v)) (Fin 0)) in
  let totalInventory := sum_of allInventory in
  let lowStockVariants :=
    length (List.filter (fun qty => js_lt qty (Fin 10)) allInventory) in
  let outOfStockVariants :=
    length (List.filter (fun qty => js_eq qty (Fin 0)) allInventory) in
  {| totalInventory := totalInventory;
     averageInventoryPerVariant :=
       if (0 <? length allInventory)%nat
       then js_div totalInventory (length_of allInventory)
       else Fin 0;
     lowStockVariants := lowStockVariants;
     outOfStockVariants := outOfStockVariants;
     totalVariants := length allInventory |}.

(** [groupBy(items, property)], with [item[property]] given as [key].  The
    table is modelled by its own keys. *)
Definition groupBy {A : Type} (key : A -> option string) (items : list A)
  : gmap string nat :=
  foldl (fun acc item =>
           let k := default "Unknown"%string (truthy_string (key item)) in
           <[k := (default 0%nat (acc !! k) + 1)%nat]> acc)
        ∅ items.

Module ProductAnalytics.
Record t : Type := {
  totalProducts : nat;
  publishedProducts : nat;
  draftProducts : nat;
  archivedProducts : nat;
  productsByVendor : gmap string nat;
  productsByType : gmap string nat;
  averageVariantsPerProduct : num;
  totalVariants : num;
  priceRange : PriceRange;
  inventoryStats : InventoryStats
}.
End ProductAnalytics.

Definition has_status (status : string) (p : CatalogProduct) : bool :=
  match cp_status p with
  | Some s => String.eqb s status
  | None => false
  end.

(** [p.variants?.length || 0] *)
Definition variant_count (p : CatalogProduct) : num :=
  match cp_variants p with
  | Some variants => js_or (Some (length_of variants)) (Fin 0)
  | None => Fin 0
  end.

Section ProductAnalyticsCall.

(** The answer of the store to the one catalogue request. *)
Variable catalogue : nat -> outcome (list CatalogProduct).

Definition calculateProductAnalyticsWithCredentials : IO ProductAnalytics.t :=
  try_catch
    (products ← request catalogue;
     mret {| ProductAnalytics.totalProducts := length products;
             ProductAnalytics.publishedProducts :=
               length (List.filter (has_status "active") products);
             ProductAnalytics.draftProducts :=
               length (List.filter (has_status "draft") products);
             ProductAnalytics.archivedProducts :=
               length (List.filter (has_status "archived") products);
             ProductAnalytics.productsByVendor := groupBy cp_vendor products;
             ProductAnalytics.productsByType :=
               groupBy (fun p => p_product_type (cp_product p)) products;
             ProductAnalytics.averageVariantsPerProduct :=
               js_div (sum_of (variant_count <$> products)) (length_of products);
             ProductAnalytics.totalVariants :=
               sum_of (variant_count <$> products);
             ProductAnalytics.priceRange := calculatePriceRange products;
             ProductAnalytics.inventoryStats := calculateInventoryStats products |})
    (fun error => throw error).

End ProductAnalyticsCall.

(** ** Product search *)

Record ProductSearchParams : Type := {
  sp_limit : option num;
  sp_page_info : option string;
  sp_search : option string;
  sp_title : option string;
  sp_status : option string;
  sp_sort_by : option string;
  sp_sort_order : option string;
  sp_vendor : option string;
  sp_product_type : option string;
  sp_sku : option string;
  sp_barcode : option string;
  sp_tags : option string;
  sp_price_min : option num;
  sp_price_max : option num;
  sp_inventory_quantity_min : option num;
  sp_inventory_quantity_max : option num
}.

(** A number is truthy unless absent, zero or [NaN]. *)
Definition truthy_num (x : option num) : option num :=
  match x with
  | Some a => if js_truthy a then Some a else None
  | None => None
  end.

Definition needsCustomFiltering (params : ProductSearchParams) : bool :=
  bool_decide (is_Some (truthy_string (sp_search params)))
  || bool_decide (is_Some (truthy_string (sp_title params)))
  || bool_decide (is_Some (truthy_string (sp_sku params)))
  || bool_decide (is_Some (truthy_string (sp_barcode params)))
  || bool_decide (is_Some (truthy_string (sp_tags params)))
  || bool_decide (is_Some (truthy_num (sp_price_min params)))
  || bool_decide (is_Some (truthy_num (sp_price_max params)))
  || bool_decide (is_Some (truthy_num (sp_inventory_quantity_min params)))
  || bool_decide (is_Some (truthy_num (sp_inventory_quantity_max params))).

(** [field?.toLowerCase().includes(term)], false for an absent field *)
Definition field_includes (field : option string) (term : string) : bool :=
  match field with
  | Some s => includes (toLowerCase s) term
  | None => false
  end.

(** [product.variants?.some(test)], false without variants *)
Definition some_variant (test : CatalogVariant -> bool) (p : CatalogProduct) : bool :=
  match cp_variants p with
  | Some variants => existsb test variants
  | None => false
  end.

(** The callback of the filter in [applyCustomSearch]: each criterion that
    is set can reject the product. *)
Definition passesCustomSearch (params : ProductSearchParams)
    (product : CatalogProduct) : bool :=
  (match truthy_string (sp_search params) with
   | Some search =>
       let searchTerm := toLowerCase search in
       let searchFields :=
         omap truthy_string
           ([ cp_title product; cp_body_html product; cp_vendor product;
              p_product_type (cp_product product); p_tags (cp_product product) ]
            ++ variants_map cv_title product
            ++ variants_map cv_sku product
            ++ variants_map cv_barcode product) in
       existsb (fun field => includes (toLowerCase field) searchTerm) searchFields
   | None => true
   end)
  && (match truthy_string (sp_title params) with
      | Some title =>
          let titleSearch := toLowerCase title in
          field_includes (cp_title product) titleSearch
          || some_variant (fun v => field_includes (cv_title v) titleSearch) product
      | None => true
      end)
  && (match truthy_string (sp_tags params) with
      | Some tags => field_includes (p_tags (cp_product product)) (toLowerCase tags)
      | None => true
      end)
  && (match truthy_string (sp_sku params) with
      | Some sku =>
          some_variant (fun v => field_includes (cv_sku v) (toLowerCase sku)) product
      | None => true
      end)
  && (match truthy_string (sp_barcode params) with
      | Some barcode =>
          some_variant (fun v => field_includes (cv_barcode v) (toLowerCase barcode))
            product
      | None => true
      end)
  && (if bool_decide (is_Some (truthy_num (sp_price_min params)))
         || bool_decide (is_Some (truthy_num (sp_price_max params)))
      then
        let prices := variants_map (fun v => v_price (cv_variant v)) product in
        if (length prices =? 0)%nat then false
        else
          let minPrice := Math_min_of prices in
          let maxPrice := Math_max_of prices in
          (match truthy_num (sp_price_min params) with
           | Some price_min => negb (js_lt maxPrice price_min)
           | None => true
           end)
          && (match truthy_num (sp_price_max params) with
              | Some price_max => negb (js_gt minPrice price_max)
              | None => true
              end)
      else true)
  && (if bool_decide (is_Some (truthy_num (sp_inventory_quantity_min params)))
         || bool_decide (is_Some (truthy_num (sp_inventory_quantity_max params)))
      then
        let totalInventory :=
          match cp_variants product with
          | Some variants =>
              js_or (Some (sum_of
                             ((fun v => js_or (v_inventory_quantity (cv_variant v)) (Fin 0))
                                <$> variants)))
                    (Fin 0)
          | None => Fin 0
          end in
        (match truthy_num (sp_inventory_quantity_min params) with
         | Some quantity_min => negb (js_lt totalInventory quantity_min)
         | None => true
         end)
        && (match truthy_num (sp_inventory_quantity_max params) with
            | Some quantity_max => negb (js_gt totalInventory quantity_max)
            | None => true
            end)
      else true).

Definition applyCustomSearch (products : list CatalogProduct)
    (params : ProductSearchParams) : list CatalogProduct :=
  List.filter (passesCustomSearch params) products.

(** [a - b] *)
Definition js_sub (a b : num) : num := js_add a (js_neg b).

(** [xs.sort(compare)] for a comparison that orders consistently: the
    stable sort.  [before y x] says that [compare(y, x)] is negative. *)
Fixpoint insert_sorted {A : Type} (before : A -> A -> bool) (x : A) (l : list A)
  : list A :=
  match l with
  | [] => [x]
  | y :: l' => if before y x then y :: insert_sorted before x l' else x :: l
  end.

Definition js_sort {A : Type} (before : A -> A -> bool) (l : list A) : list A :=
  foldr (insert_sorted before) [] l.

Record ScoredProduct : Type := {
  scored : CatalogProduct;
  searchScore : num;
  matchedFields : list Template
}.

Definition getMatchedFields (product : CatalogProduct) (searchTerm : string)
  : list Template :=
  let term := toLowerCase searchTerm in
  (if field_includes (cp_title product) term then [tpl "title" []] else [])
  ++ (if field_includes (cp_vendor product) term then [tpl "vendor" []] else [])
  ++ (if field_includes (p_product_type (cp_product product)) term
      then [tpl "product_type" []] else [])
  ++ (if field_includes (p_tags (cp_product product)) term then [tpl "tags" []] else [])
  ++ match cp_variants product with
     | Some variants =>
         concat (imap (fun index variant =>
                 (if field_includes (cv_title variant) term
                  then [tpl "variants[{}].title" [Fin (inject_Z (Z.of_nat index))]] else [])
                 ++ (if field_includes (cv_sku variant) term
                     then [tpl "variants[{}].sku" [Fin (inject_Z (Z.of_nat index))]] else [])
                 ++ (if field_includes (cv_barcode variant) term
                     then [tpl "variants[{}].barcode" [Fin (inject_Z (Z.of_nat index))]] else []))
              variants)
     | None => []
     end.

(** [field?.toLowerCase().startsWith(term)] *)
Definition field_startsWith (field : option string) (term : string) : bool :=
  match field with
  | Some s => startsWith (toLowerCase s) term
  | None => false
  end.

(** The score of one product before it is divided by ten. *)
Definition relevance (product : CatalogProduct) (term : string) : Z :=
  let score := 0%Z in
  let score := if field_includes (cp_title product) term then (score + 10)%Z else score in
  let score := if field_startsWith (cp_title product) term then (score + 5)%Z else score in
  let score := if field_includes (cp_vendor product) term then (score + 3)%Z else score in
  let score :=
    if field_includes (p_product_type (cp_product product)) term
    then (score + 3)%Z else score in
  let score :=
    if field_includes (p_tags (cp_product product)) term then (score + 2)%Z else score in
  match cp_variants product with
  | Some variants =>
      foldl (fun score variant =>
               let score :=
                 if field_includes (cv_title variant) term then (score + 2)%Z else score in
               let score :=
                 if field_includes (cv_sku variant) term then (score + 4)%Z else score in
               if field_includes (cv_barcode variant) term then (score + 4)%Z else score)
            score variants
  | None => score
  end.

Definition addSearchScoring (products : list CatalogProduct) (searchTerm : string)
  : list ScoredProduct :=
  js_sort (fun a b => js_lt (js_sub (searchScore b) (searchScore a)) (Fin 0))
    ((fun product =>
        let term := toLowerCase searchTerm in
        {| scored := product;
           searchScore := js_div (Fin (inject_Z (relevance product term))) (Fin 10);
           matchedFields := getMatchedFields product term |})
       <$> products).

(** ** Lifetime value and acquisition cost *)

(** A count kept in a JavaScript number. *)
Definition count (n : nat) : num := Fin (inject_Z (Z.of_nat n)).

(** [do { body } while (cond)], where [body] answers with the new state and
    whether the loop goes on (neither a [break] was met nor the condition
    failed); run for at most [fuel] iterations, [None] when the loop is
    still running after them. *)
Fixpoint do_while {St : Type} (fuel : nat) (body : St -> IO (St * bool)) (s : St)
  : IO (option St) :=
  match fuel with
  | O => mret None
  | S fuel' =>
      body s ≫= fun r : St * bool =>
        if snd r then do_while fuel' body (fst r) else mret (Some (fst r))
  end.

(** An order as the orders request selects it; [os_total_price] is
    [parseFloat(order.total_price)]. *)
Record OrderSummary : Type := {
  os_financial_status : option string;
  os_total_price : num
}.

(** A customer as the customers request selects it; the two dates are the
    time values of [new Date(...)], absent for an invalid date. *)
Record Customer : Type := {
  c_created_at : option Z;
  c_updated_at : option Z;
  c_orders_count : option num
}.

Record OrdersData : Type := {
  od_total_revenue : num;
  od_total_orders : nat
}.

Record OrdersState : Type := {
  o_totalRevenue : num;
  o_totalOrders : nat;
  o_pageInfo : option string
}.

Record CustomersData : Type := {
  cd_total_customers : nat;
  cd_new_customers : nat;
  cd_active_customers : nat
}.

Record CustomersState : Type := {
  c_totalCustomers : nat;
  c_newCustomers : nat;
  c_activeCustomers : nat;
  c_pageInfo : option string
}.

Record ShopifyData : Type := {
  sd_total_revenue : num;
  sd_total_orders : nat;
  sd_total_customers : nat;
  sd_churn_rate : num;
  sd_new_customers_acquired : nat
}.

Record LtvCac : Type := {
  ltv : num;
  cac : num;
  recommendation : Template
}.

Record LtvCacAnalysis : Type := {
  a_ltv : num;
  a_cac : num;
  a_recommendation : Template;
  a_shopify_data : ShopifyData
}.

Definition is_paid (order : OrderSummary) : bool :=
  match os_financial_status order with
  | Some st => String.eqb st "paid" || String.eqb st "partially_paid"
  | None => false
  end.

Definition calculateChurnRate (totalCustomers activeCustomers : num) : num :=
  if js_eq totalCustomers (Fin 0) then Fin (5 # 100)
  else
    let inactiveCustomers := js_sub totalCustomers activeCustomers in
    let churnRate := js_div (js_div inactiveCustomers totalCustomers) (Fin 6) in
    Math_max (Fin (1 # 100)) (Math_min (Fin (1 # 2)) churnRate).

Definition generateRecommendation (ltv cac : num) : Template :=
  if js_eq cac (Fin 0) then
    tpl "Please add your advertising spend to get a complete analysis of your customer acquisition costs." []
  else
    let ratio := js_div ltv cac in
    if js_ge ratio (Fin 5) then
      tpl "Excellent! Your customers are worth {} but only cost {} to acquire. You're making great profit - consider increasing your marketing budget to grow faster."
          [toFixed 0 ltv; toFixed 0 cac]
    else if js_ge ratio (Fin 3) then
      tpl "Good news! Each customer brings {} in value while costing {} to acquire. Your business is profitable - you can safely increase marketing spend."
          [toFixed 0 ltv; toFixed 0 cac]
    else if js_ge ratio (Fin (3 # 2)) then
      tpl "Your business is making money. Customers are worth {} and cost {} to get. Focus on keeping customers longer to increase profits."
          [toFixed 0 ltv; toFixed 0 cac]
    else if js_gt ratio (Fin 1) then
      tpl "Warning: You're barely profitable. Customers bring {} but cost {} to acquire. Work on customer retention or reduce advertising costs."
          [toFixed 0 ltv; toFixed 0 cac]
    else
      tpl "Alert: You're losing money on each customer. They're worth {} but cost {} to acquire. Stop paid ads and focus on keeping existing customers happy."
          [toFixed 0 ltv; toFixed 0 cac].

Definition calculateLtvCac
    (totalRevenue totalOrders totalCustomers churnRate totalAdSpend
       newCustomersAcquired : num) : LtvCac :=
  let aov :=
    if js_gt totalOrders (Fin 0) then js_div totalRevenue totalOrders else Fin 0 in
  let purchaseFrequency :=
    if js_gt totalCustomers (Fin 0) then js_div totalOrders totalCustomers
    else Fin 0 in
  let customerLifespan :=
    if js_gt churnRate (Fin 0) then js_div (Fin 1) churnRate else Fin 20 in
  let ltv := js_mul (js_mul aov purchaseFrequency) customerLifespan in
  let cac :=
    if js_gt newCustomersAcquired (Fin 0)
    then js_div totalAdSpend newCustomersAcquired else Fin 0 in
  let recommendation := generateRecommendation ltv cac in
  {| ltv := round2 ltv; cac := round2 cac; recommendation := recommendation |}.

Section ShopifyStore.

(** The clock: the end of the six months analysed, their start, and the
    instant three months before the run. *)
Variables (startDate endDate threeMonthsAgo : Z).

(** The store: the body it answers to the request number [n] carrying the
    cursor [page_info], or the message of the error [client.get] throws.
    The body may lack the list asked for. *)
Variable ordersUpstream : nat -> option string -> outcome (option (list OrderSummary)).
Variable customersUpstream : nat -> option string -> outcome (option (list Customer)).

Definition countOrder (acc : num * nat) (order : OrderSummary) : num * nat :=
  if is_paid order
  then (js_add (fst acc) (js_or (Some (os_total_price order)) (Fin 0)), S (snd acc))
  else acc.

Definition fetchOrdersPage (st : OrdersState) : IO (OrdersState * bool) :=
  response ← request (fun n => ordersUpstream n (truthy_string (o_pageInfo st)));
  let orders := default [] response in
  let totals := foldl countOrder (o_totalRevenue st, o_totalOrders st) orders in
  let pageInfo := if (length orders =? 250)%nat then Some "next"%string else None in
  let st' := {| o_totalRevenue := fst totals; o_totalOrders := snd totals;
                o_pageInfo := pageInfo |} in
  if bool_decide (is_Some pageInfo) && (1000 <? snd totals)%nat
  then mret (st', false)
  else mret (st', bool_decide (is_Some pageInfo)).

Definition fetchOrdersData (fuel : nat) : IO (option OrdersData) :=
  try_catch
    (final ← do_while fuel fetchOrdersPage
               {| o_totalRevenue := Fin 0; o_totalOrders := 0%nat;
                  o_pageInfo := None |};
     mret ((fun st => {| od_total_revenue := o_totalRevenue st;
                         od_total_orders := o_totalOrders st |}) <$> final))
    (fun message => throw ("Failed to fetch orders data: " ++ message)%string).

Definition in_period (createdAt : option Z) : bool :=
  match createdAt with
  | Some createdAt => (startDate <=? createdAt)%Z && (createdAt <=? endDate)%Z
  | None => false
  end.

Definition recently_active (customer : Customer) : bool :=
  match c_updated_at customer with
  | Some updatedAt =>
      (threeMonthsAgo <=? updatedAt)%Z
      && match c_orders_count customer with
         | Some n => js_gt n (Fin 0)
         | None => false
         end
  | None => false
  end.

Definition countCustomer (st : CustomersState) (customer : Customer)
  : CustomersState :=
  {| c_totalCustomers := S (c_totalCustomers st);
     c_newCustomers :=
       if in_period (c_created_at customer)
       then S (c_newCustomers st) else c_newCustomers st;
     c_activeCustomers :=
       if recently_active customer
       then S (c_activeCustomers st) else c_activeCustomers st;
     c_pageInfo := c_pageInfo st |}.

Definition fetchCustomersPage (st : CustomersState) : IO (CustomersState * bool) :=
  response ← request (fun n => customersUpstream n (truthy_string (c_pageInfo st)));
  let customers := default [] response in
  let counted := foldl countCustomer st customers in
  let pageInfo :=
    if (length customers =? 250)%nat then Some "next"%string else None in
  let st' := {| c_totalCustomers := c_totalCustomers counted;
                c_newCustomers := c_newCustomers counted;
                c_activeCustomers := c_activeCustomers counted;
                c_pageInfo := pageInfo |} in
  if bool_decide (is_Some pageInfo) && (1000 <? c_totalCustomers counted)%nat
  then mret (st', false)
  else mret (st', bool_decide (is_Some pageInfo)).

Definition fetchCustomersData (fuel : nat) : IO (option CustomersData) :=
  try_catch
    (final ← do_while fuel fetchCustomersPage
               {| c_totalCustomers := 0%nat; c_newCustomers := 0%nat;
                  c_activeCustomers := 0%nat; c_pageInfo := None |};
     mret ((fun st => {| cd_total_customers := c_totalCustomers st;
                         cd_new_customers := c_newCustomers st;
                         cd_active_customers := c_activeCustomers st |}) <$> final))
    (fun message => throw ("Failed to fetch customers data: " ++ message)%string).

(** [None] is returned only if one of the two loops is still running when
    its fuel is spent. *)
Definition fetchShopifyData (fuel : nat) : IO (option ShopifyData) :=
  ordersData ← fetchOrdersData fuel;
  match ordersData with
  | None => mret None
  | Some ordersData =>
      customersData ← fetchCustomersData fuel;
      match customersData with
      | None => mret None
      | Some customersData =>
          let churnRate :=
            calculateChurnRate (count (cd_total_customers customersData))
                               (count (cd_active_customers customersData)) in
          mret (Some
            {| sd_total_revenue := od_total_revenue ordersData;
               sd_total_orders := od_total_orders ordersData;
               sd_total_customers := cd_total_customers customersData;
               sd_churn_rate :=
                 js_div (Math_round (js_mul churnRate (Fin 1000))) (Fin 1000);
               sd_new_customers_acquired := cd_new_customers customersData |})
      end
  end.

(** The handler of [POST /ltv-cac/analyze].  Every error leaves it as an
    [HttpException] of status 400 that carries the message of the error
    caught; the model keeps that message. *)
Definition analyzeLtvCac (shopDomain accessToken : option string)
    (adSpend : option num) (fuel : nat) : IO (option LtvCacAnalysis) :=
  try_catch
    (let adSpend := default (Fin 0) adSpend in
     match truthy_string shopDomain, truthy_string accessToken with
     | Some _, Some _ =>
         shopifyData ← fetchShopifyData fuel;
         match shopifyData with
         | None => mret None
         | Some shopifyData =>
             let result :=
               calculateLtvCac (sd_total_revenue shopifyData)
                               (count (sd_total_orders shopifyData))
                               (count (sd_total_customers shopifyData))
                               (sd_churn_rate shopifyData)
                               adSpend
                               (count (sd_new_customers_acquired shopifyData)) in
             mret (Some {| a_ltv := ltv result; a_cac := cac result;
                           a_recommendation := recommendation result;
                           a_shopify_data := shopifyData |})
         end
     | _, _ => throw "Shop domain and access token are required"
     end)
    (fun message => throw message).

End ShopifyStore.

(** ** Sales acceleration and price elasticity *)

(** [order.line_items?.some((item) => item.variant_id == variantId)] *)
Definition has_variant (variantId : Z) (order : Order) : bool :=
  match o_line_items order with
  | Some items => existsb (fun item => (li_variant_id item =? variantId)%Z) items
  | None => false
  end.

(** [items.filter((item) => item.variant_id == variantId)
          .reduce((itemSum, item) => itemSum + (item.quantity || 0), 0)] *)
Definition variantQuantity (variantId : Z) (items : list LineItem) : num :=
  foldl (fun itemSum item => js_add itemSum (js_or (li_quantity item) (Fin 0)))
        (Fin 0)
        (List.filter (fun item => (li_variant_id item =? variantId)%Z) items).

(** The units sold in one half of the variant's orders.  Every order kept by
    the filter of [calculateSalesAcceleration] has line items. *)
Definition halfSales (variantId : Z) (half : list Order) : num :=
  foldl (fun sum order =>
           js_add sum (variantQuantity variantId (default [] (o_line_items order))))
        (Fin 0) half.

(** The days from the first to the last order of a half, [1] for an empty
    half. *)
Definition halfDays (half : list Order) : num :=
  match half, last half with
  | first :: _, Some final =>
      js_div (Fin (inject_Z (o_created_at final - o_created_at first)))
             (Fin MILLISECONDS_PER_DAY)
  | _, _ => Fin 1
  end.

Definition calculateSalesAcceleration (orders : list Order) (variantId : Z) : num :=
  let variantOrders :=
    js_sort (fun a b => (o_created_at a <? o_created_at b)%Z)
            (List.filter (has_variant variantId) orders) in
  if (length variantOrders <? 2)%nat then Fin 0
  else
    let midPoint := (length variantOrders / 2)%nat in
    let firstHalf := take midPoint variantOrders in
    let secondHalf := drop midPoint variantOrders in
    let firstHalfSales := halfSales variantId firstHalf in
    let secondHalfSales := halfSales variantId secondHalf in
    let firstHalfDays := halfDays firstHalf in
    let secondHalfDays := halfDays secondHalf in
    let firstHalfRate := js_div firstHalfSales (Math_max firstHalfDays (Fin 1)) in
    let secondHalfRate := js_div secondHalfSales (Math_max secondHalfDays (Fin 1)) in
    if js_gt firstHalfRate (Fin 0)
    then js_div (js_sub secondHalfRate firstHalfRate) firstHalfRate
    else Fin 0.

(** [Math.abs] *)
Definition Math_abs (a : num) : num :=
  match a with
  | Fin x => Fin (Qabs x)
  | PInf | NInf => PInf
  | NaN => NaN
  end.

(** [a !== b] on numbers *)
Definition js_neq (a b : num) : bool := negb (js_eq a b).

(** The sum over all orders of the variant's units; reading the line items
    of an order that has none throws a [TypeError]. *)
Definition totalSalesOf (variantId : Z) (orders : list Order) : outcome num :=
  foldl (fun sum order =>
           match sum, o_line_items order with
           | Returned sum, Some items =>
               Returned (js_add sum (variantQuantity variantId items))
           | Returned _, None =>
               Thrown "TypeError: Cannot read properties of undefined (reading 'filter')"
           | Thrown e, _ => Thrown e
           end)
        (Returned (Fin 0)) orders.

(** [compare_at_price] stands for [parseFloat(variant.compare_at_price)], a
    field the [Variant] record does not hold. *)
Definition calculatePriceElasticity (variant : Variant) (compare_at_price : num)
    (orders : list Order) : outcome num :=
  let currentPrice := js_or (Some (v_price variant)) (Fin 0) in
  let compareAtPrice := js_or (Some compare_at_price) (Fin 0) in
  if js_gt compareAtPrice (Fin 0) && js_gt currentPrice (Fin 0) then
    let priceChange := js_div (js_sub currentPrice compareAtPrice) compareAtPrice in
    match totalSalesOf (v_id variant) orders with
    | Returned totalSales =>
        Returned (if js_neq priceChange (Fin 0)
                  then js_div totalSales (Math_abs priceChange) else Fin 0)
    | Thrown e => Thrown e
    end
  else Returned (Fin 0).

(** ** Threshold factors *)

Record ThresholdFactors : Type := {
  inventory_percentage_remaining : num;
  inventory_category : string;
  price_category : string;
  age_category : string;
  days_live : num;
  estimated_initial_inventory : num;
  factors_considered : list string
}.

(** [now] is the time value of [new Date()]. *)
Definition getThresholdFactors (now : Z) (variant : Variant) (product : Product)
    (totalRevenue : num) : ThresholdFactors :=
  let currentInventory := js_or (v_inventory_quantity variant) (Fin 0) in
  let price := js_or (Some (v_price variant)) (Fin 0) in
  let estimatedSold :=
    if js_gt totalRevenue (Fin 0) then Math_round (js_div totalRevenue price)
    else Fin 0 in
  let estimatedInitialInventory := js_add currentInventory estimatedSold in
  let inventoryPercentageRemaining :=
    if js_gt estimatedInitialInventory (Fin 0)
    then Math_round (js_mul (js_div currentInventory estimatedInitialInventory)
                            (Fin 100))
    else Fin 0 in
  let publishedAt := default (p_created_at product) (p_published_at product) in
  let daysLive :=
    Math_ceil (js_div (Fin (inject_Z (now - publishedAt)))
                      (Fin (1000 * 60 * 60 * 24))) in
  let priceCategory :=
    if js_ge price (Fin 500) then "high"
    else if js_ge price (Fin 100) then "medium"
    else if js_ge price (Fin 20) then "low"
    else "very_low" in
  let inventoryCategory :=
    if js_ge inventoryPercentageRemaining (Fin 80) then "high"
    else if js_ge inventoryPercentageRemaining (Fin 50) then "medium"
    else if js_ge inventoryPercentageRemaining (Fin 20) then "low"
    else if js_gt inventoryPercentageRemaining (Fin 0) then "very_low"
    else "out_of_stock" in
  let ageCategory :=
    if js_gt daysLive (Fin 30) then "established"
    else if js_gt daysLive (Fin 7) then "recent"
    else "new" in
  {| inventory_percentage_remaining := inventoryPercentageRemaining;
     inventory_category := inventoryCategory;
     price_category := priceCategory;
     age_category := ageCategory;
     days_live := daysLive;
     estimated_initial_inventory := estimatedInitialInventory;
     factors_considered :=
       ["inventory_percentage"; "price_point"; "product_age";
        "estimated_sales_velocity"] |}.

(** ** Customer analytics *)

(** A customer of the store.  [sc_total_spent] is [parseFloat] of the amount
    string, absent when the string is missing or empty. *)
Record ShopCustomer : Type := {
  sc_id : Z;
  sc_orders_count : option num;
  sc_total_spent : option num;
  sc_state : option string
}.

Record TopCustomer : Type := {
  tc_id : Z;
  tc_totalSpent : num;
  tc_ordersCount : option num
}.

Module CustomerAnalytics.
Record t : Type := {
  totalCustomers : nat;
  newCustomers : Z;
  returningCustomers : nat;
  averageLifetimeValue : num;
  topCustomers : list TopCustomer;
  customersByState : gmap string nat
}.
End CustomerAnalytics.

(** [parseFloat(c.total_spent || '0')] *)
Definition spent (c : ShopCustomer) : num := default (Fin 0) (sc_total_spent c).

(** [c.orders_count > 1] *)
Definition is_returning (c : ShopCustomer) : bool :=
  match sc_orders_count c with
  | Some n => js_gt n (Fin 1)
  | None => false
  end.

Definition topCustomer (customer : ShopCustomer) : TopCustomer :=
  {| tc_id := sc_id customer;
     tc_totalSpent := spent customer;
     tc_ordersCount := sc_orders_count customer |}.

Section CustomerAnalyticsCall.

(** The answer of the store to the one customers request; the body may lack
    the list. *)
Variable customersReply : nat -> outcome (option (list ShopCustomer)).

Definition calculateCustomerAnalyticsWithCredentials : IO CustomerAnalytics.t :=
  try_catch
    (body ← request customersReply;
     match body with
     | None =>
         throw "TypeError: Cannot read properties of undefined (reading 'length')"
     | Some customers =>
         let totalCustomers := length customers in
         let returningCustomers := length (List.filter is_returning customers) in
         let newCustomers := (Z.of_nat totalCustomers - Z.of_nat returningCustomers)%Z in
         let totalSpent := foldl (fun sum c => js_add sum (spent c)) (Fin 0) customers in
         let averageLifetimeValue :=
           js_or (Some (js_div totalSpent (count totalCustomers))) (Fin 0) in
         (* [sort] reorders [customers] itself; the states are counted after it *)
         let customers :=
           js_sort (fun a b => js_lt (js_sub (spent b) (spent a)) (Fin 0)) customers in
         let topCustomers := topCustomer <$> take 10 customers in
         let customersByState :=
           foldl (fun acc customer =>
                    let state := default "enabled"%string
                                   (truthy_string (sc_state customer)) in
                    <[state := (default 0%nat (acc !! state) + 1)%nat]> acc)
                 ∅ customers in
         mret {| CustomerAnalytics.totalCustomers := totalCustomers;
                 CustomerAnalytics.newCustomers := newCustomers;
                 CustomerAnalytics.returningCustomers := returningCustomers;
                 CustomerAnalytics.averageLifetimeValue := averageLifetimeValue;
                 CustomerAnalytics.topCustomers := topCustomers;
                 CustomerAnalytics.customersByState := customersByState |}
     end)
    (fun error => throw error).

End CustomerAnalyticsCall.

(** ** Metrics for the strategy prediction *)

Definition PRODUCT_KEYWORDS_CONSUMABLE : list string :=
  ["food"; "beverage"; "supplement"; "consumable"]%string.

Definition PRODUCT_KEYWORDS_SEASONAL : list string :=
  ["winter"; "summer"; "spring"; "fall"; "autumn"; "holiday"; "christmas";
   "seasonal"; "diwali"; "holi"; "rakhi"]%string.

(** An order as [calculateAIMetrics] reads it: its refunds, the id of its
    customer ([order.customer?.id]) and [parseFloat] of the shipping amount,
    absent when the amount is [undefined]. *)
Record MetricsOrder : Type := {
  mo_refunds : option (list Z);
  mo_customer_id : option Z;
  mo_shipping_amount : option num
}.

Record AIMetrics : Type := {
  m_price : num;
  m_category : JsValue;
  m_return_rate : num;
  m_repeat_rate : num;
  m_churn_rate : num;
  m_is_consumable : num;
  m_is_seasonal : num;
  m_shipping_cost : num;
  m_traffic_source : string
}.

(** [order.refunds && order.refunds.length > 0] *)
Definition has_refunds (order : MetricsOrder) : bool :=
  match mo_refunds order with
  | Some (_ :: _) => true
  | _ => false
  end.

(** The table of orders per customer; an id of [0] counts as absent. *)
Definition customerOrderCounts (orders : list MetricsOrder) : gmap Z nat :=
  foldl (fun acc order =>
           match mo_customer_id order with
           | Some id =>
               if (id =? 0)%Z then acc
               else <[id := (default 0%nat (acc !! id) + 1)%nat]> acc
           | None => acc
           end)
        ∅ orders.

(** The shipping amounts summed and counted. *)
Definition shippingTotals (orders : list MetricsOrder) : num * nat :=
  foldl (fun acc order =>
           match mo_shipping_amount order with
           | Some shippingAmount => (js_add (fst acc) shippingAmount, S (snd acc))
           | None => acc
           end)
        (Fin 0, 0%nat) orders.

(** [variantId] and [externalCategory] are absent when the argument is
    missing; an empty category counts as missing. *)
Definition calculateAIMetrics (product : CatalogProduct) (orders : list MetricsOrder)
    (variantId : option Z) (externalCategory : option string) : AIMetrics :=
  let targetVariant :=
    match cp_variants product with
    | Some (first :: _) => Some first
    | _ => None
    end in
  let targetVariant :=
    match variantId with
    | Some variantId =>
        match cp_variants product
              ≫= List.find (fun v => (v_id (cv_variant v) =? variantId)%Z) with
        | Some specificVariant => Some specificVariant
        | None => targetVariant
        end
    | None => targetVariant
    end in
  let price :=
    match targetVariant with
    | Some v => js_or (Some (v_price (cv_variant v))) (Fin 0)
    | None => Fin 0
    end in
  let ordersWithRefunds := length (List.filter has_refunds orders) in
  let returnRate :=
    if (0 <? length orders)%nat
    then js_div (count ordersWithRefunds) (count (length orders)) else Fin 0 in
  let counts := customerOrderCounts orders in
  let repeatCustomers :=
    length (List.filter (fun c => (1 <? c)%nat) (snd <$> map_to_list counts)) in
  let totalCustomers := length (map_to_list counts) in
  let repeatRate :=
    if (0 <? totalCustomers)%nat
    then js_div (count repeatCustomers) (count totalCustomers) else Fin 0 in
  let churnRate := js_sub (Fin 1) repeatRate in
  let isConsumable :=
    if match truthy_string externalCategory with
       | Some c =>
           existsb (fun keyword => includes (toLowerCase c) keyword)
                   PRODUCT_KEYWORDS_CONSUMABLE
       | None => false
       end
       || existsb (fun keyword =>
                     field_includes (p_product_type (cp_product product)) keyword
                     || field_includes (p_tags (cp_product product)) keyword)
                  PRODUCT_KEYWORDS_CONSUMABLE
    then Fin 1 else Fin 0 in
  let isSeasonal :=
    if existsb (fun keyword =>
                  field_includes (cp_title product) keyword
                  || field_includes (p_tags (cp_product product)) keyword)
               PRODUCT_KEYWORDS_SEASONAL
    then Fin 1 else Fin 0 in
  let totals := shippingTotals orders in
  let shippingCost :=
    if (0 <? snd totals)%nat then js_div (fst totals) (count (snd totals))
    else Fin 0 in
  let category :=
    match truthy_string externalCategory with
    | Some c => JsString c
    | None => getProductCategory (p_product_type (cp_product product))
    end in
  {| m_price := price;
     m_category := category;
     m_return_rate := round2 returnRate;
     m_repeat_rate := round2 repeatRate;
     m_churn_rate := round2 churnRate;
     m_is_consumable := isConsumable;
     m_is_seasonal := isSeasonal;
     m_shipping_cost := round2 shippingCost;
     m_traffic_source := "organic" |}.

(** ** Search by variants *)

(** The value of [matches] after the two text criteria. *)
Definition matchesText (searchParams : ProductSearchParams) (variant : CatalogVariant)
  : bool :=
  (match truthy_string (sp_sku searchParams) with
   | Some sku => field_includes (cv_sku variant) (toLowerCase sku)
   | None => true
   end)
  && (match truthy_string (sp_barcode searchParams) with
      | Some barcode => field_includes (cv_barcode variant) (toLowerCase barcode)
      | None => true
      end).

(** The value of [matches] after all six criteria. *)
Definition matchesAll (searchParams : ProductSearchParams) (variant : CatalogVariant)
  : bool :=
  matchesText searchParams variant
  && (match truthy_num (sp_price_min searchParams) with
      | Some price_min => js_ge (v_price (cv_variant variant)) price_min
      | None => true
      end)
  && (match truthy_num (sp_price_max searchParams) with
      | Some price_max => js_le (v_price (cv_variant variant)) price_max
      | None => true
      end)
  && (match truthy_num (sp_inventory_quantity_min searchParams) with
      | Some quantity_min =>
          js_ge (js_or (v_inventory_quantity (cv_variant variant)) (Fin 0))
                quantity_min
      | None => true
      end)
  && (match truthy_num (sp_inventory_quantity_max searchParams) with
      | Some quantity_max =>
          js_le (js_or (v_inventory_quantity (cv_variant variant)) (Fin 0))
                quantity_max
      | None => true
      end).

(** Of the returned object the model keeps the products, each with its
    [matchingVariants], the count and the flag. *)
Record VariantSearch : Type := {
  vs_products : list (CatalogProduct * list CatalogVariant);
  vs_count : nat;
  variantSearchResults : bool
}.

Section VariantSearchCall.

(** The answer of the store to the one catalogue request, which carries the
    page size [limit]. *)
Variable catalogue : num -> nat -> outcome (list CatalogProduct).

Definition searchProductsByVariants (searchParams : ProductSearchParams)
  : IO VariantSearch :=
  try_catch
    (products ← request (catalogue (js_or (sp_limit searchParams) (Fin 250)));
     let matchingProducts :=
       List.filter (some_variant (matchesAll searchParams)) products in
     let productsWithMatchingVariants :=
       (fun product =>
          (product,
           List.filter (matchesText searchParams) (default [] (cp_variants product))))
       <$> matchingProducts in
     mret {| vs_products := productsWithMatchingVariants;
             vs_count := length matchingProducts;
             variantSearchResults := true |})
    (fun error => throw error).

End VariantSearchCall.

(** * The rounding-sensitive functions over binary64

    Where a verdict, a label or a printed figure of the service depends on
    how a quotient or a product is rounded, the exact model above can differ
    from what the service computes.  The functions concerned are embedded
    here a second time, operation for operation, over IEEE 754 binary64
    numbers (the primitive floats, round to nearest, ties to even), which is
    the arithmetic of a JavaScript number. *)

Module B64.

#[local] Open Scope float_scope.
#[local] Set Warnings "-inexact-float".

(** The number an integer converts to (exact below [2^53]). *)
Definition of_Z (z : Z) : float :=
  if (z <? 0)%Z then - of_uint63 (Uint63.of_Z (- z))
  else of_uint63 (Uint63.of_Z z).

(** The exact value of a number, as the exact model has it. *)
Definition to_num (x : float) : num :=
  match Prim2SF x with
  | S754_zero _ => Fin 0
  | S754_infinity s => if s then NInf else PInf
  | S754_nan => NaN
  | S754_finite s m e =>
      Fin ((if s then - (1) else 1) * inject_Z (Z.pos m) * 2 ^ e)%Q
  end.

(** [x || 0]: [NaN] and both zeros are falsy. *)
Definition or_zero (x : float) : float :=
  if PrimFloat.is_nan x || (x =? 0) then 0 else x.

(** [Math.ceil]: a number of magnitude [2^53] or more, an infinity and
    [NaN] are returned as they are; a value in [(-1, 0)] gives [-0]. *)
Definition Math_ceil (x : float) : float :=
  match Prim2SF x with
  | S754_finite s m e =>
      if (0 <=? e)%Z then x
      else
        let whole := Z.shiftr (Z.pos m) (- e) in
        if s then - of_Z whole
        else if (Z.shiftl whole (- e) =? Z.pos m)%Z then of_Z whole
             else of_Z (whole + 1)
  | _ => x
  end.

(** [Math.round]: the nearest integer, a tie going up; a value in
    [[-0.5, 0)] gives [-0]. *)
Definition Math_round (x : float) : float :=
  match Prim2SF x with
  | S754_finite s m e =>
      if (0 <=? e)%Z then x
      else
        let half := Z.shiftl 1 (- e - 1) in
        if s then - of_Z (- Z.shiftr (half - Z.pos m) (- e))
        else of_Z (Z.shiftr (Z.pos m + half) (- e))
  | _ => x
  end.

(** [Math.max] of two numbers: [NaN] if either is, and [+0] above [-0]. *)
Definition Math_max (x y : float) : float :=
  if PrimFloat.is_nan x || PrimFloat.is_nan y then nan
  else if x <? y then y
  else if y <? x then x
  else if get_sign x then y else x.

(** [Math.round(x * 100) / 100] *)
Definition round2 (x : float) : float := Math_round (x * 100) / 100.

(** The number [x.toFixed(d)] prints: the exact value of [x] rounded to [d]
    decimals, a tie going away from zero. *)
Definition toFixed (d : nat) (x : float) : num := toFixed d (to_num x).

Definition MILLISECONDS_PER_DAY : float := 1000 * 60 * 60 * 24.
Definition DAYS_PER_MONTH : float := 30.
Definition MINIMUM_MONTHS_LIVE : float := 0.033.
Definition STALE_PERCENTAGE : float := 10.

Record PercentageBasedStaleAnalysis : Type := {
  is_stale : bool;
  monthly_sales_rate : float;
  percent_sold_per_month : float;
  months_live : float;
  threshold_percent_used : float
}.

(** Dates are given by their time values ([Date.getTime()], [NaN] for an
    invalid date).  The threshold is optional and defaults to
    [STALE_PERCENTAGE]. *)
Definition calculatePercentageBasedStaleAnalysis
    (unitsSold totalInventoryAdded publishDate currentDate : float)
    (thresholdPercentArg : option float) : PercentageBasedStaleAnalysis :=
  let thresholdPercent := default STALE_PERCENTAGE thresholdPercentArg in
  let daysLive :=
    Math_ceil ((currentDate - publishDate) / MILLISECONDS_PER_DAY) in
  let monthsLive := Math_max (daysLive / DAYS_PER_MONTH) MINIMUM_MONTHS_LIVE in
  let monthlySalesRate := unitsSold / monthsLive in
  let percentSoldPerMonth :=
    if 0 <? totalInventoryAdded
    then monthlySalesRate / totalInventoryAdded * 100
    else 0 in
  let isStale := percentSoldPerMonth <? thresholdPercent in
  {| is_stale := isStale;
     monthly_sales_rate := round2 monthlySalesRate;
     percent_sold_per_month := round2 percentSoldPerMonth;
     months_live := round2 monthsLive;
     threshold_percent_used := thresholdPercent |}.

(** The suggestion rules.  Of a variant the price is what [parseFloat]
    makes of its price string.  A number interpolated into a text is kept by
    its value. *)

Record Variant : Type := {
  v_id : Z;
  v_price : float;
  v_inventory_quantity : option float
}.

Definition getSimpleInventoryStatus (daysRemaining currentStock : float)
  : InventoryStatus :=
  if currentStock =? 0 then OUT_OF_STOCK
  else if daysRemaining <=? 7 then CRITICAL_LOW
  else if daysRemaining <=? 30 then STATUS_LOW
  else if daysRemaining <=? 90 then OPTIMAL
  else if daysRemaining <=? 180 then STATUS_HIGH
  else OVERSTOCKED.

Definition inventorySuggestions (currentInventory daysOfStockRemaining : float)
  : list Suggestion :=
  if currentInventory =? 0 then
    [ {| type := CRITICAL_INVENTORY;
         action := tpl "Emergency restock required immediately" [];
         reason := tpl "Product is out of stock" [];
         priority := URGENT |} ]
  else if daysOfStockRemaining <=? 7 then
    [ {| type := LOW_INVENTORY;
         action := tpl "Reorder immediately - only {} days of stock remaining"
                       [to_num (Math_round daysOfStockRemaining)];
         reason := tpl "Critical low inventory level" [];
         priority := HIGH |} ]
  else if daysOfStockRemaining <=? 30 then
    [ {| type := INVENTORY_WARNING;
         action := tpl "Plan reorder within 1 week - {} days remaining"
                       [to_num (Math_round daysOfStockRemaining)];
         reason := tpl "Low inventory approaching" [];
         priority := MEDIUM |} ]
  else if 180 <? daysOfStockRemaining then
    [ {| type := OVERSTOCK;
         action := tpl "Consider clearance strategy - excess inventory detected" [];
         reason := tpl "{} days of stock remaining"
                       [to_num (Math_round daysOfStockRemaining)];
         priority := MEDIUM |} ]
  else [].

Definition performanceSuggestions (monthlySalesRate staleThreshold : float)
  : list Suggestion :=
  if monthlySalesRate =? 0 then
    [ {| type := NO_SALES;
         action := tpl "Apply 40-50% discount or consider discontinuation" [];
         reason := tpl "No sales recorded in analysis period" [];
         priority := CRITICAL |} ]
  else if monthlySalesRate <? staleThreshold * 0.3 then
    [ {| type := POOR_PERFORMANCE;
         action := tpl "Apply 25-35% discount and run targeted ads" [];
         reason := tpl "Very low sales rate: {} units/month"
                       [toFixed 1 monthlySalesRate];
         priority := HIGH |} ]
  else if monthlySalesRate <? staleThreshold then
    [ {| type := BELOW_TARGET;
         action := tpl "Apply 15-20% discount and optimize product visibility" [];
         reason := tpl "Below target sales rate: {} units/month (target: {})"
                       [toFixed 1 monthlySalesRate; to_num staleThreshold];
         priority := MEDIUM |} ]
  else if staleThreshold * 2 <=? monthlySalesRate then
    [ {| type := HIGH_PERFORMER;
         action := tpl "Test 10-15% price increase and scale marketing" [];
         reason := tpl "Excellent sales rate: {} units/month"
                       [toFixed 1 monthlySalesRate];
         priority := LOW |} ]
  else [].

Definition trendSuggestions (salesAcceleration : float) : list Suggestion :=
  if salesAcceleration <? - 0.3 then
    [ {| type := DECLINING_TREND;
         action := tpl "Investigate cause and implement recovery strategy" [];
         reason := tpl "Rapidly declining sales trend detected" [];
         priority := HIGH |} ]
  else if 0.3 <? salesAcceleration then
    [ {| type := POSITIVE_MOMENTUM;
         action := tpl "Increase marketing budget to capitalize on momentum" [];
         reason := tpl "Strong positive sales trend detected" [];
         priority := MEDIUM |} ]
  else [].

Definition pricingSuggestions (monthlySalesRate staleThreshold price : float)
  : list Suggestion :=
  if (staleThreshold <=? monthlySalesRate) && (0 <? price) then
    let potentialIncrease := Math_round (price * 0.15 * 100) / 100 in
    [ {| type := PRICING_OPPORTUNITY;
         action := tpl "Test price increase to ${}"
                       [toFixed 2 (price + potentialIncrease)];
         reason := tpl "Strong demand indicates pricing power" [];
         priority := LOW |} ]
  else [].

Definition seasonalSuggestions (seasonalityScore : float) : list Suggestion :=
  if 0.5 <? seasonalityScore then
    [ {| type := SEASONAL_PLANNING;
         action := tpl "Plan seasonal inventory and marketing campaigns" [];
         reason := tpl "High seasonality pattern detected" [];
         priority := MEDIUM |} ]
  else [].

Definition bundlingSuggestions (monthlySalesRate staleThreshold totalRevenue : float)
  : list Suggestion :=
  if (monthlySalesRate <? staleThreshold) && (0 <? totalRevenue) then
    [ {| type := BUNDLING_OPPORTUNITY;
         action := tpl "Create bundles with popular products" [];
         reason := tpl "Slow sales could benefit from bundling strategy" [];
         priority := MEDIUM |} ]
  else [].

Record PerformanceSummary : Type := {
  ps_monthly_sales_rate : float;
  ps_stale_threshold_used : float;
  inventory_status : InventoryStatus;
  trend : Trend
}.

Record VariantSuggestions : Type := {
  total_suggestions : nat;
  suggestions : list Suggestion;
  performance_summary : PerformanceSummary;
  current_performance : Performance
}.

(** [generateVariantSuggestions]; the parts of the returned object are
    those the exact model keeps. *)
Definition generateVariantSuggestions
    (variant : Variant) (product : Product)
    (monthlySalesRate staleThreshold currentInventory daysOfStockRemaining
       totalRevenue monthsLive salesAcceleration seasonalityScore : float)
    (staleAnalysis : option PercentageBasedStaleAnalysis)
    (totalQuantitySold : option float) : VariantSuggestions :=
  let price := or_zero (v_price variant) in
  let suggestions :=
    inventorySuggestions currentInventory daysOfStockRemaining
    ++ performanceSuggestions monthlySalesRate staleThreshold
    ++ trendSuggestions salesAcceleration
    ++ pricingSuggestions monthlySalesRate staleThreshold price
    ++ seasonalSuggestions seasonalityScore
    ++ bundlingSuggestions monthlySalesRate staleThreshold totalRevenue in
  {| total_suggestions := length suggestions;
     suggestions := suggestions;
     performance_summary :=
       {| ps_monthly_sales_rate := monthlySalesRate;
          ps_stale_threshold_used := staleThreshold;
          inventory_status :=
            getSimpleInventoryStatus daysOfStockRemaining currentInventory;
          trend :=
            if 0.1 <? salesAcceleration then IMPROVING
            else if salesAcceleration <? - 0.1 then DECLINING
            else STABLE |};
     current_performance :=
       match staleAnalysis with
       | Some sa => if is_stale sa then BELOW_THRESHOLD else ABOVE_THRESHOLD
       | None =>
           if staleThreshold <=? monthlySalesRate
           then ABOVE_THRESHOLD else BELOW_THRESHOLD
       end |}.

Definition suggestion_types (out : VariantSuggestions) : list SuggestionType :=
  type <$> suggestions out.

End B64.

(** ** The properties as the specification words them *)

(** Rounding to two decimals, ties upwards. *)
Definition Qround2 (x : Q) : Q := inject_Z (Qfloor (x * 100 + (1 # 2))) / 100.

(** [months_live = max(ceil((c - p) / 1 day) / 30, 0.033)] *)
Definition spec_months_live (p c : Z) : Q :=
  Qmax (inject_Z (Qceiling (inject_Z (c - p) / 86400000)) / 30) (33 # 1000).

(** The rule group a suggestion type belongs to. *)
Inductive RuleGroup : Type :=
| InventoryRule | PerformanceRule | TrendRule
| PricingRule | SeasonalRule | BundlingRule.

#[global] Instance RuleGroup_eq_dec : EqDecision RuleGroup.
Proof. solve_decision. Defined.

Definition rule_group (ty : SuggestionType) : RuleGroup :=
  match ty with
  | CRITICAL_INVENTORY | LOW_INVENTORY | INVENTORY_WARNING | OVERSTOCK =>
      InventoryRule
  | NO_SALES | POOR_PERFORMANCE | BELOW_TARGET | HIGH_PERFORMER =>
      PerformanceRule
  | DECLINING_TREND | POSITIVE_MOMENTUM => TrendRule
  | PRICING_OPPORTUNITY => PricingRule
  | SEASONAL_PLANNING => SeasonalRule
  | BUNDLING_OPPORTUNITY => BundlingRule
  end.

Definition in_group (g : RuleGroup) (s : Suggestion) : Prop :=
  rule_group (type s) = g.

#[global] Instance in_group_dec (g : RuleGroup) (s : Suggestion) :
  Decision (in_group g s).
Proof. unfold in_group. apply _. Defined.

(** How many suggestions of a list come from the given rule group. *)
Definition count_of (g : RuleGroup) (l : list Suggestion) : nat :=
  length (filter (in_group g) l).

(** The day boundaries of the six inventory-status categories. *)
Definition status_region (st : InventoryStatus) (d s : Q) : Prop :=
  match st with
  | OUT_OF_STOCK => s == 0
  | CRITICAL_LOW => ~ s == 0 /\ d <= 7
  | STATUS_LOW => ~ s == 0 /\ 7 < d /\ d <= 30
  | OPTIMAL => ~ s == 0 /\ 30 < d /\ d <= 90
  | STATUS_HIGH => ~ s == 0 /\ 90 < d /\ d <= 180
  | OVERSTOCKED => ~ s == 0 /\ 180 < d
  end.

(** An order set in which no line item is of the given variant. *)
Definition has_no_line_item_of (variantId : Z) (order : Order) : Prop :=
  forall items, o_line_items order = Some items ->
    Forall (fun item => li_variant_id item <> variantId) items.

Definition no_sales_of (variantId : Z) (orders : list Order) : Prop :=
  Forall (has_no_line_item_of variantId) orders.

(** [category] occurs in [tags], letter case aside. *)
Definition occurs_in_tags (category tags : string) : Prop :=
  exists before after : string,
    toLowerCase tags = (before ++ category ++ after)%string.

(** The product-type to category table as the constants file lists it. *)
Definition static_category_table : list (string * string) :=
  [ ("clothing", "fashion"); ("accessories", "fashion");
    ("electronics", "electronics"); ("home", "home"); ("sports", "fitness");
    ("health", "health"); ("beauty", "beauty"); ("toys", "toys");
    ("books", "books"); ("automotive", "automotive") ]%string.

(** The external classification is of no use: no endpoint is configured,
    the request is rejected, the answer is not a success, its body is not
    JSON, or the body names no category. *)
Definition classification_fails (url : option string)
    (endpoint : string -> Product -> FetchResult) (product : Product) : Prop :=
  match truthy_string url with
  | None => True
  | Some u =>
      match endpoint u product with
      | FetchRejected _ => True
      | FetchResponse ok json =>
          ok = false \/ json = None
          \/ json = Some {| categories_in_training_data0 := None;
                            r_category := None;
                            r_data_category := None;
                            r_predicted_category := None;
                            r_classification := None;
                            r_result_category := None |}
      end
  end.

(** Line items carry a quantity that is absent or a non-negative number. *)
Definition quantity_ok (item : LineItem) : Prop :=
  match li_quantity item with
  | None => True
  | Some (Fin q) => 0 <= q
  | Some _ => False
  end.

Definition quantities_ok (orders : list Order) : Prop :=
  Forall (fun order =>
            forall items, o_line_items order = Some items ->
                          Forall quantity_ok items) orders.

(** The place of a grade on the scale from F to A+. *)
Definition grade_rank (g : string) : nat :=
  if String.eqb g "F" then 0
  else if String.eqb g "D" then 1
  else if String.eqb g "C" then 2
  else if String.eqb g "B-" then 3
  else if String.eqb g "B+" then 4
  else if String.eqb g "A" then 5
  else 6.

(** The name [classifyInventoryStatus] gives to each inventory band. *)
Definition band_name (st : InventoryStatus) : string :=
  match st with
  | OUT_OF_STOCK => "OUT_OF_STOCK"
  | CRITICAL_LOW => "CRITICAL_LOW"
  | STATUS_LOW => "LOW_STOCK"
  | OPTIMAL => "OPTIMAL"
  | STATUS_HIGH => "HIGH_STOCK"
  | OVERSTOCKED => "OVERSTOCKED"
  end.

(** Every stock quantity of the catalogue is absent or a number other than
    an infinity. *)
Definition finite_stock (products : list CatalogProduct) : Prop :=
  Forall (fun q => is_finite q = true)
    (products ≫= variants_map
       (fun v => js_or (v_inventory_quantity (cv_variant v)) (Fin 0))).

(** The prices of all variants of the catalogue, parsed. *)
Definition catalogue_prices (products : list CatalogProduct) : list num :=
  products ≫= variants_map (fun v => v_price (cv_variant v)).

(** How many items carry the key [k]; an absent or empty key counts as
    [Unknown]. *)
Definition items_with_key {A : Type} (key : A -> option string) (k : string)
    (items : list A) : nat :=
  length (filter (fun item => default "Unknown"%string (truthy_string (key item)) = k)
            items).

(** Some text of the product or of one of its variants contains the term. *)
Definition any_field_matches (product : CatalogProduct) (term : string) : bool :=
  field_includes (cp_title product) term
  || field_includes (cp_vendor product) term
  || field_includes (p_product_type (cp_product product)) term
  || field_includes (p_tags (cp_product product)) term
  || some_variant (fun v => field_includes (cv_title v) term
                            || field_includes (cv_sku v) term
                            || field_includes (cv_barcode v) term) product.

(** The score as a rational, zero for a score that is not finite. *)
Definition score_value (sp : ScoredProduct) : Q :=
  match searchScore sp with
  | Fin q => q
  | _ => 0
  end.

(** The new and the active customers are among the customers counted. *)
Definition counts_ok (st : CustomersState) : Prop :=
  (c_newCustomers st <= c_totalCustomers st)%nat
  /\ (c_activeCustomers st <= c_totalCustomers st)%nat.

(** The rational a finite number stands for. *)
Definition finite_value (a : num) : Q :=
  match a with
  | Fin q => q
  | _ => 0
  end.

(** The stale analysis as the specification words it, evaluated on binary64
    numbers in the order in which the formulas are written. *)
Module Spec64.

#[local] Open Scope float_scope.
#[local] Set Warnings "-inexact-float".

Definition one_day : float := 86400000.

Definition months_live (p c : float) : float :=
  B64.Math_max (B64.Math_ceil ((c - p) / one_day) / 30) 0.033.

Definition percent_sold_per_month (u n p c : float) : float :=
  u / months_live p c / n * 100.

End Spec64.

(** * Properties *)

(** ** Comparisons and arithmetic on finite numbers *)

Lemma Qltb_lt (x y : Q) : Qltb x y = true <-> x < y.
Proof.
  unfold Qltb. rewrite Qlt_alt. destruct (x ?= y); split; congruence.
Qed.

Lemma Qltb_ge (x y : Q) : Qltb x y = false <-> y <= x.
Proof.
  rewrite <- not_true_iff_false, Qltb_lt. split; intros H.
  - apply Qnot_lt_le, H.
  - apply Qle_not_lt, H.
Qed.

Lemma Qeq_bool_false (x y : Q) : Qeq_bool x y = false <-> ~ x == y.
Proof.
  rewrite <- not_true_iff_false, Qeq_bool_iff. reflexivity.
Qed.

Lemma js_lt_Fin (x y : Q) : js_lt (Fin x) (Fin y) = true <-> x < y.
Proof. apply Qltb_lt. Qed.

Lemma js_lt_Fin_false (x y : Q) : js_lt (Fin x) (Fin y) = false <-> y <= x.
Proof. apply Qltb_ge. Qed.

Lemma js_le_Fin (x y : Q) : js_le (Fin x) (Fin y) = true <-> x <= y.
Proof.
  unfold js_le; cbn. rewrite negb_true_iff. apply Qltb_ge.
Qed.

Lemma js_le_Fin_false (x y : Q) : js_le (Fin x) (Fin y) = false <-> y < x.
Proof.
  unfold js_le; cbn. rewrite negb_false_iff. apply Qltb_lt.
Qed.

Lemma js_eq_Fin (x y : Q) : js_eq (Fin x) (Fin y) = true <-> x == y.
Proof. apply Qeq_bool_iff. Qed.

Lemma js_eq_Fin_false (x y : Q) : js_eq (Fin x) (Fin y) = false <-> ~ x == y.
Proof. apply Qeq_bool_false. Qed.

Lemma js_div_Fin (x y : Q) : ~ y == 0 -> js_div (Fin x) (Fin y) = Fin (x / y).
Proof.
  intros H. cbn. apply Qeq_bool_false in H. rewrite H. reflexivity.
Qed.

(** Split on every comparison of two finite numbers in the goal, recording
    its result as a fact about the order on the rationals. *)
Ltac finite_case :=
  match goal with
  | |- context [js_lt (Fin ?x) (Fin ?y)] =>
      let H := fresh "Hc" in
      destruct (js_lt (Fin x) (Fin y)) eqn:H;
      [apply js_lt_Fin in H | apply js_lt_Fin_false in H]
  | |- context [js_le (Fin ?x) (Fin ?y)] =>
      let H := fresh "Hc" in
      destruct (js_le (Fin x) (Fin y)) eqn:H;
      [apply js_le_Fin in H | apply js_le_Fin_false in H]
  | |- context [js_eq (Fin ?x) (Fin ?y)] =>
      let H := fresh "Hc" in
      destruct (js_eq (Fin x) (Fin y)) eqn:H;
      [apply js_eq_Fin in H | apply js_eq_Fin_false in H]
  end.

Ltac finite_cases := unfold js_gt, js_ge in *; repeat (finite_case; cbn [andb negb]).

#[global] Instance num_equiv_equivalence : Equivalence num_equiv.
Proof.
  split.
  - intros []; cbn; auto. reflexivity.
  - intros [] []; cbn; auto. intros H; symmetry; exact H.
  - intros [] [] []; cbn; auto; try contradiction. intros H1 H2.
    etransitivity; eassumption.
Qed.

Lemma Qltb_comp (x x' y y' : Q) : x == x' -> y == y' -> Qltb x y = Qltb x' y'.
Proof.
  intros Hx Hy. unfold Qltb. rewrite (Qcompare_comp x x' Hx y y' Hy). reflexivity.
Qed.

#[global] Instance js_lt_proper : Proper (num_equiv ==> num_equiv ==> eq) js_lt.
Proof.
  intros [] [] Ha [] [] Hb; cbn in *; try contradiction; auto using Qltb_comp.
Qed.

#[global] Instance js_le_proper : Proper (num_equiv ==> num_equiv ==> eq) js_le.
Proof.
  intros a a' Ha b b' Hb. unfold js_le. rewrite (js_lt_proper _ _ Hb _ _ Ha).
  destruct a, a', b, b'; cbn in *; try contradiction; reflexivity.
Qed.

#[global] Instance js_eq_proper : Proper (num_equiv ==> num_equiv ==> eq) js_eq.
Proof.
  intros [] [] Ha [] [] Hb; cbn in *; try contradiction; auto.
  destruct (Qeq_bool q q1) eqn:E1, (Qeq_bool q0 q2) eqn:E2; auto.
  - apply Qeq_bool_iff in E1. apply Qeq_bool_false in E2. destruct E2.
    rewrite <- Ha, <- Hb. exact E1.
  - apply Qeq_bool_iff in E2. apply Qeq_bool_false in E1. destruct E1.
    rewrite Ha, Hb. exact E2.
Qed.

#[global] Instance Math_round_proper : Proper (num_equiv ==> num_equiv) Math_round.
Proof.
  intros [x| | |] [y| | |] H; cbn [num_equiv Math_round] in *; try contradiction; auto.
  assert (Hxy : x + (1 # 2) == y + (1 # 2)) by (rewrite H; reflexivity).
  rewrite (Qfloor_comp _ _ Hxy). reflexivity.
Qed.

Lemma round2_Fin (x : Q) : round2 (Fin x) =n= Fin (Qround2 x).
Proof.
  unfold round2, Qround2. cbn [js_mul Math_round].
  rewrite js_div_Fin by (intros H; discriminate H). reflexivity.
Qed.

Lemma round2_proper_Fin (x y : Q) : x == y -> round2 (Fin x) =n= round2 (Fin y).
Proof.
  intros H. rewrite !round2_Fin. cbn [num_equiv]. unfold Qround2.
  assert (Hxy : x * 100 + (1 # 2) == y * 100 + (1 # 2)) by (rewrite H; reflexivity).
  rewrite (Qfloor_comp _ _ Hxy). reflexivity.
Qed.

Lemma Math_max_Fin (x y : Q) : Math_max (Fin x) (Fin y) =n= Fin (Qmax x y).
Proof.
  unfold Math_max. destruct (Q.max_spec x y) as [[Hlt Hmax] | [Hle Hmax]].
  - apply js_lt_Fin in Hlt. rewrite Hlt. cbn. symmetry. exact Hmax.
  - apply js_lt_Fin_false in Hle. rewrite Hle. cbn. symmetry. exact Hmax.
Qed.

Lemma Math_max_Fin_inv (x y : Q) :
  exists m, Math_max (Fin x) (Fin y) = Fin m /\ m == Qmax x y.
Proof.
  pose proof (Math_max_Fin x y) as H. unfold Math_max in *.
  destruct (js_lt (Fin x) (Fin y)); eexists; split; try reflexivity; exact H.
Qed.

(** ** The stale analysis *)

(** The months-live value of the stale analysis is finite, is the
    specification's maximum, and is at least the 0.033 floor. *)
Lemma monthsLive_spec (p c : Z) :
  exists m,
    Math_max
      (js_div (Math_ceil (js_div (Fin (inject_Z (c - p))) (Fin MILLISECONDS_PER_DAY)))
              (Fin DAYS_PER_MONTH))
      (Fin MINIMUM_MONTHS_LIVE) = Fin m
    /\ m == spec_months_live p c
    /\ 33 # 1000 <= m.
Proof.
  rewrite js_div_Fin by (intros H; discriminate H). cbn [Math_ceil].
  rewrite js_div_Fin by (intros H; discriminate H).
  destruct (Math_max_Fin_inv
              (inject_Z (Qceiling (inject_Z (c - p) / MILLISECONDS_PER_DAY)) / DAYS_PER_MONTH)
              MINIMUM_MONTHS_LIVE) as (m & Hm & Heq).
  exists m. split; [exact Hm | split].
  - rewrite Heq. unfold spec_months_live. reflexivity.
  - rewrite Heq. apply Q.le_max_r.
Qed.

(** ** Binary64: the order of numbers *)

Section FloatOrder.

#[local] Open Scope float_scope.

Lemma SFltb_leb_trans (a b c : spec_float) :
  SFltb a b = true -> SFleb b c = true -> SFltb a c = true.
Proof.
  unfold SFltb, SFleb, SFcompare.
  destruct a as [sa | sa | | sa ma ea], b as [sb | sb | | sb mb eb],
    c as [sc | sc | | sc mc ec];
    try destruct sa; try destruct sb; try destruct sc;
    try discriminate; try reflexivity;
    change (PosDef.Pos.compare_cont Eq) with Pos.compare;
    destruct (Z.compare_spec ea eb); try discriminate;
    destruct (Z.compare_spec eb ec); try discriminate;
    destruct (Z.compare_spec ea ec); try reflexivity; try lia;
    subst;
    destruct (Pos.compare_spec ma mb); try discriminate;
    destruct (Pos.compare_spec mb mc); try discriminate;
    destruct (Pos.compare_spec ma mc); try reflexivity; try lia.
Qed.

Lemma ltb_leb_trans (x y z : float) :
  (x <? y) = true -> (y <=? z) = true -> (x <? z) = true.
Proof.
  rewrite !FloatAxioms.ltb_spec, FloatAxioms.leb_spec. apply SFltb_leb_trans.
Qed.

Lemma eqb_zero_not_positive (x : float) : (x =? 0) = true -> (0 <? x) = false.
Proof.
  rewrite FloatAxioms.eqb_spec, FloatAxioms.ltb_spec.
  change (Prim2SF 0) with (S754_zero false).
  unfold SFeqb, SFltb, SFcompare.
  destruct (Prim2SF x) as [s | s | | s m e]; try destruct s;
    try discriminate; reflexivity.
Qed.

Lemma positive_or_zero (x : float) :
  (0 <? x) = true -> B64.or_zero x = x.
Proof.
  unfold B64.or_zero, PrimFloat.is_nan.
  rewrite !FloatAxioms.eqb_spec, FloatAxioms.ltb_spec.
  change (Prim2SF 0) with (S754_zero false).
  unfold SFeqb, SFltb, SFcompare.
  destruct (Prim2SF x) as [s | s | | s m e]; try destruct s;
    try discriminate; try reflexivity.
  - cbn. destruct (Z.compare_spec e e); try lia.
    rewrite Pos.compare_cont_refl. reflexivity.
Qed.

Lemma or_zero_positive (x : float) :
  (0 <? B64.or_zero x) = (0 <? x).
Proof.
  destruct (0 <? x) eqn:Hpos.
  - rewrite (positive_or_zero x Hpos). exact Hpos.
  - unfold B64.or_zero. destruct (PrimFloat.is_nan x || (x =? 0)).
    + reflexivity.
    + exact Hpos.
Qed.

End FloatOrder.

(** ** The stale analysis on binary64 *)



(** C2 as stated fails in its second part.  With an oversold stock of [-9]
    (360 days live, threshold 10) a variant with 10 units sold is not stale
    and one with 100 units sold is.  With a stock that is not negative the
    rounding of the quotients decides: with stock 0 (200 days live,
    threshold 15) 108 units sold give 15 percent, not stale, and 109 units
    sold give 14.999999999999996 percent, stale. *)
Lemma C2_counterexample :
  let day := 86400000%float in
  let stale (inv u days t : float) :=
    B64.is_stale (B64.calculatePercentageBasedStaleAnalysis
                    u (inv + u) 0 (days * day) (Some t)) in
  (stale (-9) 10 360 10 = false /\ stale (-9) 100 360 10 = true)%float
  /\ (stale 0 108 200 15 = false /\ stale 0 109 200 15 = true)%float.
Proof.
  cbv zeta. repeat split; vm_compute; reflexivity.
Qed.

(** C2 (as the code has it).  With sales, inventory and dates fixed, a
    variant that is stale under a threshold is stale under every larger
    threshold: raising the threshold never turns a stale variant into one
    that is not.  (Nothing of the kind holds for the units sold, as the
    counterexample shows.) *)
Theorem C2_staleness_monotone (u n p c t1 t2 : float) :
  (t1 <=? t2)%float = true ->
  B64.is_stale (B64.calculatePercentageBasedStaleAnalysis u n p c (Some t1)) = true ->
  B64.is_stale (B64.calculatePercentageBasedStaleAnalysis u n p c (Some t2)) = true.
Proof.
  unfold B64.calculatePercentageBasedStaleAnalysis.
  cbn [B64.is_stale default]. intros Ht Hstale.
  exact (ltb_leb_trans _ _ _ Hstale Ht).
Qed.

Lemma C2_staleness_monotone_witness :
  B64.is_stale (B64.calculatePercentageBasedStaleAnalysis
                  35 84 0 (125 * 86400000) (Some 12))%float = true.
Proof.
  apply (C2_staleness_monotone 35 84 0 (125 * 86400000) 10 12)%float.
  - vm_compute. reflexivity.
  - vm_compute. reflexivity.
Defined.

(** ** The suggestion engine *)

Section RuleGroups.

Implicit Types (l : list Suggestion) (g : RuleGroup).

Lemma count_of_app g l1 l2 : count_of g (l1 ++ l2) = (count_of g l1 + count_of g l2)%nat.
Proof. unfold count_of. rewrite filter_app, length_app. reflexivity. Qed.

Lemma count_of_same g l : Forall (in_group g) l -> count_of g l = length l.
Proof.
  unfold count_of. induction 1 as [| s l Hs _ IH]; [reflexivity |].
  rewrite filter_cons_True by exact Hs. cbn. rewrite IH. reflexivity.
Qed.

Lemma count_of_other g g' l : g <> g' -> Forall (in_group g') l -> count_of g l = 0%nat.
Proof.
  intros Hne. unfold count_of. induction 1 as [| s l Hs _ IH]; [reflexivity |].
  rewrite filter_cons_False; [exact IH |].
  unfold in_group in *. congruence.
Qed.

Lemma group_of_elem g l ty :
  Forall (in_group g) l -> ty ∈ type <$> l -> rule_group ty = g.
Proof.
  intros Hall (s & -> & Hs)%list_elem_of_fmap.
  rewrite Forall_forall in Hall. apply Hall, Hs.
Qed.

End RuleGroups.

(** Each rule group pushes at most one suggestion, of its own group. *)
Ltac rule_cases f :=
  unfold f, js_gt, js_ge;
  repeat match goal with
         | |- context [if ?b then _ else _] => destruct b
         end.

Lemma inventorySuggestions_group s d :
  Forall (in_group InventoryRule) (inventorySuggestions s d)
  /\ (length (inventorySuggestions s d) <= 1)%nat.
Proof.
  rule_cases inventorySuggestions; split; cbn; try lia;
    repeat constructor.
Qed.

Lemma performanceSuggestions_group r t :
  Forall (in_group PerformanceRule) (performanceSuggestions r t)
  /\ (length (performanceSuggestions r t) <= 1)%nat.
Proof.
  rule_cases performanceSuggestions; split; cbn; try lia;
    repeat constructor.
Qed.

Lemma trendSuggestions_group a :
  Forall (in_group TrendRule) (trendSuggestions a)
  /\ (length (trendSuggestions a) <= 1)%nat.
Proof.
  rule_cases trendSuggestions; split; cbn; try lia; repeat constructor.
Qed.

Lemma pricingSuggestions_group r t price :
  Forall (in_group PricingRule) (pricingSuggestions r t price)
  /\ (length (pricingSuggestions r t price) <= 1)%nat.
Proof.
  rule_cases pricingSuggestions; split; cbn; try lia; repeat constructor.
Qed.

Lemma seasonalSuggestions_group x :
  Forall (in_group SeasonalRule) (seasonalSuggestions x)
  /\ (length (seasonalSuggestions x) <= 1)%nat.
Proof.
  rule_cases seasonalSuggestions; split; cbn; try lia; repeat constructor.
Qed.

Lemma bundlingSuggestions_group r t rev :
  Forall (in_group BundlingRule) (bundlingSuggestions r t rev)
  /\ (length (bundlingSuggestions r t rev) <= 1)%nat.
Proof.
  rule_cases bundlingSuggestions; split; cbn; try lia; repeat constructor.
Qed.

Section Generate.

Variables (variant : Variant) (product : Product).
Variables (r t s d rev ml acc seas : num).
Variables (sa : option PercentageBasedStaleAnalysis) (tqs : option num).

Let out := generateVariantSuggestions variant product r t s d rev ml acc seas sa tqs.

Lemma suggestions_generate :
  suggestions out =
    inventorySuggestions s d
    ++ performanceSuggestions r t
    ++ trendSuggestions acc
    ++ pricingSuggestions r t (js_or (Some (v_price variant)) (Fin 0))
    ++ seasonalSuggestions seas
    ++ bundlingSuggestions r t rev.
Proof. reflexivity. Qed.

Lemma count_of_inventory :
  count_of InventoryRule (suggestions out) = length (inventorySuggestions s d).
Proof.
  rewrite suggestions_generate, !count_of_app.
  rewrite (count_of_same _ _ (proj1 (inventorySuggestions_group s d))).
  rewrite (count_of_other InventoryRule PerformanceRule) by
    (discriminate || apply performanceSuggestions_group).
  rewrite (count_of_other InventoryRule TrendRule) by
    (discriminate || apply trendSuggestions_group).
  rewrite (count_of_other InventoryRule PricingRule) by
    (discriminate || apply pricingSuggestions_group).
  rewrite (count_of_other InventoryRule SeasonalRule) by
    (discriminate || apply seasonalSuggestions_group).
  rewrite (count_of_other InventoryRule BundlingRule) by
    (discriminate || apply bundlingSuggestions_group).
  lia.
Qed.

Lemma count_of_performance :
  count_of PerformanceRule (suggestions out) = length (performanceSuggestions r t).
Proof.
  rewrite suggestions_generate, !count_of_app.
  rewrite (count_of_same _ _ (proj1 (performanceSuggestions_group r t))).
  rewrite (count_of_other PerformanceRule InventoryRule) by
    (discriminate || apply inventorySuggestions_group).
  rewrite (count_of_other PerformanceRule TrendRule) by
    (discriminate || apply trendSuggestions_group).
  rewrite (count_of_other PerformanceRule PricingRule) by
    (discriminate || apply pricingSuggestions_group).
  rewrite (count_of_other PerformanceRule SeasonalRule) by
    (discriminate || apply seasonalSuggestions_group).
  rewrite (count_of_other PerformanceRule BundlingRule) by
    (discriminate || apply bundlingSuggestions_group).
  lia.
Qed.

(** A type is suggested exactly when the rules of its own group push it. *)
Lemma elem_of_types ty :
  ty ∈ suggestion_types out <->
  match rule_group ty with
  | InventoryRule => ty ∈ type <$> inventorySuggestions s d
  | PerformanceRule => ty ∈ type <$> performanceSuggestions r t
  | TrendRule => ty ∈ type <$> trendSuggestions acc
  | PricingRule =>
      ty ∈ type <$> pricingSuggestions r t (js_or (Some (v_price variant)) (Fin 0))
  | SeasonalRule => ty ∈ type <$> seasonalSuggestions seas
  | BundlingRule => ty ∈ type <$> bundlingSuggestions r t rev
  end.
Proof.
  unfold suggestion_types. rewrite suggestions_generate, !fmap_app, !elem_of_app.
  pose proof (group_of_elem _ _ ty (proj1 (inventorySuggestions_group s d))).
  pose proof (group_of_elem _ _ ty (proj1 (performanceSuggestions_group r t))).
  pose proof (group_of_elem _ _ ty (proj1 (trendSuggestions_group acc))).
  pose proof (group_of_elem _ _ ty
                (proj1 (pricingSuggestions_group r t (js_or (Some (v_price variant)) (Fin 0))))).
  pose proof (group_of_elem _ _ ty (proj1 (seasonalSuggestions_group seas))).
  pose proof (group_of_elem _ _ ty (proj1 (bundlingSuggestions_group r t rev))).
  destruct (rule_group ty); split; intros Hin; try tauto;
    repeat match goal with
           | Hor : _ \/ _ |- _ => destruct Hor as [Hor | Hor]
           end;
    try assumption;
    match goal with
    | Himp : ?P -> _ = _, Hp : ?P |- _ => specialize (Himp Hp); discriminate Himp
    end.
Qed.

End Generate.

(** The performance rule on a finite, non-negative rate and a positive
    threshold. *)
Lemma performance_rule_types (r t : Q) :
  0 <= r -> 0 < t ->
  let tys := type <$> performanceSuggestions (Fin r) (Fin t) in
  (NO_SALES ∈ tys <-> r == 0) /\
  (POOR_PERFORMANCE ∈ tys <-> 0 < r /\ r < (3 # 10) * t) /\
  (BELOW_TARGET ∈ tys <-> (3 # 10) * t <= r /\ r < t) /\
  (HIGH_PERFORMER ∈ tys <-> 2 * t <= r) /\
  (t <= r /\ r < 2 * t -> performanceSuggestions (Fin r) (Fin t) = []).
Proof.
  intros Hr Ht. unfold performanceSuggestions. cbn [js_mul].
  finite_cases; cbn [fmap list_fmap type];
    rewrite ?list_elem_of_singleton, ?elem_of_nil;
    repeat split; intros; try discriminate; try tauto; try lra.
Qed.



(** The inventory rule on a finite stock and finite days of stock. *)
Lemma inventory_rule_types (s d : Q) :
  let tys := type <$> inventorySuggestions (Fin s) (Fin d) in
  (CRITICAL_INVENTORY ∈ tys <-> s == 0) /\
  (LOW_INVENTORY ∈ tys <-> ~ s == 0 /\ d <= 7) /\
  (INVENTORY_WARNING ∈ tys <-> ~ s == 0 /\ 7 < d /\ d <= 30) /\
  (OVERSTOCK ∈ tys <-> ~ s == 0 /\ 180 < d) /\
  (~ s == 0 /\ 30 < d /\ d <= 180 -> inventorySuggestions (Fin s) (Fin d) = []).
Proof.
  unfold inventorySuggestions.
  finite_cases; cbn [fmap list_fmap type];
    rewrite ?list_elem_of_singleton, ?elem_of_nil;
    repeat split; intros; try discriminate; try tauto; try lra.
Qed.

(** The inventory status is the label of the one region that holds the
    input. *)
Lemma inventory_status_partition (d s : Q) (st : InventoryStatus) :
  getSimpleInventoryStatus (Fin d) (Fin s) = st <-> status_region st d s.
Proof.
  unfold getSimpleInventoryStatus.
  finite_cases; destruct st; cbn [status_region];
    split; intros; try discriminate; try reflexivity; try tauto; try lra.
Qed.

(** C4 as stated fails for a stock below zero (an oversold variant): the
    rule tests the stock against zero with [===], so a stock of [-9] with
    three days of stock remaining yields LOW_INVENTORY, and the status
    CRITICAL_LOW, although [s > 0] does not hold. *)
Lemma C4_counterexample :
  let v := {| v_id := 1; v_price := Fin 20;
              v_inventory_quantity := Some (Fin (-9)) |} in
  let p := {| p_published_at := None; p_created_at := 0;
              p_product_type := None; p_tags := None |} in
  let out := generateVariantSuggestions v p (Fin 5) (Fin 10) (Fin (-9)) (Fin 3)
               (Fin 200) (Fin 2) (Fin 0) (Fin 0) None None in
  LOW_INVENTORY ∈ suggestion_types out
  /\ ~ (0 < -9 /\ 3 <= 7)
  /\ inventory_status (performance_summary out) = CRITICAL_LOW.
Proof.
  cbv zeta. split; [| split].
  - rewrite elem_of_types. cbn [rule_group].
    apply (inventory_rule_types (-9) 3). split; [intros H; discriminate H |].
    unfold Qle; simpl; lia.
  - intros [H _]. discriminate H.
  - reflexivity.
Qed.

(** C4 (as the code has it).  For a current stock [s] and days of stock
    remaining [d], at most one inventory suggestion is emitted:
    CRITICAL_INVENTORY exactly when [s = 0], LOW_INVENTORY exactly when
    [s <> 0] and [d <= 7], INVENTORY_WARNING exactly when [s <> 0] and
    [7 < d <= 30], OVERSTOCK exactly when [s <> 0] and [d > 180], and none
    when [s <> 0] and [30 < d <= 180].  The inventory status reported with
    them is the label of exactly one of the six regions of [(d, s)]: every
    input lies in the region of its label and in no other. *)
Theorem C4_inventory_rule
    (variant : Variant) (product : Product) (s d : Q)
    (r t rev ml acc seas : num)
    (sa : option PercentageBasedStaleAnalysis) (tqs : option num) :
  let out := generateVariantSuggestions variant product r t (Fin s) (Fin d)
               rev ml acc seas sa tqs in
  (count_of InventoryRule (suggestions out) <= 1)%nat /\
  (CRITICAL_INVENTORY ∈ suggestion_types out <-> s == 0) /\
  (LOW_INVENTORY ∈ suggestion_types out <-> ~ s == 0 /\ d <= 7) /\
  (INVENTORY_WARNING ∈ suggestion_types out <-> ~ s == 0 /\ 7 < d /\ d <= 30) /\
  (OVERSTOCK ∈ suggestion_types out <-> ~ s == 0 /\ 180 < d) /\
  (~ s == 0 /\ 30 < d /\ d <= 180 ->
     count_of InventoryRule (suggestions out) = 0%nat) /\
  (forall st : InventoryStatus,
     inventory_status (performance_summary out) = st <-> status_region st d s) /\
  (forall st st' : InventoryStatus,
     status_region st d s -> status_region st' d s -> st = st').
Proof.
  intros out. subst out.
  destruct (inventory_rule_types s d) as (Hcrit & Hlow & Hwarn & Hover & Hgap).
  rewrite count_of_inventory, !elem_of_types. cbn [rule_group].
  split; [apply inventorySuggestions_group |].
  split; [exact Hcrit |]. split; [exact Hlow |]. split; [exact Hwarn |].
  split; [exact Hover |]. split; [| split].
  - intros Hmid. rewrite (Hgap Hmid). reflexivity.
  - intros st. cbn [performance_summary inventory_status generateVariantSuggestions].
    apply inventory_status_partition.
  - intros st st' Hst Hst'.
    apply inventory_status_partition in Hst, Hst'. congruence.
Qed.

Lemma C4_inventory_rule_witness :
  let v := {| v_id := 1; v_price := Fin 20; v_inventory_quantity := Some (Fin 50) |} in
  let p := {| p_published_at := None; p_created_at := 0;
              p_product_type := None; p_tags := None |} in
  let out := generateVariantSuggestions v p (Fin 5) (Fin 10) (Fin 50) (Fin 300)
               (Fin 200) (Fin 2) (Fin 0) (Fin 0) None None in
  let oversold := generateVariantSuggestions v p (Fin 5) (Fin 10) (Fin (-2)) (Fin 20)
               (Fin 200) (Fin 2) (Fin 0) (Fin 0) None None in
  OVERSTOCK ∈ suggestion_types out
  /\ inventory_status (performance_summary out) = OVERSTOCKED
  /\ INVENTORY_WARNING ∈ suggestion_types oversold.
Proof.
  intros v p out oversold.
  destruct (C4_inventory_rule v p 50 300 (Fin 5) (Fin 10) (Fin 200) (Fin 2)
              (Fin 0) (Fin 0) None None)
    as (_ & _ & _ & _ & Hover & _ & Hstatus & _).
  destruct (C4_inventory_rule v p (-2) 20 (Fin 5) (Fin 10) (Fin 200) (Fin 2)
              (Fin 0) (Fin 0) None None)
    as (_ & _ & _ & Hwarn & _).
  split; [| split].
  - apply Hover. split; [intros H; discriminate H | reflexivity].
  - apply Hstatus. cbn. split; [intros H; discriminate H | reflexivity].
  - apply Hwarn. split; [intros H; discriminate H |].
    split; [reflexivity | unfold Qle; simpl; lia].
Defined.

(** ** Analytics of a variant without sales *)

Lemma addOrder_no_match (variantId : Z) (acc : SalesTotals) (order : Order) :
  has_no_line_item_of variantId order -> addOrder variantId acc order = acc.
Proof.
  unfold has_no_line_item_of, addOrder. intros H.
  destruct (o_line_items order) as [items |]; [| reflexivity].
  specialize (H items eq_refl). induction H as [| item items Hne _ IH].
  - reflexivity.
  - cbn [foldl]. unfold addLineItem at 2.
    apply Z.eqb_neq in Hne. rewrite Hne. exact IH.
Qed.

Lemma salesTotals_no_sales (variantId : Z) (orders : list Order) :
  no_sales_of variantId orders -> salesTotals variantId orders = noSales.
Proof.
  unfold salesTotals. generalize noSales.
  induction 1 as [| order orders Hno _ IH]; [reflexivity |].
  cbn [foldl]. rewrite addOrder_no_match by exact Hno. exact IH.
Qed.

Lemma daysBetween_finite (later earlier : Z) :
  exists days : Z, daysBetween later earlier = Fin (inject_Z days).
Proof.
  unfold daysBetween. rewrite js_div_Fin by (intros H; discriminate H).
  cbn [Math_ceil]. eexists. reflexivity.
Qed.

(** A guarded quotient with dividend zero is zero. *)
Lemma guarded_zero_quotient (x : num) :
  (if js_gt x (Fin 0) then js_div (Fin 0) x else Fin 0) =n= Fin 0.
Proof.
  unfold js_gt. destruct x as [q | | |]; cbn [js_lt js_div]; try reflexivity.
  destruct (Qltb 0 q) eqn:Hq; [| reflexivity].
  apply Qltb_lt in Hq.
  assert (Hq0 : Qeq_bool q 0 = false) by (apply Qeq_bool_false; lra).
  rewrite Hq0. cbn. field. lra.
Qed.

Lemma round2_zero (x : num) : x =n= Fin 0 -> round2 x =n= Fin 0.
Proof.
  destruct x as [q | | |]; cbn [num_equiv]; try contradiction.
  intros Hq. rewrite (round2_proper_Fin q 0 Hq), round2_Fin. reflexivity.
Qed.

Lemma not_positive_of_zero (x : num) : x =n= Fin 0 -> js_gt x (Fin 0) = false.
Proof.
  destruct x as [q | | |]; cbn [num_equiv]; try contradiction.
  intros Hq. apply js_lt_Fin_false. lra.
Qed.

Lemma js_eq_zero (x : num) : x =n= Fin 0 -> js_eq x (Fin 0) = true.
Proof.
  destruct x as [q | | |]; cbn [num_equiv]; try contradiction.
  intros Hq. apply js_eq_Fin, Hq.
Qed.

(** Without units sold the percentage sold per month is zero whatever the
    inventory, so every positive threshold makes the variant stale. *)
Lemma stale_without_sales (est thr : num) (p c : Z) :
  js_gt thr (Fin 0) = true ->
  let r := calculatePercentageBasedStaleAnalysis (Fin 0) est p c (Some thr) in
  is_stale r = true /\ percent_sold_per_month r =n= Fin 0.
Proof.
  intros Hthr. unfold calculatePercentageBasedStaleAnalysis. cbn [default].
  destruct (monthsLive_spec p c) as (m & -> & _ & Hpos).
  rewrite js_div_Fin by lra. cbn [is_stale percent_sold_per_month].
  assert (Hpct : exists z, (if js_gt est (Fin 0)
                            then js_mul (js_div (Fin (0 / m)) est) (Fin 100)
                            else Fin 0) = Fin z /\ z == 0).
  { unfold js_gt. destruct est as [q | | |]; cbn [js_lt js_div js_mul];
      try (eexists; split; [reflexivity | reflexivity]).
    - destruct (Qltb 0 q) eqn:Hq; [| eexists; split; reflexivity].
      apply Qltb_lt in Hq.
      assert (Hq0 : Qeq_bool q 0 = false) by (apply Qeq_bool_false; lra).
      rewrite Hq0. eexists; split; [reflexivity |]. field. split; lra. }
  destruct Hpct as (z & -> & Hz). split.
  - destruct thr as [t | | |]; cbn in Hthr |- *; try discriminate; try reflexivity.
    apply Qltb_lt in Hthr. apply Qltb_lt. lra.
  - apply round2_zero. exact Hz.
Qed.

Lemma performance_no_sales (x t : num) :
  x =n= Fin 0 -> NO_SALES ∈ type <$> performanceSuggestions x t.
Proof.
  intros Hx. unfold performanceSuggestions. rewrite (js_eq_zero x Hx).
  cbn. apply list_elem_of_singleton. reflexivity.
Qed.

Lemma threshold_positive (staleThreshold : option num) :
  staleThreshold = None \/ (exists t, staleThreshold = Some (Fin t) /\ 0 < t) ->
  js_gt (js_or staleThreshold (Fin 10)) (Fin 0) = true.
Proof.
  intros [-> | (t & -> & Ht)]; [reflexivity |].
  unfold js_or, js_truthy.
  assert (Ht0 : Qeq_bool t 0 = false) by (apply Qeq_bool_false; lra).
  rewrite Ht0. cbn [negb]. apply js_lt_Fin, Ht.
Qed.

Section NoSales.

Variable calculateSalesAcceleration : list Order -> Z -> num.
Variable calculateSeasonalityScore : list Order -> Z -> num.
Variables (now : Z) (variant : Variant) (orders : list Order) (product : Product).
Variable staleThreshold : option num.

Let analytics :=
  calculateFocusedVariantAnalytics calculateSalesAcceleration
    calculateSeasonalityScore now variant orders product staleThreshold.

Hypothesis Hno_sales : no_sales_of (v_id variant) orders.

Lemma no_sales_totals :
  Analytics.total_quantity_sold analytics = Fin 0
  /\ Analytics.total_revenue analytics =n= Fin 0
  /\ Analytics.monthly_sales_rate analytics =n= Fin 0
  /\ Analytics.daily_sales_rate analytics =n= Fin 0
  /\ Analytics.inventory_turnover_rate analytics =n= Fin 0.
Proof.
  subst analytics. unfold calculateFocusedVariantAnalytics.
  rewrite (salesTotals_no_sales _ _ Hno_sales).
  cbn [Analytics.total_quantity_sold Analytics.total_revenue
       Analytics.monthly_sales_rate Analytics.daily_sales_rate
       Analytics.inventory_turnover_rate totalQuantitySold totalRevenue noSales].
  split; [reflexivity |]. split; [apply round2_zero; reflexivity |].
  repeat split; apply round2_zero, guarded_zero_quotient.
Qed.

Lemma no_sales_days_of_stock :
  Analytics.days_of_stock_remaining analytics = Math_round (Fin 0).
Proof.
  subst analytics. unfold calculateFocusedVariantAnalytics.
  rewrite (salesTotals_no_sales _ _ Hno_sales).
  cbn [Analytics.days_of_stock_remaining totalQuantitySold noSales].
  rewrite (not_positive_of_zero _ (guarded_zero_quotient _)). reflexivity.
Qed.

Lemma no_sales_suggestion :
  NO_SALES ∈ suggestion_types (Analytics.intelligent_suggestions analytics).
Proof.
  subst analytics. unfold calculateFocusedVariantAnalytics.
  rewrite (salesTotals_no_sales _ _ Hno_sales).
  cbn [Analytics.intelligent_suggestions totalQuantitySold totalRevenue noSales].
  rewrite elem_of_types. cbn [rule_group].
  apply performance_no_sales, guarded_zero_quotient.
Qed.

Lemma no_sales_stale :
  staleThreshold = None \/ (exists t, staleThreshold = Some (Fin t) /\ 0 < t) ->
  Analytics.is_stale analytics = Fin 1
  /\ Analytics.percent_sold_per_month analytics =n= Fin 0
  /\ current_performance (Analytics.intelligent_suggestions analytics)
     = BELOW_THRESHOLD.
Proof.
  intros Hthr%threshold_positive.
  subst analytics. unfold calculateFocusedVariantAnalytics.
  rewrite (salesTotals_no_sales _ _ Hno_sales).
  cbn [Analytics.is_stale Analytics.percent_sold_per_month
       Analytics.intelligent_suggestions totalQuantitySold totalRevenue noSales
       generateVariantSuggestions current_performance].
  match goal with
  | |- context [calculatePercentageBasedStaleAnalysis (Fin 0) ?est ?p ?c (Some ?thr)] =>
      destruct (stale_without_sales est thr p c Hthr) as [Hstale Hpct]
  end.
  rewrite Hstale. split; [reflexivity |]. split; [exact Hpct | reflexivity].
Qed.

(** With stock on hand, zero days of stock put the variant in the lowest
    inventory band. *)
Lemma no_sales_low_inventory (stock : Q) :
  v_inventory_quantity variant = Some (Fin stock) -> 0 < stock ->
  LOW_INVENTORY ∈ suggestion_types (Analytics.intelligent_suggestions analytics)
  /\ inventory_status
       (performance_summary (Analytics.intelligent_suggestions analytics))
     = CRITICAL_LOW.
Proof.
  intros Hinv Hpos.
  subst analytics. unfold calculateFocusedVariantAnalytics.
  rewrite (salesTotals_no_sales _ _ Hno_sales).
  cbn [Analytics.intelligent_suggestions totalQuantitySold totalRevenue noSales].
  rewrite (not_positive_of_zero _ (guarded_zero_quotient _)).
  rewrite Hinv. unfold js_or, js_truthy.
  assert (Hs0 : Qeq_bool stock 0 = false) by (apply Qeq_bool_false; lra).
  rewrite Hs0. cbn [negb].
  assert (Hs : 0 <= stock) by lra.
  split.
  - rewrite elem_of_types. cbn [rule_group].
    apply (inventory_rule_types stock 0). split; [lra | lra].
  - cbn [generateVariantSuggestions performance_summary inventory_status].
    apply inventory_status_partition. cbn. split; lra.
Qed.

End NoSales.

(** The rate the service hands to the suggestion engine is a finite,
    non-negative number whenever the line items carry non-negative
    quantities. *)
Lemma addLineItem_nonneg (variantId orderDate : Z) (acc : SalesTotals)
    (item : LineItem) :
  quantity_ok item ->
  (exists u, totalQuantitySold acc = Fin u /\ 0 <= u) ->
  exists u, totalQuantitySold (addLineItem variantId orderDate acc item) = Fin u
            /\ 0 <= u.
Proof.
  unfold quantity_ok, addLineItem. intros Hq (u & Hu & Hpos).
  destruct (li_variant_id item =? variantId)%Z; [| eauto].
  cbn [totalQuantitySold]. rewrite Hu.
  destruct (li_quantity item) as [[q | | |] |]; try contradiction; cbn [js_or js_truthy].
  - destruct (negb (Qeq_bool q 0)); cbn [js_add]; eexists; split; try reflexivity; lra.
  - cbn [js_add]. eexists; split; [reflexivity | lra].
Qed.

Lemma salesTotals_nonneg (variantId : Z) (orders : list Order) :
  quantities_ok orders ->
  exists u, totalQuantitySold (salesTotals variantId orders) = Fin u /\ 0 <= u.
Proof.
  unfold salesTotals.
  assert (Hinit : exists u, totalQuantitySold noSales = Fin u /\ 0 <= u)
    by (exists 0; split; [reflexivity | lra]).
  revert Hinit. generalize noSales.
  intros acc Hacc Hok. revert acc Hacc.
  induction Hok as [| order orders Horder _ IH]; intros acc Hacc; [exact Hacc |].
  cbn [foldl]. apply IH. unfold addOrder.
  destruct (o_line_items order) as [items |]; [| exact Hacc].
  specialize (Horder items eq_refl). revert acc Hacc.
  induction Horder as [| item items Hitem _ IHitems]; intros acc Hacc; [exact Hacc |].
  cbn [foldl]. apply IHitems, addLineItem_nonneg; assumption.
Qed.

Lemma service_rate_nonneg
    (calculateSalesAcceleration calculateSeasonalityScore : list Order -> Z -> num)
    (now : Z) (variant : Variant) (orders : list Order) (product : Product)
    (staleThreshold : option num) :
  quantities_ok orders ->
  exists r,
    ps_monthly_sales_rate
      (performance_summary
         (Analytics.intelligent_suggestions
            (calculateFocusedVariantAnalytics calculateSalesAcceleration
               calculateSeasonalityScore now variant orders product staleThreshold)))
    = Fin r
    /\ 0 <= r.
Proof.
  intros Hok. destruct (salesTotals_nonneg (v_id variant) orders Hok) as (u & Hu & Hpos).
  unfold calculateFocusedVariantAnalytics.
  cbn [Analytics.intelligent_suggestions generateVariantSuggestions
       performance_summary ps_monthly_sales_rate].
  rewrite Hu.
  destruct (daysBetween_finite now
              (default (p_created_at product) (p_published_at product)))
    as [days ->].
  rewrite js_div_Fin by (intros H; discriminate H).
  unfold js_gt. destruct (js_lt (Fin 0) (Fin (inject_Z days / 30))) eqn:Hm.
  - apply js_lt_Fin in Hm. rewrite js_div_Fin by lra.
    eexists. split; [reflexivity |]. apply Qle_shift_div_l; lra.
  - eexists. split; [reflexivity | lra].
Qed.

(** C5.  Analytics over an order list without a sale of the variant (the
    empty list in particular) report zero units sold, zero revenue, a zero
    monthly sales rate and a zero inventory turnover rate; under the default
    threshold of 10 percent and under every positive threshold the variant
    is stale; and a NO_SALES suggestion is emitted. *)
Theorem C5_zero_orders
    (calculateSalesAcceleration calculateSeasonalityScore : list Order -> Z -> num)
    (now : Z) (variant : Variant) (orders : list Order) (product : Product)
    (staleThreshold : option num) :
  no_sales_of (v_id variant) orders ->
  staleThreshold = None \/ (exists t, staleThreshold = Some (Fin t) /\ 0 < t) ->
  let a := calculateFocusedVariantAnalytics calculateSalesAcceleration
             calculateSeasonalityScore now variant orders product staleThreshold in
  Analytics.total_quantity_sold a = Fin 0
  /\ Analytics.total_revenue a =n= Fin 0
  /\ Analytics.monthly_sales_rate a =n= Fin 0
  /\ Analytics.inventory_turnover_rate a =n= Fin 0
  /\ Analytics.is_stale a = Fin 1
  /\ is_stale (calculatePercentageBasedStaleAnalysis
                 (Analytics.total_quantity_sold a)
                 (Analytics.estimated_initial_quantity a)
                 (default (p_created_at product) (p_published_at product)) now
                 (Some (js_or staleThreshold (Fin 10)))) = true
  /\ NO_SALES ∈ suggestion_types (Analytics.intelligent_suggestions a).
Proof.
  intros Hno Hthr a. subst a.
  destruct (no_sales_totals calculateSalesAcceleration calculateSeasonalityScore
              now variant orders product staleThreshold Hno)
    as (Hsold & Hrev & Hrate & _ & Hturn).
  destruct (no_sales_stale calculateSalesAcceleration calculateSeasonalityScore
              now variant orders product staleThreshold Hno Hthr)
    as (Hstale & _ & _).
  repeat (split; [assumption |]).
  split.
  - rewrite Hsold. apply stale_without_sales, threshold_positive, Hthr.
  - apply no_sales_suggestion, Hno.
Qed.

Lemma C5_zero_orders_witness :
  let v := {| v_id := 1; v_price := Fin 20; v_inventory_quantity := Some (Fin 50) |} in
  let p := {| p_published_at := Some 0%Z; p_created_at := 0;
              p_product_type := None; p_tags := None |} in
  let a := calculateFocusedVariantAnalytics (fun _ _ => Fin 0) (fun _ _ => Fin 0)
             5184000000 v [] p None in
  Analytics.is_stale a = Fin 1
  /\ NO_SALES ∈ suggestion_types (Analytics.intelligent_suggestions a).
Proof.
  intros v p a.
  destruct (C5_zero_orders (fun _ _ => Fin 0) (fun _ _ => Fin 0)
              5184000000 v [] p None)
    as (_ & _ & _ & _ & Hstale & _ & Hsuggested).
  - constructor.
  - left. reflexivity.
  - split; assumption.
Defined.

(** C10.  For a variant with stock on hand and no sale in the order set the
    analytics report zero days of stock remaining; the suggestions hold
    both NO_SALES and LOW_INVENTORY, and the inventory status is
    CRITICAL_LOW. *)
Theorem C10_unsold_stock
    (calculateSalesAcceleration calculateSeasonalityScore : list Order -> Z -> num)
    (now : Z) (variant : Variant) (orders : list Order) (product : Product)
    (staleThreshold : option num) (stock : Q) :
  no_sales_of (v_id variant) orders ->
  v_inventory_quantity variant = Some (Fin stock) -> 0 < stock ->
  let a := calculateFocusedVariantAnalytics calculateSalesAcceleration
             calculateSeasonalityScore now variant orders product staleThreshold in
  Analytics.days_of_stock_remaining a =n= Fin 0
  /\ NO_SALES ∈ suggestion_types (Analytics.intelligent_suggestions a)
  /\ LOW_INVENTORY ∈ suggestion_types (Analytics.intelligent_suggestions a)
  /\ inventory_status (performance_summary (Analytics.intelligent_suggestions a))
     = CRITICAL_LOW.
Proof.
  intros Hno Hinv Hpos a. subst a.
  split.
  - rewrite no_sales_days_of_stock by exact Hno. reflexivity.
  - split; [apply no_sales_suggestion, Hno |].
    apply (no_sales_low_inventory _ _ _ _ _ _ _ Hno stock Hinv Hpos).
Qed.

Lemma C10_unsold_stock_witness :
  let v := {| v_id := 1; v_price := Fin 20; v_inventory_quantity := Some (Fin 50) |} in
  let p := {| p_published_at := Some 0%Z; p_created_at := 0;
              p_product_type := None; p_tags := None |} in
  let other := {| o_created_at := 2592000000;
                  o_line_items := Some [ {| li_variant_id := 2;
                                            li_quantity := Some (Fin 3);
                                            li_price := Fin 7 |} ] |} in
  let a := calculateFocusedVariantAnalytics (fun _ _ => Fin 0) (fun _ _ => Fin 0)
             5184000000 v [other] p None in
  Analytics.days_of_stock_remaining a =n= Fin 0
  /\ LOW_INVENTORY ∈ suggestion_types (Analytics.intelligent_suggestions a).
Proof.
  intros v p other a.
  destruct (C10_unsold_stock (fun _ _ => Fin 0) (fun _ _ => Fin 0)
              5184000000 v [other] p None 50)
    as (Hdays & _ & Hlow & _).
  - repeat constructor. intros items [= <-]. repeat constructor. discriminate.
  - reflexivity.
  - reflexivity.
  - split; assumption.
Defined.

(** ** Days of stock remaining *)

(** A guarded quotient of finite numbers is finite, and zero when the
    divisor is not positive. *)
Lemma guarded_quotient_finite (x y : Q) :
  exists q, (if js_gt (Fin y) (Fin 0) then js_div (Fin x) (Fin y) else Fin 0) = Fin q
            /\ (y <= 0 -> q == 0)
            /\ (0 < y -> q == x / y).
Proof.
  unfold js_gt. destruct (js_lt (Fin 0) (Fin y)) eqn:Hy.
  - apply js_lt_Fin in Hy. rewrite js_div_Fin by lra.
    eexists. split; [reflexivity |]. split; [lra | reflexivity].
  - apply js_lt_Fin_false in Hy.
    eexists. split; [reflexivity |]. split; [reflexivity | lra].
Qed.

(** C6 as stated fails: for a variant with five units on hand and no order
    the daily sales rate is zero and the quotient of the stock by it would
    be [Infinity], yet the analytics report zero days of stock remaining,
    because the division is guarded. *)
Lemma C6_counterexample :
  let v := {| v_id := 1; v_price := Fin 20; v_inventory_quantity := Some (Fin 5) |} in
  let p := {| p_published_at := Some 0%Z; p_created_at := 0;
              p_product_type := None; p_tags := None |} in
  let a := calculateFocusedVariantAnalytics (fun _ _ => Fin 0) (fun _ _ => Fin 0)
             5184000000 v [] p None in
  Analytics.daily_sales_rate a =n= Fin 0
  /\ Math_round (js_div (Analytics.current_quantity a) (Fin 0)) = PInf
  /\ Analytics.days_of_stock_remaining a =n= Fin 0
  /\ Analytics.days_of_stock_remaining a <> PInf.
Proof.
  vm_compute. repeat split; discriminate.
Qed.

(** C6 (as the code has it).  The division that yields the days of stock
    remaining is guarded in [calculateFocusedVariantAnalytics]: for a finite
    stock and finite units sold the reported value is finite, and it is zero
    whenever no unit was sold (the daily sales rate is then zero).
    [calculateStockStatus] guards its division in the same way: without
    positive daily sales it reports zero days remaining. *)
Theorem C6_days_of_stock_guarded
    (calculateSalesAcceleration calculateSeasonalityScore : list Order -> Z -> num)
    (now : Z) (variant : Variant) (orders : list Order) (product : Product)
    (staleThreshold : option num) (stock units : Q) :
  js_or (v_inventory_quantity variant) (Fin 0) = Fin stock ->
  totalQuantitySold (salesTotals (v_id variant) orders) = Fin units ->
  let a := calculateFocusedVariantAnalytics calculateSalesAcceleration
             calculateSeasonalityScore now variant orders product staleThreshold in
  is_finite (Analytics.days_of_stock_remaining a) = true
  /\ (units <= 0 -> Analytics.days_of_stock_remaining a =n= Fin 0)
  /\ (forall currentStock averageDailySales : option num,
        js_gt (js_or averageDailySales (Fin 0)) (Fin 0) = false ->
        daysRemaining (calculateStockStatus currentStock averageDailySales)
        =n= Fin 0).
Proof.
  intros Hstock Hunits a. subst a. unfold calculateFocusedVariantAnalytics.
  cbn [Analytics.days_of_stock_remaining]. rewrite Hstock, Hunits.
  destruct (daysBetween_finite now
              (default (p_created_at product) (p_published_at product)))
    as [days ->].
  destruct (guarded_quotient_finite units (inject_Z days)) as (avg & -> & Hle & Hgt).
  destruct (guarded_quotient_finite stock avg) as (rest & -> & Hzero & _).
  split; [reflexivity |]. split.
  - intros Hu. cbn [Math_round num_equiv].
    assert (Havg : avg <= 0).
    { destruct (Qlt_le_dec 0 (inject_Z days)) as [Hd | Hd].
      - rewrite (Hgt Hd). apply Qle_shift_div_r; [exact Hd | lra].
      - rewrite (Hle Hd). lra. }
    assert (Hx : rest + (1 # 2) == 0 + (1 # 2)) by (rewrite (Hzero Havg); reflexivity).
    rewrite (Qfloor_comp _ _ Hx). reflexivity.
  - intros currentStock averageDailySales Hsales. unfold calculateStockStatus.
    rewrite Hsales.
    destruct (js_eq (js_or currentStock (Fin 0)) (Fin 0)); reflexivity.
Qed.

Lemma C6_days_of_stock_guarded_witness :
  let v := {| v_id := 1; v_price := Fin 20; v_inventory_quantity := Some (Fin 5) |} in
  let p := {| p_published_at := Some 0%Z; p_created_at := 0;
              p_product_type := None; p_tags := None |} in
  let a := calculateFocusedVariantAnalytics (fun _ _ => Fin 0) (fun _ _ => Fin 0)
             5184000000 v [] p None in
  is_finite (Analytics.days_of_stock_remaining a) = true
  /\ Analytics.days_of_stock_remaining a =n= Fin 0
  /\ daysRemaining (calculateStockStatus (Some (Fin 5)) (Some (Fin 0))) =n= Fin 0.
Proof.
  intros v p a.
  destruct (C6_days_of_stock_guarded (fun _ _ => Fin 0) (fun _ _ => Fin 0)
              5184000000 v [] p None 5 0)
    as (Hfinite & Hzero & Hstatus).
  - reflexivity.
  - reflexivity.
  - split; [exact Hfinite |]. split.
    + apply Hzero. unfold Qle; simpl; lia.
    + apply Hstatus. reflexivity.
Defined.

(** ** The pricing opportunity *)

Lemma Qfloor_unique (x : Q) (z : Z) :
  inject_Z z <= x -> x < inject_Z (z + 1) -> Qfloor x = z.
Proof.
  intros Hle Hlt.
  pose proof (Qfloor_le x) as H1. pose proof (Qlt_floor x) as H2.
  assert (Ha : inject_Z z < inject_Z (Qfloor x + 1)).
  { eapply Qle_lt_trans; eassumption. }
  assert (Hb : inject_Z (Qfloor x) < inject_Z (z + 1)).
  { eapply Qle_lt_trans; eassumption. }
  rewrite <- Zlt_Qlt in Ha, Hb. lia.
Qed.

Lemma Qfloor_add_Z (z : Z) (x : Q) : Qfloor (inject_Z z + x) = (z + Qfloor x)%Z.
Proof.
  apply Qfloor_unique.
  - rewrite inject_Z_plus. apply Qplus_le_r, Qfloor_le.
  - rewrite <- Z.add_assoc, inject_Z_plus. apply Qplus_lt_r, Qlt_floor.
Qed.

Lemma Qround2_nonneg (x : Q) : 0 <= x -> 0 <= Qround2 x.
Proof.
  intros Hx. unfold Qround2. apply Qle_shift_div_l; [reflexivity |].
  assert (H0 : (Qfloor 0 <= Qfloor (x * 100 + (1 # 2)))%Z)
    by (apply Qfloor_resp_le; lra).
  change (Qfloor 0) with 0%Z in H0. rewrite Zle_Qle in H0.
  rewrite Qmult_0_l. exact H0.
Qed.

Lemma round2_Fin_eq (x : Q) : round2 (Fin x) = Fin (Qround2 x).
Proof.
  unfold round2, Qround2. cbn [js_mul Math_round].
  apply js_div_Fin. intros H; discriminate H.
Qed.

(** ** The pricing rule on binary64 *)

Section PricingRule64.

#[local] Open Scope float_scope.

Lemma inventorySuggestions64_group s d :
  Forall (in_group InventoryRule) (B64.inventorySuggestions s d).
Proof.
  unfold B64.inventorySuggestions.
  repeat match goal with |- context [if ?b then _ else _] => destruct b end;
    repeat constructor.
Qed.

Lemma performanceSuggestions64_group r t :
  Forall (in_group PerformanceRule) (B64.performanceSuggestions r t).
Proof.
  unfold B64.performanceSuggestions.
  repeat match goal with |- context [if ?b then _ else _] => destruct b end;
    repeat constructor.
Qed.

Lemma trendSuggestions64_group acc :
  Forall (in_group TrendRule) (B64.trendSuggestions acc).
Proof.
  unfold B64.trendSuggestions.
  repeat match goal with |- context [if ?b then _ else _] => destruct b end;
    repeat constructor.
Qed.

Lemma seasonalSuggestions64_group seas :
  Forall (in_group SeasonalRule) (B64.seasonalSuggestions seas).
Proof.
  unfold B64.seasonalSuggestions.
  repeat match goal with |- context [if ?b then _ else _] => destruct b end;
    repeat constructor.
Qed.

Lemma bundlingSuggestions64_group r t rev :
  Forall (in_group BundlingRule) (B64.bundlingSuggestions r t rev).
Proof.
  unfold B64.bundlingSuggestions.
  repeat match goal with |- context [if ?b then _ else _] => destruct b end;
    repeat constructor.
Qed.

(** The pricing suggestions of the engine are those of the pricing rule. *)
Lemma elem_of_pricing64
    (variant : B64.Variant) (product : Product)
    (r t s d rev ml acc seas : float)
    (sa : option B64.PercentageBasedStaleAnalysis) (tqs : option float)
    (sg : Suggestion) :
  type sg = PRICING_OPPORTUNITY ->
  sg ∈ B64.suggestions
         (B64.generateVariantSuggestions variant product r t s d rev ml acc seas
            sa tqs) <->
  sg ∈ B64.pricingSuggestions r t (B64.or_zero (B64.v_price variant)).
Proof.
  intros Hty. cbn [B64.generateVariantSuggestions B64.suggestions].
  rewrite !elem_of_app.
  pose proof (inventorySuggestions64_group s d) as H1.
  pose proof (performanceSuggestions64_group r t) as H2.
  pose proof (trendSuggestions64_group acc) as H3.
  pose proof (seasonalSuggestions64_group seas) as H5.
  pose proof (bundlingSuggestions64_group r t rev) as H6.
  rewrite Forall_forall in H1, H2, H3, H5, H6. unfold in_group in *.
  split.
  - intros [Hin | [Hin | [Hin | [Hin | [Hin | Hin]]]]];
      try exact Hin;
      [apply H1 in Hin | apply H2 in Hin | apply H3 in Hin
       | apply H5 in Hin | apply H6 in Hin];
      rewrite Hty in Hin; discriminate Hin.
  - intros Hin. right. right. right. left. exact Hin.
Qed.

(** The pricing rule: when it fires and what it states. *)
Lemma pricing_rule64 (r t price : float) :
  ((t <=? r) = true /\ (0 <? price) = true ->
   B64.pricingSuggestions r t (B64.or_zero price) =
   [ {| type := PRICING_OPPORTUNITY;
        action := tpl "Test price increase to ${}"
                      [B64.toFixed 2 (price + B64.round2 (price * 0.15))];
        reason := tpl "Strong demand indicates pricing power" [];
        priority := LOW |} ])
  /\ (~ ((t <=? r) = true /\ (0 <? price) = true) ->
      B64.pricingSuggestions r t (B64.or_zero price) = []).
Proof.
  unfold B64.pricingSuggestions. rewrite or_zero_positive. split.
  - intros [Hr Hp]. rewrite Hr, Hp, (positive_or_zero price Hp). reflexivity.
  - intros Hnot. destruct (t <=? r), (0 <? price); try reflexivity.
    exfalso. apply Hnot. split; reflexivity.
Qed.

End PricingRule64.

(** C7 as stated fails: at a price of 1.233 the suggestion shows 1.41
    (1.233 plus the increase 0.18, printed with two decimals), whereas the
    price times 1.15 rounds to 1.42, in binary64 as in exact arithmetic. *)
Lemma C7_counterexample :
  let v := {| B64.v_id := 1; B64.v_price := 1.233;
              B64.v_inventory_quantity := Some 50%float |} in
  let p := {| p_published_at := None; p_created_at := 0;
              p_product_type := None; p_tags := None |} in
  let out := B64.generateVariantSuggestions
               v p 10 10 50 100 200 2 0 0 None None in
  exists sg,
    B64.suggestions out = [sg]
    /\ type sg = PRICING_OPPORTUNITY
    /\ action sg = tpl "Test price increase to ${}" [Fin (141 # 100)]
    /\ B64.toFixed 2 (1.233 * 1.15)%float = Fin (142 # 100)
    /\ Qround2 ((1233 # 1000) * (115 # 100)) == 142 # 100.
Proof.
  cbv zeta. eexists.
  split; [vm_compute; reflexivity |].
  split; [reflexivity |]. split; [reflexivity |].
  split; [vm_compute; reflexivity |]. reflexivity.
Qed.

(** C7 (as the code has it).  The PRICING_OPPORTUNITY suggestion is emitted
    exactly when the monthly sales rate is at least the stale threshold and
    the price is positive, and at most once.  It states the price plus
    fifteen percent of the price rounded to two decimals
    ([Math.round(price * 0.15 * 100) / 100]), the sum printed with two
    decimals; all of it in binary64, where the figure need not be the price
    times 1.15 rounded to two decimals even for a price in whole cents. *)
Theorem C7_pricing_opportunity
    (variant : B64.Variant) (product : Product)
    (r t s d rev ml acc seas : float)
    (sa : option B64.PercentageBasedStaleAnalysis) (tqs : option float) :
  let price := B64.v_price variant in
  let out := B64.generateVariantSuggestions variant product r t s d rev ml acc
               seas sa tqs in
  (PRICING_OPPORTUNITY ∈ B64.suggestion_types out
   <-> (t <=? r)%float = true /\ (0 <? price)%float = true)
  /\ (forall sg, sg ∈ B64.suggestions out -> type sg = PRICING_OPPORTUNITY ->
        action sg = tpl "Test price increase to ${}"
                        [B64.toFixed 2 (price + B64.round2 (price * 0.15))%float])
  /\ (count_of PricingRule (B64.suggestions out) <= 1)%nat.
Proof.
  intros price out. subst out price.
  destruct (pricing_rule64 r t (B64.v_price variant)) as [Hfires Hquiet].
  split; [| split].
  - unfold B64.suggestion_types. rewrite list_elem_of_fmap. split.
    + intros (sg & Hty & Hin). symmetry in Hty.
      apply (elem_of_pricing64 _ _ _ _ _ _ _ _ _ _ _ _ _ Hty) in Hin.
      destruct (t <=? r)%float eqn:Hr, (0 <? B64.v_price variant)%float eqn:Hp;
        try (split; reflexivity);
        rewrite Hquiet in Hin by (intros [H1 H2]; discriminate);
        apply elem_of_nil in Hin; contradiction.
    + intros Hfire.
      exists {| type := PRICING_OPPORTUNITY;
                action := tpl "Test price increase to ${}"
                              [B64.toFixed 2 (B64.v_price variant
                                              + B64.round2 (B64.v_price variant * 0.15))%float];
                reason := tpl "Strong demand indicates pricing power" [];
                priority := LOW |}.
      split; [reflexivity |]. apply elem_of_pricing64; [reflexivity |].
      rewrite (Hfires Hfire). apply list_elem_of_singleton. reflexivity.
  - intros sg Hin Hty.
    apply (elem_of_pricing64 _ _ _ _ _ _ _ _ _ _ _ _ _ Hty) in Hin.
    destruct (t <=? r)%float eqn:Hr, (0 <? B64.v_price variant)%float eqn:Hp;
      try (rewrite Hquiet in Hin by (intros [H1 H2]; discriminate);
           apply elem_of_nil in Hin; contradiction).
    rewrite (Hfires (conj eq_refl eq_refl)) in Hin.
    apply list_elem_of_singleton in Hin. subst sg. reflexivity.
  - cbn [B64.generateVariantSuggestions B64.suggestions].
    rewrite !count_of_app.
    rewrite (count_of_other PricingRule InventoryRule (B64.inventorySuggestions s d))
      by (discriminate || apply inventorySuggestions64_group).
    rewrite (count_of_other PricingRule PerformanceRule (B64.performanceSuggestions r t))
      by (discriminate || apply performanceSuggestions64_group).
    rewrite (count_of_other PricingRule TrendRule (B64.trendSuggestions acc))
      by (discriminate || apply trendSuggestions64_group).
    rewrite (count_of_other PricingRule SeasonalRule (B64.seasonalSuggestions seas))
      by (discriminate || apply seasonalSuggestions64_group).
    rewrite (count_of_other PricingRule BundlingRule (B64.bundlingSuggestions r t rev))
      by (discriminate || apply bundlingSuggestions64_group).
    unfold B64.pricingSuggestions.
    destruct (_ && _).
    + rewrite count_of_same by (repeat constructor). cbn. lia.
    + cbn. lia.
Qed.

Lemma C7_pricing_opportunity_witness :
  let v := {| B64.v_id := 1; B64.v_price := 1.5;
              B64.v_inventory_quantity := Some 50%float |} in
  let p := {| p_published_at := None; p_created_at := 0;
              p_product_type := None; p_tags := None |} in
  let out := B64.generateVariantSuggestions
               v p 10 10 50 100 200 2 0 0 None None in
  PRICING_OPPORTUNITY ∈ B64.suggestion_types out
  /\ (forall sg, sg ∈ B64.suggestions out -> type sg = PRICING_OPPORTUNITY ->
        action sg = tpl "Test price increase to ${}" [Fin (172 # 100)])
  /\ Qround2 ((150 # 100) * (115 # 100)) == 173 # 100.
Proof.
  intros v p out.
  destruct (C7_pricing_opportunity v p 10 10 50 100 200 2 0 0 None None)
    as (Hfires & Hshown & _).
  split; [| split].
  - apply Hfires. split; vm_compute; reflexivity.
  - intros sg Hin Hty. rewrite (Hshown sg Hin Hty). vm_compute. reflexivity.
  - reflexivity.
Defined.

(** ** The category resolver *)

Lemma prefix_app (sub s : string) :
  String.prefix sub s = true <-> exists rest, s = (sub ++ rest)%string.
Proof.
  revert sub. induction s as [| b s IH]; intros [| a sub]; cbn.
  - split; [exists ""%string; reflexivity | reflexivity].
  - split; [discriminate | intros [rest Hrest]; discriminate Hrest].
  - split; [intros _; eexists; reflexivity | reflexivity].
  - destruct (ascii_dec a b) as [-> | Hne].
    + rewrite IH. split; intros [rest Hrest]; exists rest.
      * subst s. reflexivity.
      * cbn in Hrest. injection Hrest as Hrest. exact Hrest.
    + split; [discriminate | intros [rest Hrest]].
      cbn in Hrest. injection Hrest as Hab _. congruence.
Qed.

(** [includes] decides whether [sub] is a contiguous part of [s]. *)
Lemma includes_spec (s sub : string) :
  includes s sub = true <->
  exists before after, s = (before ++ sub ++ after)%string.
Proof.
  induction s as [| c s IH]; cbn [includes]; rewrite orb_true_iff, prefix_app.
  - split.
    + intros [[rest Hrest] | Hf]; [| discriminate]. exists ""%string, rest. exact Hrest.
    + intros (before & after & H). left. destruct before; [| discriminate H].
      exists after. exact H.
  - rewrite IH. split.
    + intros [[rest Hrest] | (before & after & H)].
      * exists ""%string, rest. exact Hrest.
      * exists (String c before), after. subst s. reflexivity.
    + intros (before & after & H). destruct before as [| c' before].
      * left. exists after. exact H.
      * right. exists before, after. cbn in H. injection H as _ H. exact H.
Qed.

(** [find] returns the first element that passes the test. *)
Lemma find_first {A : Type} (f : A -> bool) (l : list A) (x : A) :
  List.find f l = Some x <->
  exists earlier later,
    l = earlier ++ x :: later /\ f x = true
    /\ forall y, y ∈ earlier -> f y = false.
Proof.
  induction l as [| a l IH]; cbn [List.find].
  - split; [discriminate |]. intros (earlier & later & H & _).
    destruct earlier; discriminate H.
  - destruct (f a) eqn:Hfa.
    + split.
      * intros [= ->]. exists [], l. split; [reflexivity |]. split; [exact Hfa |].
        intros y Hy. apply elem_of_nil in Hy. contradiction.
      * intros ([| b earlier] & later & H & Hfx & Hnone).
        -- injection H as -> _. reflexivity.
        -- injection H as -> _. rewrite (Hnone b) in Hfa; [discriminate |].
           apply elem_of_cons. left. reflexivity.
    + rewrite IH. split.
      * intros (earlier & later & -> & Hfx & Hnone).
        exists (a :: earlier), later. split; [reflexivity |]. split; [exact Hfx |].
        intros y [-> | Hy]%elem_of_cons; [exact Hfa | apply Hnone, Hy].
      * intros ([| b earlier] & later & H & Hfx & Hnone).
        -- injection H as -> _. rewrite Hfx in Hfa. discriminate.
        -- injection H as -> ->. exists earlier, later.
           split; [reflexivity |]. split; [exact Hfx |].
           intros y Hy. apply Hnone, elem_of_cons. right. exact Hy.
Qed.

Lemma find_is_Some {A : Type} (f : A -> bool) (l : list A) (x : A) :
  x ∈ l -> f x = true -> exists y, List.find f l = Some y.
Proof.
  intros Hx Hfx. destruct (List.find f l) as [y |] eqn:Hfind; [eauto |].
  apply list_elem_of_In in Hx.
  rewrite (find_none f l Hfind x Hx) in Hfx. discriminate.
Qed.

(** The tag lookup returns the first predefined category that occurs in the
    tags. *)
Lemma getCategoryFromTags_first (tags category : string) :
  getCategoryFromTags (Some tags) = Some category <->
  exists earlier later,
    PREDEFINED_CATEGORIES = earlier ++ category :: later
    /\ occurs_in_tags category tags
    /\ forall c, c ∈ earlier -> ~ occurs_in_tags c tags.
Proof.
  unfold getCategoryFromTags, occurs_in_tags.
  destruct tags as [| ch tags]; cbn [truthy_string].
  - split; [discriminate |].
    intros (earlier & later & Heq & (before & after & Happ) & _).
    exfalso. cbn in Happ.
    assert (Hin : category ∈ PREDEFINED_CATEGORIES)
      by (rewrite Heq; apply elem_of_app; right; apply elem_of_cons; left; reflexivity).
    destruct before; [| discriminate Happ].
    unfold PREDEFINED_CATEGORIES in Hin.
    repeat (apply elem_of_cons in Hin as [-> | Hin]; [discriminate Happ |]).
    apply elem_of_nil in Hin. exact Hin.
  - rewrite find_first. split.
    + intros (earlier & later & Heq & Hinc & Hnone).
      exists earlier, later. split; [exact Heq |]. split.
      * apply includes_spec, Hinc.
      * intros c Hc Hocc. apply includes_spec in Hocc.
        rewrite (Hnone c Hc) in Hocc. discriminate.
    + intros (earlier & later & Heq & Hocc & Hnone).
      exists earlier, later. split; [exact Heq |]. split.
      * apply includes_spec, Hocc.
      * intros c Hc. apply not_true_is_false. intros Hinc.
        apply (Hnone c Hc), includes_spec, Hinc.
Qed.

Lemma getCategoryFromTags_some (tags : string) :
  (exists c, c ∈ PREDEFINED_CATEGORIES /\ occurs_in_tags c tags) ->
  exists category, getCategoryFromTags (Some tags) = Some category.
Proof.
  intros (c & Hc & Hocc). unfold getCategoryFromTags.
  destruct tags as [| ch tags]; cbn [truthy_string].
  - exfalso. destruct Hocc as (before & after & Happ). cbn in Happ.
    destruct before; [| discriminate Happ].
    unfold PREDEFINED_CATEGORIES in Hc.
    repeat (apply elem_of_cons in Hc as [-> | Hc]; [discriminate Happ |]).
    apply elem_of_nil in Hc. exact Hc.
  - apply (find_is_Some _ _ c Hc). apply includes_spec, Hocc.
Qed.

Lemma getProductCategory_mapped (productType category : string) :
  CATEGORY_MAPPING !! toLowerCase productType = Some category ->
  getProductCategory (Some productType) = JsString category.
Proof.
  intros Hsome. unfold getProductCategory.
  change (default "undefined"%string (toLowerCase <$> Some productType))
    with (toLowerCase productType).
  cbv zeta. rewrite Hsome. reflexivity.
Qed.

Lemma getProductCategory_unmapped (productType : string) :
  CATEGORY_MAPPING !! toLowerCase productType = None ->
  toLowerCase productType ∉ object_prototype_names ->
  getProductCategory (Some productType) = JsString "general".
Proof.
  intros Hnone Hown. unfold getProductCategory.
  change (default "undefined"%string (toLowerCase <$> Some productType))
    with (toLowerCase productType).
  cbv zeta. rewrite Hnone, bool_decide_eq_false_2 by exact Hown. reflexivity.
Qed.

Lemma getProductCategory_inherited (productType : string) :
  CATEGORY_MAPPING !! toLowerCase productType = None ->
  toLowerCase productType ∈ object_prototype_names ->
  getProductCategory (Some productType)
  = ObjectPrototypeMember (toLowerCase productType).
Proof.
  intros Hnone Hinherited. unfold getProductCategory.
  change (default "undefined"%string (toLowerCase <$> Some productType))
    with (toLowerCase productType).
  cbv zeta. rewrite Hnone, bool_decide_eq_true_2 by exact Hinherited. reflexivity.
Qed.

Ltac run_io :=
  unfold getProductCategoryFromAI, try_catch, request, lift, throw;
  unfold mbind, mret, IO_bind, IO_ret.

Section Resolver.

Variable AI_CATEGORY_API_BASE_URL : option string.
Variable classifyEndpoint : string -> Product -> FetchResult.
Variable product : Product.
Variable n : nat.

Let resolve :=
  getProductCategoryFromAI AI_CATEGORY_API_BASE_URL classifyEndpoint product n.

(** The resolver always returns, after at most one request. *)
Lemma resolver_returns :
  exists category n', resolve = (Returned category, n') /\ (n <= n' <= S n)%nat.
Proof.
  subst resolve. run_io.
  destruct (getCategoryFromTags (p_tags product)); [eexists _, _; split; [reflexivity | lia] |].
  destruct (truthy_string AI_CATEGORY_API_BASE_URL) as [url |];
    [| eexists _, _; split; [reflexivity | lia]].
  destruct (classifyEndpoint url product) as [e | [|] [result |]]; cbn [fst snd negb];
    try (eexists _, _; split; [reflexivity | lia]).
  destruct (or_string _ _); eexists _, _; split; try reflexivity; lia.
Qed.

(** A category found in the tags is returned without any request. *)
Lemma resolver_tag_match (category : string) :
  getCategoryFromTags (p_tags product) = Some category ->
  resolve = (Returned (JsString category), n).
Proof.
  intros Htags. subst resolve. run_io. rewrite Htags. reflexivity.
Qed.

(** When the classification is of no use the static map decides. *)
Lemma resolver_falls_back :
  getCategoryFromTags (p_tags product) = None ->
  classification_fails AI_CATEGORY_API_BASE_URL classifyEndpoint product ->
  resolve.1 = Returned (getProductCategory (p_product_type product)).
Proof.
  intros Htags Hfails. subst resolve. run_io. rewrite Htags.
  unfold classification_fails in Hfails.
  destruct (truthy_string AI_CATEGORY_API_BASE_URL) as [url |]; [| reflexivity].
  destruct (classifyEndpoint url product) as [e | ok json]; [reflexivity |].
  cbn [fst snd].
  destruct Hfails as [-> | [-> | ->]]; cbn [negb]; try reflexivity.
  destruct ok; reflexivity.
  destruct ok; reflexivity.
Qed.

End Resolver.




(** ** Fetching all products *)

Section Pages.

Variable parseLinkHeader : string -> outcome Links.
Variable upstream : nat -> option string -> GetResult.

Let cond := fun st : FetchState => hasNextPage st && (pageCount st <? 50)%nat.
Let body := fetchPage parseLinkHeader upstream.

(** One iteration sends exactly one request; it throws or moves on to the
    next page count. *)
Lemma fetchPage_step (st : FetchState) (n : nat) :
  (exists e, body st n = (Thrown e, S n))
  \/ (exists st', body st n = (Returned st', S n)
                  /\ pageCount st' = S (pageCount st)).
Proof.
  subst body. unfold fetchPage, extractPagination, request, lift.
  unfold mbind, mret, IO_bind, IO_ret.
  destruct (upstream n (truthy_string (pageInfo st))) as [e | products link].
  - left. eexists. reflexivity.
  - cbn [fst snd]. destruct (truthy_string link) as [header |].
    + destruct (parseLinkHeader header) as [links | e].
      * right. eexists. split; reflexivity.
      * left. eexists. reflexivity.
    + right. eexists. split; reflexivity.
Qed.

(** From a state with [k] pages fetched the loop ends within [50 - k]
    further iterations, each of one request. *)
Lemma while_pages_bounded (fuel : nat) :
  forall (st : FetchState) (n : nat),
    (50 - pageCount st <= fuel)%nat ->
    exists res n',
      while fuel cond body st n = (res, n')
      /\ res <> Returned None
      /\ (n <= n' <= n + (50 - pageCount st))%nat.
Proof.
  induction fuel as [| fuel IH]; intros st n Hfuel; cbn [while].
  - assert (Hcond : cond st = false).
    { subst cond. cbv beta. apply andb_false_intro2, Nat.ltb_ge. lia. }
    rewrite Hcond. eexists _, _. split; [reflexivity |].
    split; [discriminate | lia].
  - destruct (cond st) eqn:Hcond.
    + assert (Hlt : (pageCount st < 50)%nat).
      { subst cond. cbv beta in Hcond. apply andb_true_iff in Hcond as [_ Hlt].
        apply Nat.ltb_lt, Hlt. }
      unfold mbind, IO_bind.
      destruct (fetchPage_step st n) as [[e ->] | (st' & -> & Hcount)].
      * eexists _, _. split; [reflexivity |]. split; [discriminate | lia].
      * destruct (IH st' (S n)) as (res & n' & Hrun & Hres & Hn); [lia |].
        exists res, n'. split; [exact Hrun |]. split; [exact Hres | lia].
    + eexists _, _. split; [reflexivity |]. split; [discriminate | lia].
Qed.

End Pages.

(** C9.  Whatever the store answers, also when every answer announces a
    further page, [getAllProducts] ends (by returning the products or by
    passing on a failed request) and has then sent at most 50 page
    requests: fifty iterations of fuel are always enough. *)
Theorem C9_pagination_bounded
    (parseLinkHeader : string -> outcome Links)
    (upstream : nat -> option string -> GetResult) (fuel : nat) :
  (50 <= fuel)%nat ->
  exists res fetches,
    getAllProducts parseLinkHeader upstream fuel 0%nat = (res, fetches)
    /\ res <> Returned None
    /\ (fetches <= 50)%nat.
Proof.
  intros Hfuel. unfold getAllProducts, mbind, mret, IO_bind, IO_ret.
  destruct (while_pages_bounded parseLinkHeader upstream fuel
              {| allProducts := []; pageInfo := None;
                 hasNextPage := true; pageCount := 0 |} 0%nat)
    as (res & n' & Hrun & Hres & Hn); [cbn; lia |].
  cbn [pageCount] in Hn. rewrite Hrun.
  destruct res as [[final |] | e].
  - eexists _, _. split; [reflexivity |]. split; [discriminate | lia].
  - contradiction.
  - eexists _, _. split; [reflexivity |]. split; [discriminate | lia].
Qed.

(** A store that always announces a further page and always sends full
    pages is asked exactly fifty times. *)
Example getAllProducts_runaway_store :
  let page := repeat {| p_published_at := None; p_created_at := 0;
                        p_product_type := None; p_tags := None |} 250 in
  let parse := fun _ : string =>
    Returned {| next := Some "cursor"%string; previous := None |} in
  let store := fun (_ : nat) (_ : option string) =>
    GetOk page (Some "<https://shop.example/products.json?page_info=cursor>"%string) in
  exists products,
    getAllProducts parse store 1000 0%nat = (Returned (Some products), 50%nat)
    /\ length products = (50 * 250)%nat.
Proof.
  eexists. split; [vm_compute; reflexivity |]. vm_compute. reflexivity.
Qed.

Lemma C9_pagination_bounded_witness :
  let page := repeat {| p_published_at := None; p_created_at := 0;
                        p_product_type := None; p_tags := None |} 250 in
  let parse := fun _ : string =>
    Returned {| next := Some "cursor"%string; previous := None |} in
  let store := fun (_ : nat) (_ : option string) =>
    GetOk page (Some "next"%string) in
  exists res fetches,
    getAllProducts parse store 50 0%nat = (res, fetches)
    /\ res <> Returned None
    /\ (fetches <= 50)%nat.
Proof.
  intros page parse store.
  apply (C9_pagination_bounded parse store 50). lia.
Defined.

(** ** A worked scenario

    A variant published 60 days ago with 50 units on hand and one order, 30
    days ago, of 10 units at 20.00: ten units sold out of an estimated 60,
    two months live, five units a month, 8.33 percent of the inventory a
    month, stale under the default threshold, below target and
    overstocked (300 days of stock). *)
Example sixty_day_scenario :
  let v := {| v_id := 1; v_price := Fin 20; v_inventory_quantity := Some (Fin 50) |} in
  let p := {| p_published_at := Some 0%Z; p_created_at := 0;
              p_product_type := None; p_tags := None |} in
  let o := {| o_created_at := 2592000000;
              o_line_items := Some [ {| li_variant_id := 1;
                                        li_quantity := Some (Fin 10);
                                        li_price := Fin 20 |} ] |} in
  let a := calculateFocusedVariantAnalytics (fun _ _ => Fin 0) (fun _ _ => Fin 0)
             5184000000 v [o] p None in
  Analytics.total_quantity_sold a =n= Fin 10
  /\ Analytics.estimated_initial_quantity a =n= Fin 60
  /\ Analytics.total_revenue a =n= Fin 200
  /\ Analytics.months_live a =n= Fin 2
  /\ Analytics.monthly_sales_rate a =n= Fin 5
  /\ Analytics.percent_sold_per_month a =n= Fin (833 # 100)
  /\ Analytics.is_stale a = Fin 1
  /\ Analytics.days_of_stock_remaining a =n= Fin 300
  /\ suggestion_types (Analytics.intelligent_suggestions a)
     = [OVERSTOCK; BELOW_TARGET; BUNDLING_OPPORTUNITY].
Proof.
  vm_compute. repeat split.
Qed.

(** * Further properties of the products service *)

(** ** Structured classification *)

(** X1.  The grade of [classifyPerformance] and the performance suggestion
    agree on every finite rate and threshold: F goes with NO_SALES, D with
    POOR_PERFORMANCE, C and B- with BELOW_TARGET, A and A+ with
    HIGH_PERFORMER, and B+ with no performance suggestion. *)
Theorem X1_grade_matches_suggestion (r t : Q) :
  let g := PerformanceClass.grade (classifyPerformance (Fin r) (Fin t)) in
  let l := performanceSuggestions (Fin r) (Fin t) in
  (g = "F"%string <-> NO_SALES ∈ type <$> l)
  /\ (g = "D"%string <-> POOR_PERFORMANCE ∈ type <$> l)
  /\ (g = "C"%string \/ g = "B-"%string <-> BELOW_TARGET ∈ type <$> l)
  /\ (g = "A"%string \/ g = "A+"%string <-> HIGH_PERFORMER ∈ type <$> l)
  /\ (g = "B+"%string <-> l = []).
Proof.
  unfold classifyPerformance, performanceSuggestions. cbn [js_mul].
  finite_cases; cbn [PerformanceClass.grade fmap list_fmap type];
    rewrite ?list_elem_of_singleton, ?elem_of_nil;
    try (exfalso; lra);
    repeat split; intros; try discriminate; try tauto;
    try (left; reflexivity); try (right; reflexivity);
    match goal with
    | H : _ \/ _ |- _ => destruct H; discriminate
    end.
Qed.

(** X2.  For a positive threshold the grade never falls when the monthly
    sales rate rises from a non-negative value. *)
Theorem X2_grade_monotone (r1 r2 t : Q) :
  0 < t -> 0 <= r1 -> r1 <= r2 ->
  (grade_rank (PerformanceClass.grade (classifyPerformance (Fin r1) (Fin t)))
   <= grade_rank (PerformanceClass.grade (classifyPerformance (Fin r2) (Fin t))))%nat.
Proof.
  intros Ht Hr1 Hr12. unfold classifyPerformance. cbn [js_mul].
  finite_cases; cbn [PerformanceClass.grade]; try (exfalso; lra);
    vm_compute; lia.
Qed.

Lemma X2_grade_monotone_witness :
  (grade_rank (PerformanceClass.grade (classifyPerformance (Fin 2) (Fin 10)))
   <= grade_rank (PerformanceClass.grade (classifyPerformance (Fin 25) (Fin 10))))%nat.
Proof.
  apply X2_grade_monotone.
  - reflexivity.
  - unfold Qle; simpl; lia.
  - unfold Qle; simpl; lia.
Defined.

(** X3.  [getUrgencyLevel] and the urgency of [classifyPerformance] agree
    on every rate graded below B+; for the grades B+, A and A+ the former
    says NONE while the latter says LOW. *)
Theorem X3_urgency_levels (r t : num) :
  let c := classifyPerformance r t in
  let u := getUrgencyLevel r t in
  (u = "NONE"%string <->
   PerformanceClass.grade c = "B+"%string
   \/ PerformanceClass.grade c = "A"%string
   \/ PerformanceClass.grade c = "A+"%string)
  /\ (u <> "NONE"%string -> u = PerformanceClass.urgency c)
  /\ (u = "NONE"%string -> PerformanceClass.urgency c = "LOW"%string).
Proof.
  unfold classifyPerformance, getUrgencyLevel.
  repeat match goal with
         | |- context [if ?b then _ else _] => destruct b
         end;
    cbn [PerformanceClass.grade PerformanceClass.urgency];
    repeat split; intros; try discriminate; try reflexivity; try contradiction;
    try (left; reflexivity); try (right; left; reflexivity);
    try (right; right; reflexivity);
    repeat match goal with
           | H : _ \/ _ |- _ => destruct H
           end; discriminate.
Qed.

(** X4.  For a positive threshold the percentile band and the market
    position draw the same lines at twice, once and half the threshold: the
    top 5 and top 15 percent are the market leader and the strong
    performer, top 30 and top 50 the average performer, bottom 30 below
    average and bottom 10 the poor performer.  (The line at three times the
    threshold is drawn on the quotient by the one and on the product by the
    other, and is not compared.) *)
Theorem X4_percentile_matches_position (r t : Q) :
  0 < t ->
  let p := getPerformancePercentile (Fin r) (Fin t) in
  let m := getMarketPosition (Fin r) (Fin t) in
  (p = "Top 5% (Exceptional)"%string \/ p = "Top 15% (Excellent)"%string
   <-> m = "Market Leader"%string \/ m = "Strong Performer"%string)
  /\ (p = "Top 30% (Above Average)"%string \/ p = "Top 50% (Average)"%string
      <-> m = "Average Performer"%string)
  /\ (p = "Bottom 30% (Below Average)"%string <-> m = "Below Average"%string)
  /\ (p = "Bottom 10% (Poor)"%string <-> m = "Poor Performer"%string).
Proof.
  intros Ht. unfold getPerformancePercentile, getMarketPosition. cbn [js_mul].
  rewrite js_div_Fin by lra.
  assert (Hq : r == r / t * t) by (field; lra).
  set (q := r / t) in *.
  finite_cases; try (exfalso; nra);
    repeat split; intros; try discriminate; try reflexivity;
    try (left; reflexivity); try (right; reflexivity);
    repeat match goal with
           | H : _ \/ _ |- _ => destruct H
           end; discriminate.
Qed.

Lemma X4_percentile_matches_position_witness :
  getPerformancePercentile (Fin 25) (Fin 10) = "Top 15% (Excellent)"%string
  /\ (getMarketPosition (Fin 25) (Fin 10) = "Market Leader"%string
      \/ getMarketPosition (Fin 25) (Fin 10) = "Strong Performer"%string).
Proof.
  pose proof (X4_percentile_matches_position 25 10) as H. cbv zeta in H.
  destruct H as (Hstrong & _); [reflexivity |].
  split; [reflexivity |]. apply Hstrong. right. reflexivity.
Defined.

(** X5.  The opportunity score is a whole number between 25 and 100
    whatever the three classifications hold, and it is 100 exactly for an
    A-grade performance with a rapidly improving trend and an optimal
    stock. *)
Theorem X5_opportunity_score_bounds
    (performanceClass : PerformanceClass.t) (inventoryStatus : InventoryClass.t)
    (trendStatus : TrendClass.t) :
  exists n : Z,
    calculateOpportunityScore performanceClass inventoryStatus trendStatus
    = Fin (inject_Z n)
    /\ (25 <= n <= 100)%Z
    /\ (n = 100%Z <->
        startsWith (PerformanceClass.grade performanceClass) "A" = true
        /\ TrendClass.direction trendStatus = "RAPIDLY_IMPROVING"%string
        /\ InventoryClass.status inventoryStatus = "OPTIMAL"%string).
Proof.
  unfold calculateOpportunityScore.
  destruct (startsWith (PerformanceClass.grade performanceClass) "A");
    [| destruct (startsWith (PerformanceClass.grade performanceClass) "B");
       [| destruct (startsWith (PerformanceClass.grade performanceClass) "C")]];
    (destruct (String.eqb_spec (TrendClass.direction trendStatus) "RAPIDLY_IMPROVING");
     [| destruct (String.eqb_spec (TrendClass.direction trendStatus) "IMPROVING");
        [| destruct (String.eqb_spec (TrendClass.direction trendStatus) "STABLE")]]);
    (destruct (String.eqb_spec (InventoryClass.status inventoryStatus) "OPTIMAL");
     [| destruct (String.eqb_spec (InventoryClass.status inventoryStatus) "LOW_STOCK");
        [| destruct (String.eqb_spec (InventoryClass.status inventoryStatus) "HIGH_STOCK")]]);
    (eexists; split; [vm_compute; reflexivity |]; split; [lia |];
     split; [intros Hn; try discriminate Hn; repeat split; assumption
            | intros (Hg & Hd & Hs); try discriminate Hg; try reflexivity;
              congruence]).
Qed.

Lemma js_le_Fin_weaken (d : num) (a b : Q) :
  a <= b -> js_le d (Fin a) = true -> js_le d (Fin b) = true.
Proof.
  intros Hab. destruct d as [x | | |]; cbn; try discriminate; try reflexivity.
  rewrite !negb_true_iff, !Qltb_ge. intros Hx. lra.
Qed.

(** X6.  [classifyInventoryStatus] puts every input in the band that
    [getSimpleInventoryStatus] puts it in, and unless the days of stock are
    [NaN] the inventory suggestion follows the band: CRITICAL_INVENTORY for
    OUT_OF_STOCK, LOW_INVENTORY for CRITICAL_LOW, INVENTORY_WARNING for
    LOW_STOCK, OVERSTOCK for OVERSTOCKED, and none for OPTIMAL and
    HIGH_STOCK. *)
Theorem X6_inventory_band (d s : num) :
  let band := InventoryClass.status (classifyInventoryStatus d s) in
  let tys := type <$> inventorySuggestions s d in
  band = band_name (getSimpleInventoryStatus d s)
  /\ (is_nan d = false ->
      (band = "OUT_OF_STOCK"%string <-> CRITICAL_INVENTORY ∈ tys)
      /\ (band = "CRITICAL_LOW"%string <-> LOW_INVENTORY ∈ tys)
      /\ (band = "LOW_STOCK"%string <-> INVENTORY_WARNING ∈ tys)
      /\ (band = "OVERSTOCKED"%string <-> OVERSTOCK ∈ tys)
      /\ (band = "OPTIMAL"%string \/ band = "HIGH_STOCK"%string <-> tys = [])).
Proof.
  unfold classifyInventoryStatus, getSimpleInventoryStatus, inventorySuggestions.
  split.
  - repeat match goal with
           | |- context [if ?b then _ else _] => destruct b
           end; reflexivity.
  - intros Hnan.
    assert (Hgt : js_gt d (Fin 180) = negb (js_le d (Fin 180))).
    { unfold js_gt, js_le. rewrite Hnan. cbn [is_nan negb andb].
      rewrite negb_involutive. reflexivity. }
    rewrite Hgt.
    assert (H90 : js_le d (Fin 90) = true -> js_le d (Fin 180) = true)
      by (apply js_le_Fin_weaken; lra).
    destruct (js_eq s (Fin 0)); [| destruct (js_le d (Fin 7));
      [| destruct (js_le d (Fin 30)); [| destruct (js_le d (Fin 90));
        [rewrite (H90 eq_refl) | destruct (js_le d (Fin 180))]]]];
      cbn [InventoryClass.status negb fmap list_fmap type];
      rewrite ?list_elem_of_singleton, ?elem_of_nil;
      repeat split; intros; try discriminate; try reflexivity; try tauto;
      try (left; reflexivity); try (right; reflexivity);
      repeat match goal with
             | H : _ \/ _ |- _ => destruct H
             end; discriminate.
Qed.

Lemma X6_inventory_band_witness :
  LOW_INVENTORY ∈ type <$> inventorySuggestions (Fin 12) (Fin 3).
Proof.
  pose proof (X6_inventory_band (Fin 3) (Fin 12)) as H. cbv zeta in H.
  destruct H as [_ H]. destruct (H eq_refl) as (_ & Hlow & _).
  apply Hlow. reflexivity.
Defined.



(** ** Catalogue aggregates *)

Lemma filter_length_le {A : Type} (f g : A -> bool) (l : list A) :
  (forall x, f x = true -> g x = true) ->
  (length (List.filter f l) <= length (List.filter g l))%nat.
Proof.
  intros Hfg. induction l as [| x l IH]; [reflexivity |]. cbn [List.filter].
  destruct (f x) eqn:Hf.
  - rewrite (Hfg x Hf). cbn. lia.
  - destruct (g x); cbn; lia.
Qed.

Lemma filter_length_bound {A : Type} (f : A -> bool) (l : list A) :
  (length (List.filter f l) <= length l)%nat.
Proof.
  induction l as [| x l IH]; [reflexivity |]. cbn [List.filter].
  destruct (f x); cbn; lia.
Qed.

Lemma zero_below_ten (q : num) : js_eq q (Fin 0) = true -> js_lt q (Fin 10) = true.
Proof.
  destruct q as [x | | |]; cbn; try discriminate.
  intros Hx%Qeq_bool_iff. apply Qltb_lt. lra.
Qed.

(** A sum of finite numbers is finite. *)
Lemma sum_of_finite (xs : list num) (a : Q) :
  Forall (fun x => is_finite x = true) xs ->
  exists s, foldl js_add (Fin a) xs = Fin s.
Proof.
  intros Hfin. revert a. induction Hfin as [| x xs Hx _ IH]; intros a.
  - exists a. reflexivity.
  - destruct x as [q | | |]; try discriminate Hx. cbn [foldl js_add]. apply IH.
Qed.

Lemma length_of_pos {A : Type} (xs : list A) :
  (0 < length xs)%nat -> 0 < inject_Z (Z.of_nat (length xs)).
Proof.
  intros Hpos. change 0 with (inject_Z 0). rewrite <- Zlt_Qlt. lia.
Qed.

(** A total shared among [n >= 1] lies between zero and the total. *)
Lemma share_between (total : Q) (n : nat) :
  (0 < n)%nat ->
  let share := total / inject_Z (Z.of_nat n) in
  (0 <= total -> 0 <= share /\ share <= total)
  /\ (total <= 0 -> total <= share /\ share <= 0).
Proof.
  intros Hn. cbv zeta.
  assert (H1 : 1 <= inject_Z (Z.of_nat n)).
  { change 1 with (inject_Z 1). rewrite <- Zle_Qle. lia. }
  set (k := inject_Z (Z.of_nat n)) in *.
  assert (Hk : 0 < k) by lra.
  split; intros Ht; split.
  - apply Qle_shift_div_l; [exact Hk | lra].
  - apply Qle_shift_div_r; [exact Hk | nra].
  - apply Qle_shift_div_l; [exact Hk | nra].
  - apply Qle_shift_div_r; [exact Hk | lra].
Qed.

(** X13.  In the inventory statistics the out-of-stock variants are among
    the low-stock ones and these among all variants; without variants the
    total and the average are zero; and when no quantity is infinite the
    total and the average are finite and the average lies between zero and
    the total. *)
Theorem X13_inventory_stats (products : list CatalogProduct) :
  let st := calculateInventoryStats products in
  (outOfStockVariants st <= lowStockVariants st <= totalVariants st)%nat
  /\ (totalVariants st = 0%nat ->
      totalInventory st = Fin 0 /\ averageInventoryPerVariant st = Fin 0)
  /\ (finite_stock products -> (0 < totalVariants st)%nat ->
      exists total average,
        totalInventory st = Fin total
        /\ averageInventoryPerVariant st = Fin average
        /\ (0 <= total -> 0 <= average /\ average <= total)
        /\ (total <= 0 -> total <= average /\ average <= 0)).
Proof.
  unfold calculateInventoryStats, finite_stock.
  set (allInventory := products ≫= _).
  cbn [outOfStockVariants lowStockVariants totalVariants totalInventory
       averageInventoryPerVariant].
  split; [split |].
  - apply filter_length_le, zero_below_ten.
  - apply filter_length_bound.
  - split.
    + intros Hnone. destruct allInventory; [split; reflexivity | discriminate Hnone].
    + intros Hfin Hpos.
      destruct (sum_of_finite allInventory 0 Hfin) as [total Htotal].
      unfold sum_of. rewrite Htotal.
      apply Nat.ltb_lt in Hpos as Hpos'. rewrite Hpos'.
      pose proof (length_of_pos allInventory Hpos) as Hn.
      unfold length_of. rewrite js_div_Fin by lra.
      exists total, (total / inject_Z (Z.of_nat (length allInventory))).
      split; [reflexivity |]. split; [reflexivity |].
      exact (share_between total (length allInventory) Hpos).
Qed.

Lemma X13_inventory_stats_witness :
  let v q := {| cv_variant := {| v_id := 1; v_price := Fin 5;
                                 v_inventory_quantity := q |};
                cv_title := None; cv_sku := None; cv_barcode := None |} in
  let p := {| cp_product := {| p_published_at := None; p_created_at := 0;
                               p_product_type := None; p_tags := None |};
              cp_title := None; cp_body_html := None; cp_vendor := None;
              cp_status := None;
              cp_variants := Some [v (Some (Fin 0)); v None; v (Some (Fin 30))] |} in
  exists total average,
    totalInventory (calculateInventoryStats [p]) = Fin total
    /\ averageInventoryPerVariant (calculateInventoryStats [p]) = Fin average
    /\ (0 <= total -> 0 <= average /\ average <= total).
Proof.
  intros v p.
  pose proof (X13_inventory_stats [p]) as H. cbv zeta in H.
  destruct H as (_ & _ & H).
  destruct H as (total & average & Htotal & Haverage & Hbounds & _).
  - repeat constructor.
  - vm_compute. lia.
  - exists total, average. split; [exact Htotal |]. split; [exact Haverage |].
    exact Hbounds.
Defined.

(** The least and the greatest of a non-empty list of finite numbers are
    members of it and bound it. *)
Lemma Math_min_of_finite (xs : list num) :
  xs <> [] -> Forall (fun x => is_finite x = true) xs ->
  exists m, Math_min_of xs = Fin m /\ Fin m ∈ xs
            /\ forall q, Fin q ∈ xs -> m <= q.
Proof.
  intros Hne Hfin. induction Hfin as [| x xs Hx Hxs IH]; [contradiction |].
  destruct x as [q | | |]; try discriminate Hx. cbn [Math_min_of foldr].
  destruct xs as [| y ys].
  - exists q. cbn. split; [reflexivity |]. split; [apply list_elem_of_singleton; reflexivity |].
    intros q' [= ->]%list_elem_of_singleton. lra.
  - destruct IH as (m & Hm & Hin & Hle); [discriminate |].
    change (foldr Math_min PInf (y :: ys)) with (Math_min_of (y :: ys)).
    rewrite Hm. unfold Math_min. destruct (js_lt (Fin m) (Fin q)) eqn:Hlt.
    + apply js_lt_Fin in Hlt. exists m. split; [reflexivity |]. split.
      * apply elem_of_cons. right. exact Hin.
      * intros q' [[= ->] | Hq']%elem_of_cons; [lra | apply Hle, Hq'].
    + apply js_lt_Fin_false in Hlt. exists q. split; [reflexivity |]. split.
      * apply elem_of_cons. left. reflexivity.
      * intros q' [[= ->] | Hq']%elem_of_cons; [lra |].
        specialize (Hle q' Hq'). lra.
Qed.

Lemma Math_max_of_finite (xs : list num) :
  xs <> [] -> Forall (fun x => is_finite x = true) xs ->
  exists m, Math_max_of xs = Fin m /\ Fin m ∈ xs
            /\ forall q, Fin q ∈ xs -> q <= m.
Proof.
  intros Hne Hfin. induction Hfin as [| x xs Hx Hxs IH]; [contradiction |].
  destruct x as [q | | |]; try discriminate Hx. cbn [Math_max_of foldr].
  destruct xs as [| y ys].
  - exists q. cbn. split; [reflexivity |]. split; [apply list_elem_of_singleton; reflexivity |].
    intros q' [= ->]%list_elem_of_singleton. lra.
  - destruct IH as (m & Hm & Hin & Hle); [discriminate |].
    change (foldr Math_max NInf (y :: ys)) with (Math_max_of (y :: ys)).
    rewrite Hm. unfold Math_max. destruct (js_lt (Fin q) (Fin m)) eqn:Hlt.
    + apply js_lt_Fin in Hlt. exists m. split; [reflexivity |]. split.
      * apply elem_of_cons. right. exact Hin.
      * intros q' [[= ->] | Hq']%elem_of_cons; [lra | apply Hle, Hq'].
    + apply js_lt_Fin_false in Hlt. exists q. split; [reflexivity |]. split.
      * apply elem_of_cons. left. reflexivity.
      * intros q' [[= ->] | Hq']%elem_of_cons; [lra |].
        specialize (Hle q' Hq'). lra.
Qed.

(** A sum of numbers between [lo] and [hi] lies between the multiples of
    [lo] and [hi] by their count. *)
Lemma sum_of_bounds (xs : list num) (lo hi a : Q) :
  Forall (fun x => is_finite x = true) xs ->
  (forall q, Fin q ∈ xs -> lo <= q <= hi) ->
  exists s, foldl js_add (Fin a) xs = Fin s
            /\ a + inject_Z (Z.of_nat (length xs)) * lo <= s
            /\ s <= a + inject_Z (Z.of_nat (length xs)) * hi.
Proof.
  intros Hfin. revert a. induction Hfin as [| x xs Hx _ IH]; intros a Hbound.
  - exists a. split; [reflexivity |].
    change (inject_Z (Z.of_nat (length (@nil num)))) with 0. split; lra.
  - destruct x as [q | | |]; try discriminate Hx. cbn [foldl js_add].
    destruct (IH (a + q)) as (s & Hs & Hlo & Hhi).
    { intros q' Hq'. apply Hbound, elem_of_cons. right. exact Hq'. }
    exists s. split; [exact Hs |].
    assert (Hq : lo <= q <= hi) by (apply Hbound, elem_of_cons; left; reflexivity).
    assert (Hlen : inject_Z (Z.of_nat (length (Fin q :: xs)))
                   == inject_Z (Z.of_nat (length xs)) + 1).
    { cbn [length]. rewrite Nat2Z.inj_succ, <- Z.add_1_r, inject_Z_plus. reflexivity. }
    rewrite Hlen. split; lra.
Qed.

Lemma filter_not_nan_finite (xs : list num) :
  Forall (fun x => x <> PInf /\ x <> NInf) xs ->
  Forall (fun x => is_finite x = true)
    (List.filter (fun price => negb (is_nan price)) xs).
Proof.
  induction 1 as [| x xs [Hp Hn] _ IH]; [constructor |]. cbn [List.filter].
  destruct x; cbn [is_nan negb]; try congruence; try exact IH.
  constructor; [reflexivity | exact IH].
Qed.

Lemma filter_not_nan_elem (xs : list num) (x : num) :
  x ∈ List.filter (fun price => negb (is_nan price)) xs <-> x ∈ xs /\ x <> NaN.
Proof.
  rewrite list_elem_of_In, filter_In, <- list_elem_of_In.
  destruct x; cbn; split; intros [H1 H2]; split; try assumption;
    try discriminate; try reflexivity; congruence.
Qed.

(** X14.  When no variant price is infinite, the price range is all zero
    if no price parses, and otherwise its minimum and maximum are prices of
    the catalogue that bound every parsed price, and the average is finite;
    unparsable prices play no part. *)
Theorem X14_price_range (products : list CatalogProduct) :
  Forall (fun x => x <> PInf /\ x <> NInf) (catalogue_prices products) ->
  let r := calculatePriceRange products in
  (Forall (fun x => x = NaN) (catalogue_prices products) ->
   r = {| pr_min := Fin 0; pr_max := Fin 0; pr_average := Fin 0 |})
  /\ (Exists (fun x => x <> NaN) (catalogue_prices products) ->
      exists lo hi average,
        pr_min r = Fin lo /\ pr_max r = Fin hi /\ pr_average r = Fin average
        /\ lo <= hi
        /\ Fin lo ∈ catalogue_prices products
        /\ Fin hi ∈ catalogue_prices products
        /\ forall q, Fin q ∈ catalogue_prices products -> lo <= q <= hi).
Proof.
  intros Hfin. unfold calculatePriceRange.
  change (products ≫= variants_map (fun v => v_price (cv_variant v)))
    with (catalogue_prices products).
  set (prices := catalogue_prices products) in *.
  set (allPrices := List.filter _ prices).
  pose proof (filter_not_nan_finite prices Hfin) as Hall. fold allPrices in Hall.
  split.
  - intros Hnan.
    assert (Hempty : allPrices = []).
    { apply elem_of_nil_inv. intros x [Hx Hne]%filter_not_nan_elem.
      rewrite Forall_forall in Hnan. apply Hne, Hnan, Hx. }
    rewrite Hempty. reflexivity.
  - intros Hsome. apply Exists_exists in Hsome as (x & Hx & Hne).
    assert (Hin : x ∈ allPrices) by (apply filter_not_nan_elem; split; assumption).
    assert (Hnonempty : allPrices <> []).
    { intros Hnil. rewrite Hnil in Hin. apply elem_of_nil in Hin. exact Hin. }
    destruct allPrices as [| y ys] eqn:Hlist; [contradiction |].
    cbn [length Nat.eqb]. rewrite <- Hlist in *.
    destruct (Math_min_of_finite allPrices Hnonempty Hall) as (lo & -> & Hlo_in & Hlo).
    destruct (Math_max_of_finite allPrices Hnonempty Hall) as (hi & -> & Hhi_in & Hhi).
    destruct (sum_of_bounds allPrices lo hi 0 Hall) as (s & Hs & Hs_lo & Hs_hi).
    { intros q Hq. split; [apply Hlo, Hq | apply Hhi, Hq]. }
    unfold sum_of, length_of. rewrite Hs.
    assert (Hn : 0 < inject_Z (Z.of_nat (length allPrices))).
    { apply length_of_pos. rewrite Hlist. cbn. lia. }
    rewrite js_div_Fin by lra.
    exists lo, hi, (s / inject_Z (Z.of_nat (length allPrices))).
    cbn [pr_min pr_max pr_average].
    split; [reflexivity |]. split; [reflexivity |]. split; [reflexivity |].
    split; [apply Hlo, Hhi_in |].
    split; [apply filter_not_nan_elem in Hlo_in; tauto |].
    split; [apply filter_not_nan_elem in Hhi_in; tauto |].
    intros q Hq.
    assert (Hq' : Fin q ∈ allPrices)
      by (apply filter_not_nan_elem; split; [exact Hq | discriminate]).
    split; [apply Hlo, Hq' | apply Hhi, Hq'].
Qed.

Lemma X14_price_range_witness :
  let v price := {| cv_variant := {| v_id := 1; v_price := price;
                                     v_inventory_quantity := None |};
                    cv_title := None; cv_sku := None; cv_barcode := None |} in
  let p := {| cp_product := {| p_published_at := None; p_created_at := 0;
                               p_product_type := None; p_tags := None |};
              cp_title := None; cp_body_html := None; cp_vendor := None;
              cp_status := None;
              cp_variants := Some [v (Fin 12); v NaN; v (Fin 30)] |} in
  exists lo hi average,
    pr_min (calculatePriceRange [p]) = Fin lo
    /\ pr_max (calculatePriceRange [p]) = Fin hi
    /\ pr_average (calculatePriceRange [p]) = Fin average
    /\ lo <= hi.
Proof.
  intros v p.
  pose proof (X14_price_range [p]) as H. cbv zeta in H.
  destruct H as [_ H].
  - repeat constructor; discriminate.
  - destruct H as (lo & hi & average & H1 & H2 & H3 & H4 & _).
    + apply Exists_cons_hd. discriminate.
    + exists lo, hi, average. repeat split; assumption.
Defined.

Lemma groupBy_lookup_from {A : Type} (key : A -> option string) (k : string)
    (items : list A) :
  forall (acc : gmap string nat) (c0 : nat),
    acc !! k = (if (c0 =? 0)%nat then None else Some c0) ->
    foldl (fun acc item =>
             let k := default "Unknown"%string (truthy_string (key item)) in
             <[k := (default 0%nat (acc !! k) + 1)%nat]> acc) acc items !! k
    = (if (c0 + items_with_key key k items =? 0)%nat then None
       else Some (c0 + items_with_key key k items)%nat).
Proof.
  unfold items_with_key.
  induction items as [| item items IH]; intros acc c0 Hacc; cbn [foldl].
  - rewrite filter_nil. cbn [length]. rewrite Nat.add_0_r. exact Hacc.
  - destruct (decide (default "Unknown"%string (truthy_string (key item)) = k))
      as [Heq | Hne].
    + rewrite filter_cons_True by exact Heq. cbn [length].
      rewrite (IH _ (S c0)).
      * replace (S c0 + length (filter _ items))%nat
          with (c0 + S (length (filter
             (fun item => default "Unknown"%string (truthy_string (key item)) = k)
             items)))%nat by lia.
        reflexivity.
      * cbn zeta. rewrite Heq, lookup_insert_eq, Hacc.
        destruct c0; cbn; f_equal; lia.
    + rewrite filter_cons_False by exact Hne.
      apply IH. cbn zeta. rewrite lookup_insert_ne by exact Hne. exact Hacc.
Qed.

(** X15.  For keys that are not names inherited from [Object.prototype],
    [groupBy] counts every item once: under each key it holds the number of
    items with that key (absent and empty keys under [Unknown]), and it
    holds no key without an item. *)
Theorem X15_groupBy_counts {A : Type} (key : A -> option string)
    (items : list A) (k : string) :
  Forall (fun item =>
            default "Unknown"%string (truthy_string (key item))
            ∉ object_prototype_names) items ->
  groupBy key items !! k
  = (if (items_with_key key k items =? 0)%nat then None
     else Some (items_with_key key k items)).
Proof.
  intros _. unfold groupBy.
  rewrite (groupBy_lookup_from key k items ∅ 0%nat); [reflexivity |].
  apply lookup_empty.
Qed.

Lemma X15_groupBy_counts_witness :
  groupBy (fun s : string => Some s) ["acme"; "zen"; "acme"; ""]%string
    !! "acme"%string = Some 2%nat.
Proof.
  rewrite X15_groupBy_counts.
  - reflexivity.
  - repeat constructor; vm_compute;
      intros H; repeat (apply elem_of_cons in H as [H | H]; [discriminate H |]);
      apply elem_of_nil in H; exact H.
Defined.

(** The three status counts never exceed the number of products. *)
Lemma status_counts_bound (products : list CatalogProduct) :
  (length (List.filter (has_status "active") products)
   + length (List.filter (has_status "draft") products)
   + length (List.filter (has_status "archived") products)
   <= length products)%nat.
Proof.
  induction products as [| p products IH]; [reflexivity |].
  cbn [List.filter].
  destruct (has_status "active" p) eqn:H1, (has_status "draft" p) eqn:H2,
    (has_status "archived" p) eqn:H3; cbn [length]; try lia;
    exfalso; unfold has_status in *; destruct (cp_status p); try discriminate;
    repeat match goal with
           | H : String.eqb _ _ = true |- _ => apply String.eqb_eq in H
           end; congruence.
Qed.

Lemma variant_count_length (p : CatalogProduct) {B : Type} (f : CatalogVariant -> B) :
  variant_count p =n= length_of (variants_map f p).
Proof.
  unfold variant_count, variants_map, length_of.
  destruct (cp_variants p) as [variants |]; [| reflexivity].
  rewrite length_fmap. unfold js_or, js_truthy.
  destruct (Qeq_bool (inject_Z (Z.of_nat (length variants))) 0) eqn:Hz; cbn [negb].
  - apply Qeq_bool_iff in Hz. cbn. symmetry. exact Hz.
  - reflexivity.
Qed.

Lemma variant_total {B : Type} (f : CatalogVariant -> B)
    (products : list CatalogProduct) (a : Q) :
  exists total,
    foldl js_add (Fin a) (variant_count <$> products) = Fin total
    /\ total == a + inject_Z (Z.of_nat (length (products ≫= variants_map f))).
Proof.
  revert a. induction products as [| p products IH]; intros a.
  - exists a. split; [reflexivity |]. cbn. ring.
  - cbn [fmap list_fmap foldl].
    pose proof (variant_count_length p f) as Hp. unfold length_of in Hp.
    destruct (variant_count p) as [c | | |]; cbn [num_equiv] in Hp; try contradiction.
    cbn [js_add]. destruct (IH (a + c)) as (total & Htotal & Heq).
    exists total. split; [exact Htotal |].
    rewrite Heq, Hp. cbn [mbind list_bind]. rewrite length_app, Nat2Z.inj_add, inject_Z_plus.
    ring.
Qed.

(** X16.  The product analytics send one request and pass a failure of it
    on.  On an answer, the three status counts together do not exceed the
    number of products, the total number of variants equals the number of
    variants the inventory statistics count, and the average number of
    variants per product lies between zero and that total; for an empty
    catalogue it is [NaN]. *)
Theorem X16_product_analytics
    (catalogue : nat -> outcome (list CatalogProduct)) (n : nat) :
  let run := calculateProductAnalyticsWithCredentials catalogue n in
  (forall e, catalogue n = Thrown e -> run = (Thrown e, S n))
  /\ (forall products, catalogue n = Returned products ->
      exists a,
        run = (Returned a, S n)
        /\ ProductAnalytics.totalProducts a = length products
        /\ (ProductAnalytics.publishedProducts a
            + ProductAnalytics.draftProducts a
            + ProductAnalytics.archivedProducts a
            <= ProductAnalytics.totalProducts a)%nat
        /\ ProductAnalytics.totalVariants a
           =n= Fin (inject_Z (Z.of_nat
                 (totalVariants (ProductAnalytics.inventoryStats a))))
        /\ (products = [] -> ProductAnalytics.averageVariantsPerProduct a = NaN)
        /\ (products <> [] ->
            exists average total,
              ProductAnalytics.averageVariantsPerProduct a = Fin average
              /\ ProductAnalytics.totalVariants a = Fin total
              /\ 0 <= average /\ average <= total)).
Proof.
  unfold calculateProductAnalyticsWithCredentials, try_catch, request, throw.
  unfold mbind, mret, IO_bind, IO_ret. split.
  - intros e ->. reflexivity.
  - intros products ->. eexists. split; [reflexivity |].
    cbn [ProductAnalytics.totalProducts ProductAnalytics.publishedProducts
         ProductAnalytics.draftProducts ProductAnalytics.archivedProducts
         ProductAnalytics.totalVariants ProductAnalytics.inventoryStats
         ProductAnalytics.averageVariantsPerProduct].
    split; [reflexivity |]. split; [apply status_counts_bound |].
    destruct (variant_total
                (fun v => js_or (v_inventory_quantity (cv_variant v)) (Fin 0))
                products 0) as (total & Htotal & Heq).
    unfold sum_of. rewrite Htotal. split; [| split].
    + cbn [calculateInventoryStats totalVariants num_equiv]. rewrite Heq. ring.
    + intros ->. cbn in Htotal. injection Htotal as <-. reflexivity.
    + intros Hne. unfold length_of.
      assert (Hn : 0 < inject_Z (Z.of_nat (length products))).
      { apply length_of_pos. destruct products; [contradiction | cbn; lia]. }
      rewrite js_div_Fin by lra.
      eexists _, _. split; [reflexivity |]. split; [reflexivity |].
      apply (share_between total (length products)).
      * destruct products; [contradiction | cbn; lia].
      * rewrite Heq, Qplus_0_l. change 0 with (inject_Z 0).
        rewrite <- Zle_Qle. lia.
Qed.

Lemma X16_product_analytics_witness :
  let v := {| cv_variant := {| v_id := 1; v_price := Fin 5;
                               v_inventory_quantity := Some (Fin 3) |};
              cv_title := None; cv_sku := None; cv_barcode := None |} in
  let p := {| cp_product := {| p_published_at := None; p_created_at := 0;
                               p_product_type := None; p_tags := None |};
              cp_title := None; cp_body_html := None; cp_vendor := None;
              cp_status := Some "active"%string;
              cp_variants := Some [v; v; v] |} in
  exists a average,
    calculateProductAnalyticsWithCredentials (fun _ => Returned [p; p]) 0%nat
    = (Returned a, 1%nat)
    /\ ProductAnalytics.totalProducts a = 2%nat
    /\ ProductAnalytics.averageVariantsPerProduct a = Fin average
    /\ 0 <= average.
Proof.
  intros v p.
  pose proof (X16_product_analytics (fun _ => Returned [p; p]) 0%nat) as H.
  cbv zeta in H. destruct H as [_ H].
  destruct (H [p; p] eq_refl) as (a & Hrun & Htotal & _ & _ & _ & Haverage).
  destruct Haverage as (average & total & Ha & _ & Hlo & _); [discriminate |].
  exists a, average. split; [exact Hrun |]. split; [exact Htotal |].
  split; [exact Ha | exact Hlo].
Defined.


(** ** Product search *)

Lemma filter_all {A : Type} (f : A -> bool) (l : list A) :
  (forall x, f x = true) -> List.filter f l = l.
Proof.
  intros Hall. induction l as [| x l IH]; [reflexivity |].
  cbn [List.filter]. rewrite Hall, IH. reflexivity.
Qed.

(** X17.  When [needsCustomFiltering] finds no criterion that needs the
    custom search, [applyCustomSearch] keeps every product: skipping the
    full search then loses nothing. *)
Theorem X17_no_filter_keeps_all (products : list CatalogProduct)
    (params : ProductSearchParams) :
  needsCustomFiltering params = false ->
  applyCustomSearch products params = products.
Proof.
  unfold needsCustomFiltering. rewrite !orb_false_iff.
  intros ((((((((Hsearch & Htitle) & Hsku) & Hbarcode) & Htags) & Hpmin) & Hpmax)
            & Himin) & Himax).
  unfold applyCustomSearch. apply filter_all. intros product.
  unfold passesCustomSearch.
  rewrite Hpmin, Hpmax, Himin, Himax. cbn [orb].
  apply bool_decide_eq_false in Hsearch, Htitle, Hsku, Hbarcode, Htags.
  destruct (truthy_string (sp_search params)); [destruct Hsearch; eauto |].
  destruct (truthy_string (sp_title params)); [destruct Htitle; eauto |].
  destruct (truthy_string (sp_tags params)); [destruct Htags; eauto |].
  destruct (truthy_string (sp_sku params)); [destruct Hsku; eauto |].
  destruct (truthy_string (sp_barcode params)); [destruct Hbarcode; eauto |].
  reflexivity.
Qed.

Lemma X17_no_filter_keeps_all_witness :
  let params := {| sp_limit := Some (Fin 20); sp_page_info := None;
                   sp_search := Some ""%string; sp_title := None;
                   sp_status := Some "active"%string; sp_sort_by := None;
                   sp_sort_order := None; sp_vendor := Some "acme"%string;
                   sp_product_type := None; sp_sku := None; sp_barcode := None;
                   sp_tags := None; sp_price_min := Some (Fin 0);
                   sp_price_max := None; sp_inventory_quantity_min := None;
                   sp_inventory_quantity_max := None |} in
  let p := {| cp_product := {| p_published_at := None; p_created_at := 0;
                               p_product_type := None; p_tags := None |};
              cp_title := Some "Chair"%string; cp_body_html := None;
              cp_vendor := None; cp_status := None; cp_variants := None |} in
  applyCustomSearch [p; p] params = [p; p].
Proof.
  intros params p. apply X17_no_filter_keeps_all. reflexivity.
Defined.

Lemma toLowerAscii_idem (c : ascii) : toLowerAscii (toLowerAscii c) = toLowerAscii c.
Proof. destruct c as [[] [] [] [] [] [] [] []]; reflexivity. Qed.

Lemma toLowerCase_idem (s : string) : toLowerCase (toLowerCase s) = toLowerCase s.
Proof.
  induction s as [| c s IH]; [reflexivity |].
  cbn [toLowerCase]. rewrite toLowerAscii_idem, IH. reflexivity.
Qed.

Lemma insert_sorted_perm {A : Type} (before : A -> A -> bool) (x : A) (l : list A) :
  insert_sorted before x l ≡ₚ x :: l.
Proof.
  induction l as [| y l IH]; [reflexivity |]. cbn [insert_sorted].
  destruct (before y x); [| reflexivity].
  rewrite IH. apply perm_swap.
Qed.

(** Sorting rearranges and does nothing else. *)
Lemma js_sort_perm {A : Type} (before : A -> A -> bool) (l : list A) :
  js_sort before l ≡ₚ l.
Proof.
  induction l as [| x l IH]; [reflexivity |].
  cbn [js_sort foldr]. rewrite insert_sorted_perm. f_equiv. exact IH.
Qed.

Lemma startsWith_includes (s term : string) :
  startsWith s term = true -> includes s term = true.
Proof.
  unfold startsWith. intros H. destruct s; cbn [includes]; rewrite H; reflexivity.
Qed.

Lemma field_startsWith_includes (field : option string) (term : string) :
  field_startsWith field term = true -> field_includes field term = true.
Proof.
  destruct field; [apply startsWith_includes | discriminate].
Qed.

Lemma relevance_variants (term : string) (variants : list CatalogVariant) (s0 : Z) :
  let step := fun (score : Z) (variant : CatalogVariant) =>
    let score :=
      if field_includes (cv_title variant) term then (score + 2)%Z else score in
    let score :=
      if field_includes (cv_sku variant) term then (score + 4)%Z else score in
    if field_includes (cv_barcode variant) term then (score + 4)%Z else score in
  (s0 <= foldl step s0 variants)%Z
  /\ ((s0 < foldl step s0 variants)%Z <->
      existsb (fun v => field_includes (cv_title v) term
                        || field_includes (cv_sku v) term
                        || field_includes (cv_barcode v) term) variants = true).
Proof.
  intros step. revert s0. induction variants as [| v variants IH]; intros s0.
  - cbn. split; [lia |]. split; [lia | discriminate].
  - cbn [foldl existsb]. destruct (IH (step s0 v)) as [Hle Hiff].
    assert (Hstep : (s0 <= step s0 v)%Z
                    /\ ((s0 < step s0 v)%Z <->
                        field_includes (cv_title v) term
                        || field_includes (cv_sku v) term
                        || field_includes (cv_barcode v) term = true)).
    { subst step. cbv beta zeta.
      destruct (field_includes (cv_title v) term),
        (field_includes (cv_sku v) term),
        (field_includes (cv_barcode v) term); cbn [orb];
        split; try lia; split; intros; try lia; try reflexivity; discriminate. }
    destruct Hstep as [Hs Hsiff]. split; [lia |].
    rewrite orb_true_iff, <- Hsiff, <- Hiff. lia.
Qed.

(** The relevance is not negative, it is positive exactly when some text
    matches, and a title that starts with the term alone is worth 15. *)
Lemma relevance_spec (product : CatalogProduct) (term : string) :
  (0 <= relevance product term)%Z
  /\ ((0 < relevance product term)%Z <-> any_field_matches product term = true)
  /\ (field_startsWith (cp_title product) term = true ->
      (15 <= relevance product term)%Z).
Proof.
  unfold relevance, any_field_matches, some_variant.
  pose proof (field_startsWith_includes (cp_title product) term) as Hsw.
  destruct (field_includes (cp_title product) term),
    (field_startsWith (cp_title product) term);
    try (specialize (Hsw eq_refl); discriminate Hsw); clear Hsw;
    destruct (field_includes (cp_vendor product) term),
      (field_includes (p_product_type (cp_product product)) term),
      (field_includes (p_tags (cp_product product)) term);
    cbn [orb]; cbv zeta;
    (destruct (cp_variants product) as [variants |];
     [ match goal with
       | |- context [foldl ?f ?s0 variants] =>
           destruct (relevance_variants term variants s0) as [Hle Hiff];
           cbv zeta in Hle, Hiff
       end;
       split; [lia |]; split;
       [ first [ rewrite <- Hiff; lia | split; [reflexivity | lia] ]
       | intros; first [ lia | discriminate ] ]
     | split; [lia |]; split;
       [ split; intros; first [ lia | reflexivity | discriminate ]
       | intros; first [ lia | discriminate ] ] ]).
Qed.

Lemma concat_imap_nil {A B : Type} (l : list A) :
  forall f : nat -> A -> list B,
    concat (imap f l) = [] <-> forall i x, l !! i = Some x -> f i x = [].
Proof.
  induction l as [| y l IH]; intros f; cbn [imap concat].
  - split; [intros _ i x Hi; discriminate Hi | reflexivity].
  - split.
    + intros [H0 Hrest]%app_eq_nil i x Hi. destruct i as [| i].
      * injection Hi as <-. exact H0.
      * apply (proj1 (IH (f ∘ S)) Hrest i x Hi).
    + intros Hall. rewrite (Hall 0%nat y eq_refl). cbn [app].
      apply IH. intros i x Hi. apply (Hall (S i) x Hi).
Qed.

Lemma getMatchedFields_nil (product : CatalogProduct) (term : string) :
  getMatchedFields product term = []
  <-> any_field_matches product (toLowerCase term) = false.
Proof.
  unfold getMatchedFields, any_field_matches, some_variant.
  destruct (field_includes (cp_title product) (toLowerCase term));
    [cbn; split; discriminate |].
  destruct (field_includes (cp_vendor product) (toLowerCase term));
    [cbn; split; discriminate |].
  destruct (field_includes (p_product_type (cp_product product)) (toLowerCase term));
    [cbn; split; discriminate |].
  destruct (field_includes (p_tags (cp_product product)) (toLowerCase term));
    [cbn; split; discriminate |].
  cbn [app orb]. destruct (cp_variants product) as [variants |]; [| tauto].
  rewrite concat_imap_nil. split.
  - intros Hall. apply not_true_is_false. intros (v & Hv & Hmatch)%existsb_exists.
    apply list_elem_of_In, list_elem_of_lookup in Hv as [i Hi].
    specialize (Hall i v Hi). cbv beta in Hall.
    destruct (field_includes (cv_title v) (toLowerCase term)); [discriminate Hall |].
    destruct (field_includes (cv_sku v) (toLowerCase term)); [discriminate Hall |].
    destruct (field_includes (cv_barcode v) (toLowerCase term)); [discriminate Hall |].
    discriminate Hmatch.
  - intros Hnone i v Hi.
    assert (Hv : In v variants)
      by (apply list_elem_of_In, list_elem_of_lookup; eauto).
    assert (Hno : field_includes (cv_title v) (toLowerCase term)
                  || field_includes (cv_sku v) (toLowerCase term)
                  || field_includes (cv_barcode v) (toLowerCase term) = false).
    { apply not_true_is_false. intros Hmatch.
      assert (existsb
                (fun v => field_includes (cv_title v) (toLowerCase term)
                          || field_includes (cv_sku v) (toLowerCase term)
                          || field_includes (cv_barcode v) (toLowerCase term))
                variants = true) by (apply existsb_exists; eauto).
      congruence. }
    apply orb_false_iff in Hno as [[-> ->]%orb_false_iff ->]. reflexivity.
Qed.

(** X18.  [addSearchScoring] returns the products it was given, each once,
    in descending order of score.  Every score is a non-negative number of
    tenths; it is positive exactly when the list of matched fields is not
    empty; and it is not bounded by one: a title that starts with the term
    scores at least 1.5. *)
Theorem X18_search_scoring (products : list CatalogProduct) (searchTerm : string) :
  let result := addSearchScoring products searchTerm in
  scored <$> result ≡ₚ products
  /\ StronglySorted (fun a b => score_value b <= score_value a) result
  /\ Forall (fun sp =>
               exists z : Z,
                 searchScore sp = Fin (inject_Z z / 10)
                 /\ (0 <= z)%Z
                 /\ ((0 < z)%Z <-> matchedFields sp <> [])
                 /\ (field_startsWith (cp_title (scored sp)) (toLowerCase searchTerm)
                     = true -> (15 <= z)%Z)) result.
Proof.
  unfold addSearchScoring.
  set (entry := fun product : CatalogProduct => _).
  set (before := fun a b : ScoredProduct => _).
  assert (Hentry : Forall (fun sp =>
               exists z : Z,
                 searchScore sp = Fin (inject_Z z / 10)
                 /\ (0 <= z)%Z
                 /\ ((0 < z)%Z <-> matchedFields sp <> [])
                 /\ (field_startsWith (cp_title (scored sp)) (toLowerCase searchTerm)
                     = true -> (15 <= z)%Z)) (entry <$> products)).
  { apply Forall_fmap, Forall_forall. intros product _. subst entry. cbn.
    destruct (relevance_spec product (toLowerCase searchTerm)) as (Hpos & Hiff & Hstart).
    exists (relevance product (toLowerCase searchTerm)).
    split; [reflexivity |]. split; [exact Hpos |]. split; [| exact Hstart].
    rewrite Hiff, getMatchedFields_nil, toLowerCase_idem.
    destruct (any_field_matches product (toLowerCase searchTerm)); split;
      intros; congruence. }
  split; [| split].
  - rewrite js_sort_perm, <- list_fmap_compose.
    subst entry. cbn. rewrite list_fmap_id. reflexivity.
  - assert (Hall : Forall (fun sp => exists q, searchScore sp = Fin q)
                     (js_sort before (entry <$> products))).
    { rewrite js_sort_perm. eapply Forall_impl; [exact Hentry |].
      intros sp (z & Hz & _). eauto. }
    clear Hentry. induction products as [| p products IH]; [constructor |].
    cbn [fmap list_fmap js_sort foldr] in *.
    change (foldr (insert_sorted before) [] (entry <$> products))
      with (js_sort before (entry <$> products)) in *.
    assert (Hrest : Forall (fun sp => exists q, searchScore sp = Fin q)
                      (js_sort before (entry <$> products))).
    { rewrite insert_sorted_perm in Hall. apply Forall_cons in Hall as [_ Hall].
      exact Hall. }
    specialize (IH Hrest).
    assert (Hp : exists q, searchScore (entry p) = Fin q)
      by (subst entry; cbn; eauto).
    revert IH Hrest Hp. generalize (js_sort before (entry <$> products)) (entry p).
    clear. intros l x Hsorted Hfin [qx Hx].
    induction Hsorted as [| y l Hsorted IH Hbound]; cbn [insert_sorted].
    + repeat constructor.
    + apply Forall_cons in Hfin as [[qy Hy] Hfin].
      assert (Hbefore : before y x = true <-> score_value x < score_value y).
      { subst before. unfold score_value, js_sub. rewrite Hx, Hy. cbn [js_neg js_add].
        rewrite js_lt_Fin. split; intros; lra. }
      destruct (before y x) eqn:Hyx.
      * pose proof (proj1 Hbefore eq_refl) as Hlt.
        constructor; [apply IH, Hfin |].
        rewrite (insert_sorted_perm before x l). constructor; [lra | exact Hbound].
      * assert (Hle : score_value y <= score_value x).
        { apply Qnot_lt_le. intros Hlt. apply Hbefore in Hlt. discriminate Hlt. }
        constructor; [constructor; assumption |].
        constructor; [exact Hle |].
        eapply Forall_impl; [exact Hbound |]. cbn. intros z Hz. lra.
  - rewrite js_sort_perm. exact Hentry.
Qed.


(** ** The suggestion engine as a whole *)

Lemma count_of_le_length (g : RuleGroup) (l : list Suggestion) :
  (count_of g l <= length l)%nat.
Proof. unfold count_of. apply length_filter. Qed.

Lemma count_of_group (g g' : RuleGroup) (l : list Suggestion) :
  Forall (in_group g') l /\ (length l <= 1)%nat ->
  (count_of g l <= 1)%nat /\ (g <> g' -> count_of g l = 0%nat).
Proof.
  intros [Hall Hlen]. split.
  - pose proof (count_of_le_length g l). lia.
  - intros Hne. apply (count_of_other g g' l Hne Hall).
Qed.

(** The pricing rule and the bundling rule test the same comparison from
    its two sides, so at most one of them fires. *)
Lemma pricing_or_bundling (r t price rev : num) :
  pricingSuggestions r t price = [] \/ bundlingSuggestions r t rev = [].
Proof.
  unfold pricingSuggestions, bundlingSuggestions, js_ge, js_gt, js_le.
  destruct (js_lt r t); cbn [negb andb].
  - left. rewrite andb_false_r. reflexivity.
  - right. reflexivity.
Qed.

(** X8.  [generateVariantSuggestions] reports the length of its list as
    [total_suggestions]; no rule group contributes twice; a price increase
    and a bundle are never suggested together, so the list holds at most
    five suggestions although there are six rule groups. *)
Theorem X8_suggestion_count
    (variant : Variant) (product : Product)
    (r t s d rev ml acc seas : num)
    (sa : option PercentageBasedStaleAnalysis) (tqs : option num) :
  let out := generateVariantSuggestions variant product r t s d rev ml
               acc seas sa tqs in
  total_suggestions out = length (suggestions out)
  /\ (forall g, count_of g (suggestions out) <= 1)%nat
  /\ ~ (PRICING_OPPORTUNITY ∈ suggestion_types out
        /\ BUNDLING_OPPORTUNITY ∈ suggestion_types out)
  /\ (total_suggestions out <= 5)%nat.
Proof.
  cbv zeta. split; [reflexivity |].
  pose proof (inventorySuggestions_group s d) as Hi.
  pose proof (performanceSuggestions_group r t) as Hp.
  pose proof (trendSuggestions_group acc) as Ht.
  pose proof (pricingSuggestions_group r t (js_or (Some (v_price variant)) (Fin 0)))
    as Hpr.
  pose proof (seasonalSuggestions_group seas) as Hs.
  pose proof (bundlingSuggestions_group r t rev) as Hb.
  pose proof (pricing_or_bundling r t (js_or (Some (v_price variant)) (Fin 0)) rev)
    as Hex.
  split; [| split].
  - intros g. rewrite suggestions_generate, !count_of_app.
    destruct (count_of_group g _ _ Hi) as [Hi1 Hi0].
    destruct (count_of_group g _ _ Hp) as [Hp1 Hp0].
    destruct (count_of_group g _ _ Ht) as [Ht1 Ht0].
    destruct (count_of_group g _ _ Hpr) as [Hpr1 Hpr0].
    destruct (count_of_group g _ _ Hs) as [Hs1 Hs0].
    destruct (count_of_group g _ _ Hb) as [Hb1 Hb0].
    destruct g;
      try rewrite Hi0 by discriminate; try rewrite Hp0 by discriminate;
      try rewrite Ht0 by discriminate; try rewrite Hpr0 by discriminate;
      try rewrite Hs0 by discriminate; try rewrite Hb0 by discriminate; lia.
  - rewrite !elem_of_types. cbn [rule_group]. intros [Hin1 Hin2].
    destruct Hex as [Hex | Hex]; rewrite Hex in *;
      [apply elem_of_nil in Hin1 | apply elem_of_nil in Hin2]; assumption.
  - cbn [total_suggestions generateVariantSuggestions]. rewrite !length_app.
    destruct Hex as [Hex | Hex]; rewrite Hex; cbn [length]; lia.
Qed.

(** X9.  Discount against price increase, for finite rates and a positive
    threshold.  A suggested price increase excludes each of the three
    discount suggestions (NO_SALES, POOR_PERFORMANCE, BELOW_TARGET); a
    suggested bundle comes with one of them; and a HIGH_PERFORMER that has a
    positive price always gets the price increase as well. *)
Theorem X9_discount_or_increase
    (variant : Variant) (product : Product) (r t price : Q)
    (s d rev ml acc seas : num)
    (sa : option PercentageBasedStaleAnalysis) (tqs : option num) :
  0 < t -> v_price variant = Fin price ->
  let out := generateVariantSuggestions variant product (Fin r) (Fin t)
               s d rev ml acc seas sa tqs in
  (PRICING_OPPORTUNITY ∈ suggestion_types out ->
   (NO_SALES ∉ suggestion_types out)
   /\ (POOR_PERFORMANCE ∉ suggestion_types out)
   /\ (BELOW_TARGET ∉ suggestion_types out))
  /\ (BUNDLING_OPPORTUNITY ∈ suggestion_types out ->
      NO_SALES ∈ suggestion_types out
      \/ POOR_PERFORMANCE ∈ suggestion_types out
      \/ BELOW_TARGET ∈ suggestion_types out)
  /\ (HIGH_PERFORMER ∈ suggestion_types out -> 0 < price ->
      PRICING_OPPORTUNITY ∈ suggestion_types out).
Proof.
  intros Ht Hprice. cbv zeta. rewrite !elem_of_types. cbn [rule_group].
  rewrite Hprice.
  assert (Hor : js_or (Some (Fin price)) (Fin 0) =n= Fin price).
  { unfold js_or, js_truthy. destruct (Qeq_bool price 0) eqn:Hz; cbn.
    - apply Qeq_bool_iff in Hz. symmetry. exact Hz.
    - reflexivity. }
  assert (Hgt : js_gt (js_or (Some (Fin price)) (Fin 0)) (Fin 0)
                = js_gt (Fin price) (Fin 0)).
  { unfold js_gt. apply js_lt_proper; [reflexivity | exact Hor]. }
  unfold pricingSuggestions, bundlingSuggestions, performanceSuggestions.
  rewrite Hgt. cbn [js_mul].
  finite_cases;
    try destruct (js_lt (Fin 0) rev);
    cbn [andb negb fmap list_fmap type];
    rewrite ?list_elem_of_singleton, ?elem_of_nil;
    repeat split; intros;
    try discriminate; try tauto; try reflexivity;
    try (left; reflexivity); try (right; left; reflexivity);
    try (right; right; reflexivity);
    try (exfalso; nra).
Qed.

Lemma X9_discount_or_increase_witness :
  let v := {| v_id := 1; v_price := Fin 20; v_inventory_quantity := Some (Fin 5) |} in
  let p := {| p_published_at := None; p_created_at := 0;
              p_product_type := None; p_tags := None |} in
  let out := generateVariantSuggestions v p (Fin 30) (Fin 10) (Fin 5) (Fin 5)
               (Fin 600) (Fin 2) (Fin 0) (Fin 0) None None in
  PRICING_OPPORTUNITY ∈ suggestion_types out.
Proof.
  cbv zeta.
  refine (proj2 (proj2 (X9_discount_or_increase
            {| v_id := 1; v_price := Fin 20; v_inventory_quantity := Some (Fin 5) |}
            {| p_published_at := None; p_created_at := 0;
               p_product_type := None; p_tags := None |}
            30 10 20 (Fin 5) (Fin 5) (Fin 600) (Fin 2) (Fin 0) (Fin 0) None None
            _ eq_refl)) _ _).
  - reflexivity.
  - vm_compute. repeat constructor.
  - reflexivity.
Defined.


(** ** Stock status *)

Lemma Qdiv_le_iff (x y k : Q) : 0 < y -> x / y <= k <-> x <= k * y.
Proof.
  intros Hy. split; intros H.
  - assert (Hx : x == x / y * y) by (field; lra).
    rewrite Hx. apply Qmult_le_compat_r; lra.
  - apply Qle_shift_div_r; assumption.
Qed.

Lemma Math_round_Z (z : Z) : Math_round (Fin (inject_Z z)) = Fin (inject_Z z).
Proof.
  cbn [Math_round]. rewrite Qfloor_add_Z.
  change (Qfloor (1 # 2)) with 0%Z. rewrite Z.add_0_r. reflexivity.
Qed.

(** X10.  [calculateStockStatus] never leaves the status at its initial
    [unknown]; the status is [out_of_stock] exactly when the stock is
    missing, zero or not a number; a reorder is recommended only for an
    [out_of_stock] or [low_stock] status and never without a sales history
    unless the stock is out.  With a non-zero stock and positive daily sales
    the days remaining are reported as a whole number [n], the status is
    [low_stock] exactly when [n <= 7], [moderate_stock] exactly when
    [7 < n <= 30] and [high_stock] exactly when [30 < n], and a reorder is
    recommended exactly for [low_stock]. *)
Theorem X10_stock_status (currentStock averageDailySales : option num) :
  let r := calculateStockStatus currentStock averageDailySales in
  status r <> unknown
  /\ (status r = out_of_stock <->
      js_eq (js_or currentStock (Fin 0)) (Fin 0) = true)
  /\ (reorderRecommended r = true ->
      status r = out_of_stock \/ status r = low_stock)
  /\ (js_gt (js_or averageDailySales (Fin 0)) (Fin 0) = false ->
      status r <> out_of_stock -> reorderRecommended r = false)
  /\ (forall stock sales : Q,
        currentStock = Some (Fin stock) -> averageDailySales = Some (Fin sales) ->
        ~ stock == 0 -> 0 < sales ->
        exists n : Z,
          daysRemaining r = Fin (inject_Z n)
          /\ (status r = low_stock <-> (n <= 7)%Z)
          /\ (status r = moderate_stock <-> (7 < n <= 30)%Z)
          /\ (status r = high_stock <-> (30 < n)%Z)
          /\ (reorderRecommended r = true <-> status r = low_stock)).
Proof.
  cbv zeta. split; [| split; [| split; [| split]]].
  - unfold calculateStockStatus.
    repeat match goal with
           | |- context [if ?b then _ else _] => destruct b
           end; discriminate.
  - unfold calculateStockStatus.
    repeat match goal with
           | |- context [if ?b then _ else _] => destruct b
           end; cbn [status]; split; intros; congruence.
  - unfold calculateStockStatus.
    repeat match goal with
           | |- context [if ?b then _ else _] => destruct b
           end; cbn [status reorderRecommended]; intros; try discriminate; tauto.
  - unfold calculateStockStatus. intros ->.
    destruct (js_eq (js_or currentStock (Fin 0)) (Fin 0));
      cbn [status reorderRecommended]; intros; congruence.
  - intros stock sales -> -> Hstock Hsales.
    assert (Hsales0 : ~ sales == 0) by lra.
    unfold calculateStockStatus, js_or, js_truthy.
    rewrite (proj2 (Qeq_bool_false stock 0) Hstock),
      (proj2 (Qeq_bool_false sales 0) Hsales0).
    cbn [negb].
    rewrite (proj2 (js_eq_Fin_false stock 0) Hstock).
    unfold js_gt. rewrite (proj2 (js_lt_Fin 0 sales) Hsales).
    rewrite (js_div_Fin stock sales Hsales0). cbn [Math_ceil].
    set (n := Qceiling (stock / sales)).
    change (Fin 7) with (Fin (inject_Z 7)). change (Fin 30) with (Fin (inject_Z 30)).
    exists n.
    destruct (js_le (Fin (inject_Z n)) (Fin (inject_Z 7))) eqn:Hc7;
      [apply js_le_Fin in Hc7; rewrite <- Zle_Qle in Hc7
      | apply js_le_Fin_false in Hc7; rewrite <- Zlt_Qlt in Hc7;
        destruct (js_le (Fin (inject_Z n)) (Fin (inject_Z 30))) eqn:Hc30;
        [apply js_le_Fin in Hc30; rewrite <- Zle_Qle in Hc30
        | apply js_le_Fin_false in Hc30; rewrite <- Zlt_Qlt in Hc30]];
      cbn [status daysRemaining reorderRecommended];
      rewrite Math_round_Z;
      (split; [reflexivity |]);
      repeat split; intros;
      repeat match goal with
             | H : _ /\ _ |- _ => destruct H
             end;
      try discriminate; try reflexivity; try lia.
Qed.

Lemma X10_stock_status_witness :
  let r := calculateStockStatus (Some (Fin 20)) (Some (Fin 4)) in
  daysRemaining r = Fin 5 /\ status r = low_stock /\ reorderRecommended r = true.
Proof.
  cbv zeta.
  destruct (X10_stock_status (Some (Fin 20)) (Some (Fin 4)))
    as (_ & _ & _ & _ & H).
  destruct (H 20 4 eq_refl eq_refl) as (n & Hdays & Hlow & _ & _ & Hreorder).
  - intros Hz. discriminate Hz.
  - reflexivity.
  - assert (Hn : n = 5%Z).
    { assert (Hd : daysRemaining (calculateStockStatus (Some (Fin 20)) (Some (Fin 4)))
                   = Fin (inject_Z 5)) by (vm_compute; reflexivity).
      rewrite Hd in Hdays. injection Hdays as Hn. symmetry. exact Hn. }
    assert (Hl : status (calculateStockStatus (Some (Fin 20)) (Some (Fin 4)))
                 = low_stock) by (apply Hlow; lia).
    split; [vm_compute; reflexivity |]. split; [exact Hl | apply Hreorder, Hl].
Defined.

(** ** Lifetime value and acquisition cost *)

Lemma Qdiv_ge_iff (x y k : Q) : 0 < y -> k <= x / y <-> k * y <= x.
Proof.
  intros Hy. split; intros H.
  - assert (Hx : x == x / y * y) by (field; lra).
    rewrite Hx. apply Qmult_le_compat_r; lra.
  - apply Qle_shift_div_l; assumption.
Qed.

Lemma Qdiv_lt_iff (x y k : Q) : 0 < y -> x / y < k <-> x < k * y.
Proof.
  intros Hy. pose proof (Qdiv_ge_iff x y k Hy) as H.
  split; intros Hlt.
  - apply Qnot_le_lt. intros Hle. apply H in Hle. lra.
  - apply Qnot_le_lt. intros Hle. apply H in Hle. lra.
Qed.

Lemma Qdiv_gt_iff (x y k : Q) : 0 < y -> k < x / y <-> k * y < x.
Proof.
  intros Hy. pose proof (Qdiv_le_iff x y k Hy) as H.
  split; intros Hlt.
  - apply Qnot_le_lt. intros Hle. apply H in Hle. lra.
  - apply Qnot_le_lt. intros Hle. apply H in Hle. lra.
Qed.

(** With customers, the churn rate is the inactive share over six months,
    clamped; for counts that share is at most one sixth, below the upper
    clamp. *)
Lemma calculateChurnRate_share (total active : Q) :
  0 < total -> 0 <= active -> active <= total ->
  let share := (total - active) / total / 6 in
  0 <= share /\ share <= 1 # 6
  /\ calculateChurnRate (Fin total) (Fin active)
     = Math_max (Fin (1 # 100)) (Fin share).
Proof.
  intros Hpos Hactive Htotal. cbv zeta. unfold calculateChurnRate.
  assert (Hz : ~ total == 0) by lra.
  rewrite (proj2 (js_eq_Fin_false total 0) Hz).
  unfold js_sub. cbn [js_neg js_add]. rewrite (js_div_Fin _ total Hz).
  rewrite (js_div_Fin _ 6) by (intros H; discriminate H).
  unfold Qminus.
  assert (H0 : 0 <= (total + - active) / total)
    by (apply Qdiv_ge_iff; [exact Hpos | lra]).
  assert (H1 : (total + - active) / total <= 1)
    by (apply Qdiv_le_iff; [exact Hpos | lra]).
  set (x := (total + - active) / total) in *.
  assert (Hy0 : 0 <= x / 6) by (apply Qdiv_ge_iff; [reflexivity | lra]).
  assert (Hy1 : x / 6 <= 1 # 6) by (apply Qdiv_le_iff; [reflexivity | lra]).
  set (y := x / 6) in *.
  split; [exact Hy0 |]. split; [exact Hy1 |].
  assert (Hlt : js_lt (Fin y) (Fin (1 # 2)) = true) by (apply js_lt_Fin; lra).
  unfold Math_min. rewrite Hlt. reflexivity.
Qed.

(** X11.  For counts with [0 <= active <= total] the churn rate is 0.05
    without customers and otherwise the share of inactive customers over six
    months, raised to 0.01 when it is lower.  It lies between 0.01 and one
    sixth, so the upper clamp of 0.5 is never met. *)
Theorem X11_churn_rate (total active : Q) :
  0 <= active -> active <= total ->
  exists q,
    calculateChurnRate (Fin total) (Fin active) = Fin q
    /\ 1 # 100 <= q /\ q <= 1 # 6
    /\ (total == 0 -> q == 5 # 100)
    /\ (0 < total ->
        let share := (total - active) / total / 6 in
        (1 # 100 <= share -> q == share) /\ (share <= 1 # 100 -> q == 1 # 100)).
Proof.
  intros Hactive Htotal.
  destruct (Qlt_le_dec 0 total) as [Hpos | Hzero].
  - destruct (calculateChurnRate_share total active Hpos Hactive Htotal)
      as (Hlo & Hhi & ->).
    cbv zeta. set (share := (total - active) / total / 6) in *.
    unfold Math_max.
    destruct (js_lt (Fin (1 # 100)) (Fin share)) eqn:Hc;
      [apply js_lt_Fin in Hc | apply js_lt_Fin_false in Hc];
      eexists; (split; [reflexivity |]); repeat split; intros; lra.
  - assert (Hz : total == 0) by lra.
    unfold calculateChurnRate. rewrite (proj2 (js_eq_Fin total 0) Hz).
    exists (5 # 100). split; [reflexivity |]. split; [lra |]. split; [lra |].
    split; [reflexivity | lra].
Qed.

Lemma X11_churn_rate_witness :
  exists q, calculateChurnRate (Fin 100) (Fin 40) = Fin q /\ q <= 1 # 6.
Proof.
  destruct (X11_churn_rate 100 40) as (q & Hq & _ & Hle & _).
  - unfold Qle. simpl. lia.
  - unfold Qle. simpl. lia.
  - exists q. split; [exact Hq | exact Hle].
Defined.

(** Without new customers or without spend the cost is zero and the
    recommendation asks for the spend, whatever the value. *)
Lemma cac_without_spend (totalRevenue totalOrders totalCustomers churnRate : num)
    (adSpend newCustomers : Q) :
  newCustomers <= 0 \/ adSpend == 0 ->
  let r := calculateLtvCac totalRevenue totalOrders totalCustomers churnRate
             (Fin adSpend) (Fin newCustomers) in
  cac r =n= Fin 0
  /\ startsWith (text (recommendation r)) "Please add your advertising spend" = true.
Proof.
  intros Hnone. cbv zeta. unfold calculateLtvCac, js_gt.
  cbn [cac recommendation].
  assert (Hcac : (if js_lt (Fin 0) (Fin newCustomers)
                  then js_div (Fin adSpend) (Fin newCustomers) else Fin 0)
                 =n= Fin 0).
  { destruct (js_lt (Fin 0) (Fin newCustomers)) eqn:Hn;
      [apply js_lt_Fin in Hn | reflexivity].
    destruct Hnone as [Hle | Hzero]; [lra |].
    rewrite js_div_Fin by lra. cbn [num_equiv]. rewrite Hzero. field. lra. }
  split; [apply round2_zero, Hcac |].
  unfold generateRecommendation.
  destruct (if js_lt (Fin 0) (Fin newCustomers)
            then js_div (Fin adSpend) (Fin newCustomers) else Fin 0)
    as [q | | |]; cbn [num_equiv] in Hcac; try contradiction.
  rewrite (proj2 (js_eq_Fin q 0) Hcac). reflexivity.
Qed.

(** X12.  For counts that are not negative and a positive churn rate:
    without orders or without customers the lifetime value is zero, and for
    a revenue that is not negative the lifetime value is not negative.
    Without new customers, or without advertising spend, the acquisition
    cost is zero and the recommendation asks for the spend.  A positive cost
    of at most 0.4 cent per new customer is also reported as zero, but then
    the recommendation is one of the five that compare value and cost. *)
Theorem X12_lifetime_value
    (revenue orders customers churn adSpend newCustomers : Q) :
  0 <= orders -> 0 <= customers -> 0 < churn ->
  let r := calculateLtvCac (Fin revenue) (Fin orders) (Fin customers) (Fin churn)
             (Fin adSpend) (Fin newCustomers) in
  (orders == 0 \/ customers == 0 -> ltv r =n= Fin 0)
  /\ (0 <= revenue -> exists value, ltv r = Fin value /\ 0 <= value)
  /\ (newCustomers <= 0 \/ adSpend == 0 ->
      cac r =n= Fin 0
      /\ startsWith (text (recommendation r)) "Please add your advertising spend"
         = true)
  /\ (0 < newCustomers -> 0 < adSpend -> adSpend * 250 <= newCustomers ->
      cac r =n= Fin 0
      /\ startsWith (text (recommendation r)) "Please add your advertising spend"
         = false).
Proof.
  intros Horders Hcustomers Hchurn. cbv zeta.
  assert (Hch : ~ churn == 0) by lra.
  split; [| split; [| split; [apply cac_without_spend |]]].
  - intros Hnone. unfold calculateLtvCac, js_gt. cbn [ltv].
    rewrite (proj2 (js_lt_Fin 0 churn) Hchurn), (js_div_Fin 1 churn Hch).
    destruct (js_lt (Fin 0) (Fin orders)) eqn:Ho;
      [apply js_lt_Fin in Ho | apply js_lt_Fin_false in Ho];
      (destruct (js_lt (Fin 0) (Fin customers)) eqn:Hc;
       [apply js_lt_Fin in Hc | apply js_lt_Fin_false in Hc]);
      try (destruct Hnone; exfalso; lra);
      try rewrite (js_div_Fin revenue orders) by lra;
      try rewrite (js_div_Fin orders customers) by lra;
      cbn [js_mul]; apply round2_zero; cbn [num_equiv];
      repeat (rewrite Qmult_0_l || rewrite Qmult_0_r); reflexivity.
  - intros Hrevenue. unfold calculateLtvCac, js_gt. cbn [ltv].
    rewrite (proj2 (js_lt_Fin 0 churn) Hchurn), (js_div_Fin 1 churn Hch).
    assert (Hlife : 0 <= 1 / churn) by (apply Qle_shift_div_l; lra).
    destruct (js_lt (Fin 0) (Fin orders)) eqn:Ho;
      [apply js_lt_Fin in Ho | apply js_lt_Fin_false in Ho];
      (destruct (js_lt (Fin 0) (Fin customers)) eqn:Hc;
       [apply js_lt_Fin in Hc | apply js_lt_Fin_false in Hc]);
      try rewrite (js_div_Fin revenue orders) by lra;
      try rewrite (js_div_Fin orders customers) by lra;
      cbn [js_mul]; rewrite round2_Fin_eq;
      (eexists; split; [reflexivity |]); apply Qround2_nonneg.
    + apply Qmult_le_0_compat; [| exact Hlife].
      apply Qmult_le_0_compat; apply Qle_shift_div_l; lra.
    + apply Qmult_le_0_compat; [| exact Hlife].
      apply Qmult_le_0_compat; [apply Qle_shift_div_l; lra | lra].
    + apply Qmult_le_0_compat; [| exact Hlife].
      apply Qmult_le_0_compat; [lra | apply Qle_shift_div_l; lra].
    + apply Qmult_le_0_compat; [| exact Hlife].
      apply Qmult_le_0_compat; lra.
  - unfold calculateLtvCac, js_gt. cbn [cac recommendation].
    intros Hn Hspend Hsmall. rewrite (proj2 (js_lt_Fin 0 newCustomers) Hn).
    rewrite (js_div_Fin adSpend newCustomers) by lra.
    assert (Hq0 : 0 < adSpend / newCustomers)
      by (apply Qdiv_gt_iff; [exact Hn | lra]).
    assert (Hq1 : adSpend / newCustomers < 5 # 1000)
      by (apply Qdiv_lt_iff; [exact Hn | lra]).
    set (q := adSpend / newCustomers) in *. split.
    + rewrite round2_Fin. cbn [num_equiv]. unfold Qround2.
      rewrite (Qfloor_unique (q * 100 + (1 # 2)) 0).
      * reflexivity.
      * change (inject_Z 0) with 0. lra.
      * change (inject_Z (0 + 1)) with 1. lra.
    + unfold generateRecommendation.
      assert (Hne : js_eq (Fin q) (Fin 0) = false) by (apply js_eq_Fin_false; lra).
      rewrite Hne.
      repeat match goal with
             | |- context [if ?b then _ else _] => destruct b
             end; reflexivity.
Qed.

Lemma X12_lifetime_value_witness :
  ltv (calculateLtvCac (Fin 0) (Fin 0) (Fin 50) (Fin (5 # 100))
         (Fin 1) (Fin 1000))
  =n= Fin 0
  /\ cac (calculateLtvCac (Fin 0) (Fin 0) (Fin 50) (Fin (5 # 100))
            (Fin 1) (Fin 1000))
     =n= Fin 0.
Proof.
  pose proof (X12_lifetime_value 0 0 50 (5 # 100) 1 1000) as H.
  cbv zeta in H.
  destruct H as (Hltv & _ & _ & Hcac).
  - unfold Qle. simpl. lia.
  - unfold Qle. simpl. lia.
  - reflexivity.
  - split.
    + apply Hltv. left. reflexivity.
    + apply Hcac; [reflexivity | reflexivity | unfold Qle; simpl; lia].
Defined.




(** ** The two paging loops of the lifetime-value analysis *)

Lemma do_while_S {St : Type} (fuel : nat) (body : St -> IO (St * bool))
    (st : St) (n : nat) :
  do_while (S fuel) body st n
  = match body st n with
    | (Returned (st', true), n') => do_while fuel body st' n'
    | (Returned (st', false), n') => (Returned (Some st'), n')
    | (Thrown e, n') => (Thrown e, n')
    end.
Proof.
  cbn [do_while]. unfold mbind, IO_bind.
  destruct (body st n) as [[[st' again] | e] n']; [| reflexivity].
  destruct again; reflexivity.
Qed.

(** What holds before the loop and is kept by every iteration holds of the
    state the loop ends in. *)
Lemma do_while_invariant {St : Type} (P : St -> Prop) (body : St -> IO (St * bool)) :
  (forall st n st' again n',
     P st -> body st n = (Returned (st', again), n') -> P st') ->
  forall fuel st n st' n',
    P st -> do_while fuel body st n = (Returned (Some st'), n') -> P st'.
Proof.
  intros Hbody. induction fuel as [| fuel IH]; intros st n st' n' Hst Hrun.
  - discriminate Hrun.
  - rewrite do_while_S in Hrun.
    destruct (body st n) as [[[st1 again] | e] n1] eqn:Hstep; [| discriminate Hrun].
    pose proof (Hbody _ _ _ _ _ Hst Hstep) as Hst1.
    destruct again.
    + apply (IH _ _ _ _ Hst1 Hrun).
    + injection Hrun as <- _. exact Hst1.
Qed.

Section Loops.

Variables (startDate endDate threeMonthsAgo : Z).
Variable customersUpstream : nat -> option string -> outcome (option (list Customer)).

Lemma countCustomer_fold (customers : list Customer) :
  forall st,
    let st' := foldl (countCustomer startDate endDate threeMonthsAgo) st customers in
    c_totalCustomers st' = (c_totalCustomers st + length customers)%nat
    /\ (counts_ok st -> counts_ok st').
Proof.
  induction customers as [| c customers IH]; intros st; cbn [foldl length].
  - split; [lia | tauto].
  - destruct (IH (countCustomer startDate endDate threeMonthsAgo st c))
      as [Htotal Hok].
    cbv zeta in Htotal, Hok. split.
    + rewrite Htotal. cbn. lia.
    + intros Hst. apply Hok. unfold counts_ok in *.
      cbn [countCustomer c_newCustomers c_totalCustomers c_activeCustomers].
      destruct (in_period startDate endDate (c_created_at c)),
        (recently_active threeMonthsAgo c); lia.
Qed.

Lemma fetchCustomersPage_step (st : CustomersState) (n : nat) :
  let body := fetchCustomersPage startDate endDate threeMonthsAgo customersUpstream in
  (exists e, body st n = (Thrown e, S n)
             /\ customersUpstream n (truthy_string (c_pageInfo st)) = Thrown e)
  \/ (exists st' again,
        body st n = (Returned (st', again), S n)
        /\ (counts_ok st -> counts_ok st')
        /\ (again = true ->
            c_totalCustomers st' = (c_totalCustomers st + 250)%nat
            /\ (c_totalCustomers st' <= 1000)%nat)).
Proof.
  cbv zeta. unfold fetchCustomersPage, request.
  unfold mbind, mret, IO_bind, IO_ret.
  destruct (customersUpstream n (truthy_string (c_pageInfo st))) as [response | e];
    [| left; eexists; split; reflexivity].
  right.
  destruct (countCustomer_fold (default [] response) st) as [Htotal Hok].
  cbv zeta in Htotal, Hok.
  destruct (length (default [] response) =? 250)%nat eqn:Hfull.
  - apply Nat.eqb_eq in Hfull. rewrite Hfull in Htotal.
    rewrite bool_decide_eq_true_2 by eauto. cbn [andb].
    destruct (1000 <? _)%nat eqn:Hover;
      [apply Nat.ltb_lt in Hover | apply Nat.ltb_ge in Hover];
      eexists _, _; (split; [reflexivity |]); cbn [c_totalCustomers];
      (split; [exact Hok |]); intros; try discriminate; split; assumption.
  - rewrite bool_decide_eq_false_2 by (intros [x Hx]; discriminate Hx).
    cbn [andb]. eexists _, _. split; [reflexivity |].
    split; [exact Hok | discriminate].
Qed.

(** From a state that is within [k + 1] full pages of passing a thousand
    customers the loop ends within [k + 1] iterations, each of one
    request; when it throws, it throws what one of these requests threw. *)
Lemma customers_loop_bounded (k : nat) :
  forall (fuel : nat) (st : CustomersState) (n : nat),
    (1000 < c_totalCustomers st + 250 * S k)%nat -> (S k <= fuel)%nat ->
    exists res n',
      do_while fuel
        (fetchCustomersPage startDate endDate threeMonthsAgo customersUpstream) st n
      = (res, n')
      /\ res <> Returned None
      /\ (n < n' <= n + S k)%nat
      /\ (forall e, res = Thrown e ->
          exists m cursor,
            (n <= m < n')%nat /\ customersUpstream m cursor = Thrown e).
Proof.
  induction k as [| k IH]; intros fuel st n Hnear Hfuel;
    (destruct fuel as [| fuel]; [lia |]); rewrite do_while_S;
    (destruct (fetchCustomersPage_step st n)
       as [(e & He & Hup) | (st' & again & He & _ & Hagain)];
     cbv zeta in He; rewrite He);
    try (eexists _, _; split; [reflexivity |]; split; [discriminate |];
         split; [lia |]; intros e' [= <-]; eexists _, _;
         split; [| exact Hup]; lia);
    (destruct again;
     [| eexists _, _; split; [reflexivity |]; split; [discriminate |];
        split; [lia | discriminate]]);
    destruct (Hagain eq_refl) as [Htotal Hcap].
  - lia.
  - destruct (IH fuel st' (S n)) as (res & n' & Hrun & Hres & Hn' & Hthrown);
      [lia | lia |].
    exists res, n'. split; [exact Hrun |]. split; [exact Hres |].
    split; [lia |]. intros e He'.
    destruct (Hthrown e He') as (m & cursor & Hm & Hup).
    exists m, cursor. split; [lia | exact Hup].
Qed.

Lemma countOrder_fold (orders : list OrderSummary) :
  Forall (fun order => is_paid order = false) orders ->
  forall acc, foldl countOrder acc orders = acc.
Proof.
  induction 1 as [| order orders Hunpaid _ IH]; intros acc; [reflexivity |].
  cbn [foldl]. unfold countOrder at 2. rewrite Hunpaid. apply IH.
Qed.

End Loops.

(** On success the customers loop hands on consistent counts, whatever the
    fuel. *)
Lemma fetchCustomersData_counts
    (startDate endDate threeMonthsAgo : Z)
    (customersUpstream : nat -> option string -> outcome (option (list Customer)))
    (fuel n : nat) (data : CustomersData) (n' : nat) :
  fetchCustomersData startDate endDate threeMonthsAgo customersUpstream fuel n
  = (Returned (Some data), n') ->
  (cd_new_customers data <= cd_total_customers data)%nat
  /\ (cd_active_customers data <= cd_total_customers data)%nat.
Proof.
  unfold fetchCustomersData, try_catch, throw.
  unfold mbind, mret, IO_bind, IO_ret.
  set (start := {| c_totalCustomers := 0%nat; c_newCustomers := 0%nat;
                   c_activeCustomers := 0%nat; c_pageInfo := None |}).
  destruct (do_while fuel _ start n) as [[[final |] | e] n1] eqn:Hrun;
    intros Hdata; try discriminate Hdata.
  injection Hdata as <- _. cbn.
  apply (do_while_invariant counts_ok
           (fetchCustomersPage startDate endDate threeMonthsAgo customersUpstream))
    with (fuel := fuel) (st := start) (n := n) (n' := n1).
  - intros st m st' again m' Hst Hstep.
    destruct (fetchCustomersPage_step startDate endDate threeMonthsAgo
                customersUpstream st m)
      as [(e & He & _) | (st1 & again1 & Hst1 & Hok & _)];
      rewrite Hstep in *; [discriminate He |].
    injection Hst1 as <- _ _. apply Hok, Hst.
  - unfold counts_ok. cbn. lia.
  - exact Hrun.
Qed.

(** X20.  Whatever the store answers, the customers loop of the
    lifetime-value analysis sends at least one and at most five requests and
    then ends: five iterations of fuel are always enough.  A failure
    carries the message that one of these requests threw, behind the prefix
    [Failed to fetch customers data: ], and on success neither the new nor
    the active customers outnumber the customers counted. *)
Theorem X20_customers_loop
    (startDate endDate threeMonthsAgo : Z)
    (customersUpstream : nat -> option string -> outcome (option (list Customer)))
    (fuel n : nat) :
  (5 <= fuel)%nat ->
  exists res n',
    fetchCustomersData startDate endDate threeMonthsAgo customersUpstream fuel n
    = (res, n')
    /\ (n < n' <= n + 5)%nat
    /\ res <> Returned None
    /\ (forall e, res = Thrown e ->
        exists message m cursor,
          (n <= m < n')%nat
          /\ customersUpstream m cursor = Thrown message
          /\ e = ("Failed to fetch customers data: " ++ message)%string)
    /\ (forall data, res = Returned (Some data) ->
        (cd_new_customers data <= cd_total_customers data)%nat
        /\ (cd_active_customers data <= cd_total_customers data)%nat).
Proof.
  intros Hfuel.
  pose proof (fetchCustomersData_counts startDate endDate threeMonthsAgo
                customersUpstream fuel n) as Hcounts.
  revert Hcounts. unfold fetchCustomersData, try_catch, throw.
  unfold mbind, mret, IO_bind, IO_ret.
  set (start := {| c_totalCustomers := 0%nat; c_newCustomers := 0%nat;
                   c_activeCustomers := 0%nat; c_pageInfo := None |}).
  destruct (customers_loop_bounded startDate endDate threeMonthsAgo
              customersUpstream 4 fuel start n)
    as (res & n' & Hrun & Hres & Hn' & Hthrown); [cbn; lia | lia |].
  rewrite Hrun. destruct res as [[final |] | e]; [| congruence |]; intros Hcounts.
  - eexists _, _. split; [reflexivity |]. split; [lia |]. split; [discriminate |].
    split; [discriminate |]. intros data [= <-]. apply (Hcounts _ _ eq_refl).
  - eexists _, _. split; [reflexivity |]. split; [lia |]. split; [discriminate |].
    split; [| discriminate]. intros e' [= <-].
    destruct (Hthrown e eq_refl) as (m & cursor & Hm & Hup).
    exists e, m, cursor. split; [exact Hm |]. split; [exact Hup | reflexivity].
Qed.

Lemma X20_customers_loop_witness :
  (exists res n',
     fetchCustomersData 0%Z 10%Z 5%Z (fun _ _ => Returned (Some [])) 5%nat 0%nat
     = (res, n')
     /\ (0 < n' <= 0 + 5)%nat)
  /\ fetchCustomersData 0%Z 10%Z 5%Z
       (fun _ _ => Thrown "429 Too Many Requests"%string) 5%nat 0%nat
     = (Thrown "Failed to fetch customers data: 429 Too Many Requests"%string,
        1%nat).
Proof.
  split.
  - destruct (X20_customers_loop 0%Z 10%Z 5%Z (fun _ _ => Returned (Some []))
                5%nat 0%nat)
      as (res & n' & Hrun & Hn' & _).
    + lia.
    + exists res, n'. split; [exact Hrun | exact Hn'].
  - destruct (X20_customers_loop 0%Z 10%Z 5%Z
                (fun _ _ => Thrown "429 Too Many Requests"%string) 5%nat 0%nat)
      as (res & n' & Hrun & Hn' & _ & Hthrown & _).
    + lia.
    + rewrite Hrun.
      assert (Hres : exists e, res = Thrown e /\ n' = 1%nat).
      { vm_compute in Hrun. injection Hrun as <- <-. eexists. split; reflexivity. }
      destruct Hres as (e & -> & ->).
      destruct (Hthrown e eq_refl) as (message & m & cursor & _ & Hup & ->).
      injection Hup as <-. reflexivity.
Defined.

(** X21.  The orders loop counts paid orders only, so its cap of a thousand
    does not bound it: against a store that answers every request with a
    full page of 250 orders none of which is paid, the loop is still running
    after any number of iterations, one request each. *)
Theorem X21_orders_loop_runs_on
    (ordersUpstream : nat -> option string -> outcome (option (list OrderSummary)))
    (fuel n : nat) :
  (forall m cursor,
     exists page,
       ordersUpstream m cursor = Returned (Some page)
       /\ length page = 250%nat
       /\ Forall (fun order => is_paid order = false) page) ->
  fetchOrdersData ordersUpstream fuel n = (Returned None, (n + fuel)%nat).
Proof.
  intros Hstore. unfold fetchOrdersData, try_catch.
  unfold mbind, mret, IO_bind, IO_ret.
  assert (Hloop : forall st,
             o_totalOrders st = 0%nat ->
             do_while fuel (fetchOrdersPage ordersUpstream) st n
             = (Returned None, (n + fuel)%nat)).
  { revert n. induction fuel as [| fuel IH]; intros n st Hst.
    - cbn. unfold mret, IO_ret. rewrite Nat.add_0_r. reflexivity.
    - rewrite do_while_S. unfold fetchOrdersPage at 1, request.
      unfold mbind, mret, IO_bind, IO_ret.
      destruct (Hstore n (truthy_string (o_pageInfo st)))
        as (page & -> & Hlen & Hunpaid).
      change (default [] (Some page)) with page. cbv zeta.
      rewrite Hlen. change (250 =? 250)%nat with true.
      rewrite (countOrder_fold page Hunpaid). cbn [fst snd]. rewrite Hst.
      change (1000 <? 0)%nat with false.
      rewrite bool_decide_eq_true_2 by eauto. cbn [andb].
      rewrite IH by reflexivity. f_equal. lia. }
  rewrite Hloop by reflexivity. reflexivity.
Qed.

Lemma X21_orders_loop_runs_on_witness :
  fetchOrdersData
    (fun _ _ =>
       Returned (Some (replicate 250 {| os_financial_status := Some "pending"%string;
                                        os_total_price := Fin 10 |})))
    3%nat 0%nat
  = (Returned None, 3%nat).
Proof.
  apply (X21_orders_loop_runs_on _ 3%nat 0%nat). intros m cursor.
  eexists. split; [reflexivity |]. split; [reflexivity |].
  apply Forall_replicate. reflexivity.
Defined.


(** ** The analysis as a whole *)

Lemma count_pos (k : nat) : (0 < k)%nat -> 0 < inject_Z (Z.of_nat k).
Proof.
  intros Hk. change 0 with (inject_Z 0). rewrite <- Zlt_Qlt. lia.
Qed.

Lemma count_le (j k : nat) : (j <= k)%nat -> inject_Z (Z.of_nat j) <= inject_Z (Z.of_nat k).
Proof. intros H. rewrite <- Zle_Qle. lia. Qed.

(** A churn rate between 0.01 and one sixth stays between 0.01 and 0.167
    when rounded to three decimals. *)
Lemma rounded_churn (q : Q) :
  1 # 100 <= q -> q <= 1 # 6 ->
  exists c,
    js_div (Math_round (js_mul (Fin q) (Fin 1000))) (Fin 1000) = Fin c
    /\ 1 # 100 <= c /\ c <= 167 # 1000.
Proof.
  intros Hlo Hhi. cbn [js_mul Math_round].
  rewrite js_div_Fin by (intros H; discriminate H).
  eexists. split; [reflexivity |].
  assert (H10 : (10 <= Qfloor (q * 1000 + (1 # 2)))%Z).
  { change 10%Z with (Qfloor 10). apply Qfloor_resp_le. lra. }
  assert (H167 : (Qfloor (q * 1000 + (1 # 2)) <= 167)%Z).
  { change 167%Z with (Qfloor (1003 # 6)). apply Qfloor_resp_le. lra. }
  rewrite Zle_Qle in H10, H167.
  set (z := inject_Z (Qfloor (q * 1000 + (1 # 2)))) in *.
  change (inject_Z 10) with 10 in H10. change (inject_Z 167) with 167 in H167.
  split.
  - apply Qdiv_ge_iff; [reflexivity | lra].
  - apply Qdiv_le_iff; [reflexivity | lra].
Qed.

(** The churn rate that the analysis hands to [calculateLtvCac]. *)
Lemma churn_of_counts (total active : nat) :
  (active <= total)%nat ->
  exists c,
    js_div (Math_round (js_mul (calculateChurnRate (count total) (count active))
                               (Fin 1000))) (Fin 1000) = Fin c
    /\ 1 # 100 <= c /\ c <= 167 # 1000.
Proof.
  intros Hle. unfold count. destruct total as [| total].
  - apply (rounded_churn (5 # 100)); lra.
  - destruct (calculateChurnRate_share (inject_Z (Z.of_nat (S total)))
                (inject_Z (Z.of_nat active)))
      as (Hlo & Hhi & ->).
    + apply count_pos. lia.
    + change 0 with (inject_Z (Z.of_nat 0)). apply count_le. lia.
    + apply count_le, Hle.
    + cbv zeta in Hlo, Hhi.
      set (share := (inject_Z (Z.of_nat (S total)) - inject_Z (Z.of_nat active))
                    / inject_Z (Z.of_nat (S total)) / 6) in *.
      unfold Math_max.
      destruct (js_lt (Fin (1 # 100)) (Fin share)) eqn:Hc;
        [apply js_lt_Fin in Hc | apply js_lt_Fin_false in Hc];
        apply rounded_churn; lra.
Qed.

(** X22.  [analyzeLtvCac] refuses a missing shop domain or access token
    before any request is sent.  When it returns an analysis, the new
    customers are among the customers counted, the churn rate reported lies
    between 0.01 and 0.167, so the default lifespan of twenty months is never
    used; and without an advertising spend in the request the cost is zero
    and the recommendation asks for the spend. *)
Theorem X22_analysis
    (startDate endDate threeMonthsAgo : Z)
    (ordersUpstream : nat -> option string -> outcome (option (list OrderSummary)))
    (customersUpstream : nat -> option string -> outcome (option (list Customer)))
    (shopDomain accessToken : option string) (adSpend : option num)
    (fuel n : nat) :
  let run := analyzeLtvCac startDate endDate threeMonthsAgo ordersUpstream
               customersUpstream shopDomain accessToken adSpend fuel n in
  (truthy_string shopDomain = None \/ truthy_string accessToken = None ->
   run = (Thrown "Shop domain and access token are required"%string, n))
  /\ (forall a n', run = (Returned (Some a), n') ->
      let d := a_shopify_data a in
      (sd_new_customers_acquired d <= sd_total_customers d)%nat
      /\ exists churn,
           sd_churn_rate d = Fin churn
           /\ 1 # 100 <= churn /\ churn <= 167 # 1000
           /\ (adSpend = None ->
               a_cac a =n= Fin 0
               /\ startsWith (text (a_recommendation a))
                    "Please add your advertising spend" = true)).
Proof.
  cbv zeta. unfold analyzeLtvCac, try_catch, throw. split.
  - intros [-> | Hnone]; [reflexivity |].
    rewrite Hnone. destruct (truthy_string shopDomain); reflexivity.
  - intros a n'.
    destruct (truthy_string shopDomain) as [domain |]; [| discriminate].
    destruct (truthy_string accessToken) as [token |]; [| discriminate].
    unfold fetchShopifyData. unfold mbind, mret, IO_bind, IO_ret.
    destruct (fetchOrdersData ordersUpstream fuel n)
      as [[[ordersData |] | e] n1]; try discriminate.
    destruct (fetchCustomersData startDate endDate threeMonthsAgo
                customersUpstream fuel n1)
      as [[[customersData |] | e] n2] eqn:Hcustomers; try discriminate.
    intros [= <- _]. cbn [a_shopify_data sd_new_customers_acquired
                          sd_total_customers sd_churn_rate sd_total_revenue
                          sd_total_orders a_ltv a_cac a_recommendation].
    destruct (fetchCustomersData_counts _ _ _ _ _ _ _ _ Hcustomers)
      as [Hnew Hactive].
    split; [exact Hnew |].
    destruct (churn_of_counts (cd_total_customers customersData)
                (cd_active_customers customersData) Hactive)
      as (churn & -> & Hlo & Hhi).
    exists churn. split; [reflexivity |]. split; [exact Hlo |].
    split; [exact Hhi |].
    intros ->.
    exact (cac_without_spend (od_total_revenue ordersData)
             (count (od_total_orders ordersData))
             (count (cd_total_customers customersData)) (Fin churn) 0
             (inject_Z (Z.of_nat (cd_new_customers customersData)))
             (or_intror (Qeq_refl 0))).
Qed.

Lemma X22_analysis_witness :
  let orders := [ {| os_financial_status := Some "paid"%string;
                     os_total_price := Fin 120 |} ] in
  let customers := [ {| c_created_at := Some 5%Z; c_updated_at := Some 8%Z;
                        c_orders_count := Some (Fin 1) |} ] in
  let run := analyzeLtvCac 0%Z 10%Z 5%Z
               (fun _ _ => Returned (Some orders))
               (fun _ _ => Returned (Some customers))
               (Some "shop.example"%string) (Some "token"%string) None
               3%nat 0%nat in
  exists a, run = (Returned (Some a), 2%nat)
            /\ a_cac a =n= Fin 0.
Proof.
  cbv zeta.
  pose proof (X22_analysis 0%Z 10%Z 5%Z
       (fun _ _ => Returned (Some [ {| os_financial_status := Some "paid"%string;
                                       os_total_price := Fin 120 |} ]))
       (fun _ _ => Returned (Some [ {| c_created_at := Some 5%Z;
                                       c_updated_at := Some 8%Z;
                                       c_orders_count := Some (Fin 1) |} ]))
       (Some "shop.example"%string) (Some "token"%string) None 3%nat 0%nat) as H.
  cbv zeta in H. destruct H as [_ H].
  eexists. split; [vm_compute; reflexivity |].
  destruct (H _ _ ltac:(vm_compute; reflexivity)) as (_ & churn & _ & _ & _ & Hcac).
  apply (Hcac eq_refl).
Defined.


(** ** Sales acceleration and price elasticity *)

Lemma Forall_list_filter {A : Type} (P : A -> Prop) (f : A -> bool) (l : list A) :
  Forall P l -> Forall P (List.filter f l).
Proof.
  induction 1 as [| x l Hx _ IH]; cbn [List.filter]; [constructor |].
  destruct (f x); [constructor; assumption | exact IH].
Qed.

Lemma quantity_sum_nonneg (items : list LineItem) :
  Forall quantity_ok items ->
  forall acc : num,
    (exists u, acc = Fin u /\ 0 <= u) ->
    exists u,
      foldl (fun itemSum item => js_add itemSum (js_or (li_quantity item) (Fin 0)))
            acc items = Fin u
      /\ 0 <= u.
Proof.
  induction 1 as [| item rest Hitem _ IH]; intros acc Hacc; [exact Hacc |].
  cbn [foldl]. apply IH. destruct Hacc as (u & -> & Hu).
  unfold quantity_ok in Hitem.
  destruct (li_quantity item) as [[q | | |] |]; try contradiction;
    cbn [js_or js_truthy].
  - destruct (negb (Qeq_bool q 0)); cbn [js_add]; eexists;
      (split; [reflexivity | lra]).
  - cbn [js_add]. eexists. split; [reflexivity | lra].
Qed.

Lemma variantQuantity_nonneg (variantId : Z) (items : list LineItem) :
  Forall quantity_ok items ->
  exists u, variantQuantity variantId items = Fin u /\ 0 <= u.
Proof.
  intros Hok. unfold variantQuantity. apply quantity_sum_nonneg.
  - apply Forall_list_filter, Hok.
  - exists 0. split; [reflexivity | lra].
Qed.

Lemma order_sum_nonneg (variantId : Z) (half : list Order) :
  quantities_ok half ->
  forall acc : num,
    (exists u, acc = Fin u /\ 0 <= u) ->
    exists u,
      foldl (fun sum order =>
               js_add sum
                 (variantQuantity variantId (default [] (o_line_items order))))
            acc half = Fin u
      /\ 0 <= u.
Proof.
  induction 1 as [| order rest Horder _ IH]; intros acc Hacc; [exact Hacc |].
  cbn [foldl]. apply IH. destruct Hacc as (u & -> & Hu).
  destruct (variantQuantity_nonneg variantId (default [] (o_line_items order)))
    as (q & -> & Hq).
  - destruct (o_line_items order) as [items |]; [apply Horder; reflexivity |].
    constructor.
  - cbn [js_add]. eexists. split; [reflexivity | lra].
Qed.

Lemma halfSales_nonneg (variantId : Z) (half : list Order) :
  quantities_ok half ->
  exists u, halfSales variantId half = Fin u /\ 0 <= u.
Proof.
  intros Hok. apply order_sum_nonneg; [exact Hok |].
  exists 0. split; [reflexivity | lra].
Qed.

Lemma halfDays_finite (half : list Order) : exists d, halfDays half = Fin d.
Proof.
  unfold halfDays. destruct half as [| first rest]; [eexists; reflexivity |].
  destruct (last (first :: rest)) as [final |]; [| eexists; reflexivity].
  rewrite js_div_Fin by (intros H; discriminate H). eexists. reflexivity.
Qed.

(** A half's rate of sale is its units over at least one day. *)
Lemma half_rate_nonneg (u : Q) (days : num) :
  0 <= u -> (exists d, days = Fin d) ->
  exists r, js_div (Fin u) (Math_max days (Fin 1)) = Fin r /\ 0 <= r.
Proof.
  intros Hu [d ->]. unfold Math_max.
  destruct (js_lt (Fin d) (Fin 1)) eqn:Hc;
    [apply js_lt_Fin in Hc | apply js_lt_Fin_false in Hc].
  - rewrite js_div_Fin by (intros H; discriminate H).
    eexists. split; [reflexivity |]. apply Qdiv_ge_iff; [reflexivity | lra].
  - rewrite js_div_Fin by lra.
    eexists. split; [reflexivity |]. apply Qdiv_ge_iff; lra.
Qed.

Lemma has_variant_no_sale (variantId : Z) (order : Order) :
  has_no_line_item_of variantId order -> has_variant variantId order = false.
Proof.
  unfold has_no_line_item_of, has_variant. intros Hnone.
  destruct (o_line_items order) as [items |]; [| reflexivity].
  specialize (Hnone items eq_refl).
  induction Hnone as [| item items Hitem _ IH]; [reflexivity |].
  cbn [existsb]. rewrite IH, orb_false_r. apply Z.eqb_neq, Hitem.
Qed.

Lemma filter_no_sales (variantId : Z) (orders : list Order) :
  no_sales_of variantId orders -> List.filter (has_variant variantId) orders = [].
Proof.
  induction 1 as [| order orders Horder _ IH]; [reflexivity |].
  cbn [List.filter]. rewrite (has_variant_no_sale _ _ Horder). exact IH.
Qed.

(** X23.  For line items with non-negative quantities the sales
    acceleration is a finite number not below -1; it is zero when fewer than
    two orders hold the variant, in particular for a variant without
    sales. *)
Theorem X23_sales_acceleration (orders : list Order) (variantId : Z) :
  quantities_ok orders ->
  exists a,
    calculateSalesAcceleration orders variantId = Fin a
    /\ - (1) <= a
    /\ ((length (List.filter (has_variant variantId) orders) < 2)%nat -> a == 0)
    /\ (no_sales_of variantId orders -> a == 0).
Proof.
  intros Hok. unfold calculateSalesAcceleration.
  set (before := fun a b : Order => (o_created_at a <? o_created_at b)%Z).
  set (kept := List.filter (has_variant variantId) orders).
  assert (Hlen : length (js_sort before kept) = length kept)
    by (rewrite js_sort_perm; reflexivity).
  assert (Hsorted : quantities_ok (js_sort before kept)).
  { unfold quantities_ok. rewrite js_sort_perm. apply Forall_list_filter, Hok. }
  cbv zeta. rewrite Hlen.
  destruct (length kept <? 2)%nat eqn:Hfew;
    [apply Nat.ltb_lt in Hfew | apply Nat.ltb_ge in Hfew].
  { exists 0. split; [reflexivity |]. split; [lra |].
    split; intros; reflexivity. }
  set (variantOrders := js_sort before kept) in *.
  destruct (halfSales_nonneg variantId (take (length kept / 2) variantOrders))
    as (u1 & -> & Hu1); [apply Forall_take, Hsorted |].
  destruct (halfSales_nonneg variantId (drop (length kept / 2) variantOrders))
    as (u2 & -> & Hu2); [apply Forall_drop, Hsorted |].
  destruct (half_rate_nonneg u1 _ Hu1
              (halfDays_finite (take (length kept / 2) variantOrders)))
    as (f & -> & Hf).
  destruct (half_rate_nonneg u2 _ Hu2
              (halfDays_finite (drop (length kept / 2) variantOrders)))
    as (s & -> & Hs).
  assert (Hnone : no_sales_of variantId orders -> False).
  { intros Hno. subst kept. rewrite (filter_no_sales _ _ Hno) in Hfew.
    cbn in Hfew. lia. }
  unfold js_gt.
  destruct (js_lt (Fin 0) (Fin f)) eqn:Hpos;
    [apply js_lt_Fin in Hpos | apply js_lt_Fin_false in Hpos].
  - unfold js_sub. cbn [js_neg js_add]. rewrite js_div_Fin by lra.
    eexists. split; [reflexivity |].
    split; [apply Qdiv_ge_iff; [exact Hpos | lra] |].
    split; [intros; lia | intros Hno; destruct (Hnone Hno)].
  - exists 0. split; [reflexivity |]. split; [lra |].
    split; intros; reflexivity.
Qed.

Lemma X23_sales_acceleration_witness :
  let sale := fun (day quantity : Z) =>
    {| o_created_at := day * 86400000;
       o_line_items := Some [ {| li_variant_id := 7;
                                  li_quantity := Some (Fin (inject_Z quantity));
                                  li_price := Fin 10 |} ] |} in
  exists a,
    calculateSalesAcceleration [sale 1%Z 4%Z; sale 3%Z 2%Z; sale 9%Z 1%Z] 7 = Fin a
    /\ - (1) <= a.
Proof.
  cbv zeta.
  destruct (X23_sales_acceleration
              [ {| o_created_at := 1 * 86400000;
                   o_line_items := Some [ {| li_variant_id := 7;
                                              li_quantity := Some (Fin (inject_Z 4));
                                              li_price := Fin 10 |} ] |};
                {| o_created_at := 3 * 86400000;
                   o_line_items := Some [ {| li_variant_id := 7;
                                              li_quantity := Some (Fin (inject_Z 2));
                                              li_price := Fin 10 |} ] |};
                {| o_created_at := 9 * 86400000;
                   o_line_items := Some [ {| li_variant_id := 7;
                                              li_quantity := Some (Fin (inject_Z 1));
                                              li_price := Fin 10 |} ] |} ] 7)
    as (a & Ha & Hlow & _).
  - repeat constructor; intros items [= <-]; repeat constructor;
      unfold quantity_ok; cbn; unfold Qle; simpl; lia.
  - exists a. split; [exact Ha | exact Hlow].
Defined.


Lemma totalSalesOf_from (variantId : Z) (orders : list Order) :
  forall acc : outcome num,
    let step := fun (sum : outcome num) (order : Order) =>
      match sum, o_line_items order with
      | Returned sum, Some items =>
          Returned (js_add sum (variantQuantity variantId items))
      | Returned _, None =>
          Thrown "TypeError: Cannot read properties of undefined (reading 'filter')"
      | Thrown e, _ => Thrown e
      end in
    ((exists e, foldl step acc orders = Thrown e) <->
     (exists e, acc = Thrown e) \/ Exists (fun o => o_line_items o = None) orders)
    /\ (quantities_ok orders ->
        (exists u, acc = Returned (Fin u) /\ 0 <= u) ->
        Forall (fun o => is_Some (o_line_items o)) orders ->
        exists u, foldl step acc orders = Returned (Fin u) /\ 0 <= u).
Proof.
  induction orders as [| order orders IH]; intros acc step.
  - cbn [foldl]. split.
    + rewrite Exists_nil. tauto.
    + intros _ Hacc _. exact Hacc.
  - cbn [foldl]. destruct (IH (step acc order)) as [Hthrown Hsum].
    fold step in Hthrown, Hsum. split.
    + rewrite Hthrown, Exists_cons. subst step. cbv beta.
      destruct acc as [sum | e].
      * destruct (o_line_items order) as [items |].
        -- split; [intros [[e He] | Hex]; [discriminate He | tauto] |].
           intros [[e He] | [Hnone | Hex]];
             [discriminate He | discriminate Hnone | tauto].
        -- split; [intros _; right; left; reflexivity |].
           intros _. left. eexists. reflexivity.
      * split; intros _; left; eexists; reflexivity.
    + intros Hok (u & -> & Hu) Hitems.
      apply Forall_cons in Hok as [Horder Hok].
      apply Forall_cons in Hitems as [[items Hitems0] Hitems].
      apply Hsum; [exact Hok | | exact Hitems].
      subst step. cbv beta. rewrite Hitems0.
      destruct (variantQuantity_nonneg variantId items (Horder items Hitems0))
        as (q & -> & Hq).
      cbn [js_add]. eexists. split; [reflexivity | lra].
Qed.

(** X24.  Unless both the price and the compare-at price are positive,
    [calculatePriceElasticity] answers zero without looking at the orders.
    With two positive finite prices it throws exactly when some order has no
    line items; otherwise, for non-negative quantities, the answer is not
    negative, it is zero for equal prices, and for different prices it is
    the units sold over the size of the relative price change. *)
Theorem X24_price_elasticity (variant : Variant) (compare_at_price : num)
    (orders : list Order) :
  let run := calculatePriceElasticity variant compare_at_price orders in
  (js_gt (js_or (Some compare_at_price) (Fin 0)) (Fin 0)
   && js_gt (js_or (Some (v_price variant)) (Fin 0)) (Fin 0) = false ->
   run = Returned (Fin 0))
  /\ (forall p c : Q,
        v_price variant = Fin p -> compare_at_price = Fin c -> 0 < p -> 0 < c ->
        ((exists e, run = Thrown e) <->
         Exists (fun o => o_line_items o = None) orders)
        /\ (quantities_ok orders ->
            Forall (fun o => is_Some (o_line_items o)) orders ->
            exists x total,
              run = Returned (Fin x)
              /\ totalSalesOf (v_id variant) orders = Returned (Fin total)
              /\ 0 <= x
              /\ (p == c -> x == 0)
              /\ (~ p == c -> x * Qabs ((p - c) / c) == total))).
Proof.
  cbv zeta. unfold calculatePriceElasticity. split.
  - intros ->. reflexivity.
  - intros p c -> -> Hp Hc.
    assert (Hpt : js_or (Some (Fin p)) (Fin 0) = Fin p).
    { unfold js_or, js_truthy.
      rewrite (proj2 (Qeq_bool_false p 0)) by lra. reflexivity. }
    assert (Hct : js_or (Some (Fin c)) (Fin 0) = Fin c).
    { unfold js_or, js_truthy.
      rewrite (proj2 (Qeq_bool_false c 0)) by lra. reflexivity. }
    rewrite Hpt, Hct. unfold js_gt.
    rewrite (proj2 (js_lt_Fin 0 p) Hp), (proj2 (js_lt_Fin 0 c) Hc). cbn [andb].
    unfold js_sub. cbn [js_neg js_add]. rewrite js_div_Fin by lra.
    destruct (totalSalesOf_from (v_id variant) orders (Returned (Fin 0)))
      as [Hthrown Hsum].
    cbv zeta in Hthrown, Hsum. fold (totalSalesOf (v_id variant) orders) in *.
    split.
    + destruct (totalSalesOf (v_id variant) orders) as [total | e].
      * split; [intros [e He]; discriminate He |].
        intros Hex. destruct (proj2 Hthrown (or_intror Hex)) as [e He].
        discriminate He.
      * split; [| intros _; eexists; reflexivity].
        intros _. destruct (proj1 Hthrown (ex_intro _ e eq_refl)) as [[e' He'] | Hex];
          [discriminate He' | exact Hex].
    + intros Hok Hitems.
      destruct (Hsum Hok) as (total & -> & Htotal);
        [exists 0; split; [reflexivity | lra] | exact Hitems |].
      assert (Hdelta : (p + - c) / c == 0 <-> p == c).
      { split; intros H.
        - assert (E : p + - c == (p + - c) / c * c) by (field; lra).
          rewrite H in E. lra.
        - rewrite H. field. lra. }
      unfold js_neq, Math_abs. unfold Qminus.
      set (delta := (p + - c) / c) in *.
      destruct (js_eq (Fin delta) (Fin 0)) eqn:Hz;
        [apply js_eq_Fin in Hz | apply js_eq_Fin_false in Hz]; cbn [negb].
      * exists 0, total. split; [reflexivity |]. split; [reflexivity |].
        split; [lra |]. split; [reflexivity |]. tauto.
      * assert (Habs : 0 < Qabs delta).
        { destruct (Q_dec delta 0) as [[Hlt | Hgt] | Heq]; [| | contradiction];
            apply Qabs_case; intros; lra. }
        rewrite js_div_Fin by lra.
        exists (total / Qabs delta), total.
        split; [reflexivity |]. split; [reflexivity |].
        split; [apply Qdiv_ge_iff; [exact Habs | lra] |].
        split; [intros Heq; apply Hdelta in Heq; contradiction |].
        intros _. field. lra.
Qed.

Lemma X24_price_elasticity_witness :
  let v := {| v_id := 7; v_price := Fin 80; v_inventory_quantity := Some (Fin 5) |} in
  exists e,
    calculatePriceElasticity v (Fin 100)
      [ {| o_created_at := 0; o_line_items := None |} ] = Thrown e.
Proof.
  cbv zeta.
  apply (proj2 (X24_price_elasticity
                  {| v_id := 7; v_price := Fin 80;
                     v_inventory_quantity := Some (Fin 5) |}
                  (Fin 100) [ {| o_created_at := 0; o_line_items := None |} ])
           80 100 eq_refl eq_refl).
  - reflexivity.
  - reflexivity.
  - apply Exists_cons. left. reflexivity.
Defined.


(** ** More on fetching all products *)

(** What holds of the state and the request count before the loop and is
    kept by every iteration holds when the loop ends. *)
Lemma while_invariant {St : Type} (P : St -> nat -> Prop) (cond : St -> bool)
    (body : St -> IO St) :
  (forall st n st' n',
     P st n -> cond st = true -> body st n = (Returned st', n') -> P st' n') ->
  forall fuel st n st' n',
    P st n -> while fuel cond body st n = (Returned (Some st'), n') -> P st' n'.
Proof.
  intros Hbody. induction fuel as [| fuel IH]; intros st n st' n' Hst; cbn [while].
  - destruct (cond st); unfold mret, IO_ret; intros Hrun;
      [discriminate Hrun | injection Hrun as <- <-; exact Hst].
  - destruct (cond st) eqn:Hcond.
    + unfold mbind, IO_bind.
      destruct (body st n) as [[st1 | e] n1] eqn:Hstep; [| discriminate].
      apply IH. apply (Hbody _ _ _ _ Hst Hcond Hstep).
    + unfold mret, IO_ret. intros Hrun. injection Hrun as <- <-. exact Hst.
Qed.

Lemma fetchPage_grows
    (parseLinkHeader : string -> outcome Links)
    (upstream : nat -> option string -> GetResult) (st st' : FetchState) (n n' : nat) :
  (forall m cursor products link,
     upstream m cursor = GetOk products link -> (length products <= 250)%nat) ->
  fetchPage parseLinkHeader upstream st n = (Returned st', n') ->
  n' = S n /\ pageCount st' = S (pageCount st)
  /\ (length (allProducts st') <= length (allProducts st) + 250)%nat.
Proof.
  intros Hpages. unfold fetchPage, extractPagination, request, lift.
  unfold mbind, mret, IO_bind, IO_ret.
  destruct (upstream n (truthy_string (pageInfo st))) as [e | products link] eqn:Hget;
    [discriminate |].
  pose proof (Hpages _ _ _ _ Hget) as Hlen. cbn [fst snd].
  destruct (truthy_string link) as [header |].
  - destruct (parseLinkHeader header) as [links | e]; [| discriminate].
    intros [= <- <-]. cbn. rewrite length_app. lia.
  - intros [= <- <-]. cbn. rewrite length_app. lia.
Qed.

(** X25.  A first page of fewer than 250 products ends [getAllProducts]
    after one request with exactly that page, whatever its Link header
    announces.  And when no page holds more than 250 products, a successful
    run of [n] requests returns at most [250 n] products with [n <= 50],
    12,500 at most. *)
Theorem X25_all_products
    (parseLinkHeader : string -> outcome Links)
    (upstream : nat -> option string -> GetResult) (fuel : nat) :
  (forall products link,
     upstream 0%nat None = GetOk products link ->
     (length products < 250)%nat ->
     (forall header, truthy_string link = Some header ->
                     exists links, parseLinkHeader header = Returned links) ->
     (1 <= fuel)%nat ->
     getAllProducts parseLinkHeader upstream fuel 0%nat
     = (Returned (Some products), 1%nat))
  /\ ((forall m cursor products link,
         upstream m cursor = GetOk products link -> (length products <= 250)%nat) ->
      forall all n,
        getAllProducts parseLinkHeader upstream fuel 0%nat
        = (Returned (Some all), n) ->
        (n <= 50)%nat /\ (length all <= 250 * n)%nat
        /\ (length all <= 50 * 250)%nat).
Proof.
  split.
  - intros products link Hget Hshort Hparse Hfuel.
    destruct fuel as [| fuel]; [lia |].
    unfold getAllProducts. cbn [while andb hasNextPage pageCount Nat.ltb Nat.leb].
    unfold fetchPage, extractPagination, request, lift.
    unfold mbind, mret, IO_bind, IO_ret.
    cbn [pageInfo truthy_string]. rewrite Hget. cbn [fst snd allProducts app].
    apply Nat.ltb_lt in Hshort.
    destruct (truthy_string link) as [header |] eqn:Hlink.
    + destruct (Hparse header eq_refl) as [links ->].
      rewrite Hshort. destruct fuel; reflexivity.
    + rewrite Hshort. destruct fuel; reflexivity.
  - intros Hpages all n. unfold getAllProducts.
    unfold mbind at 1. unfold IO_bind, mret, IO_ret.
    set (cond := fun st : FetchState => hasNextPage st && (pageCount st <? 50)%nat).
    set (start := {| allProducts := []; pageInfo := None;
                     hasNextPage := true; pageCount := 0%nat |}).
    destruct (while fuel cond (fetchPage parseLinkHeader upstream) start 0%nat)
      as [[[final |] | e] n1] eqn:Hrun; try discriminate.
    intros [= <- <-].
    pose proof (while_invariant
                  (fun st m => pageCount st = m /\ (m <= 50)%nat
                               /\ (length (allProducts st) <= 250 * m)%nat)
                  cond (fetchPage parseLinkHeader upstream)) as Hinv.
    destruct (Hinv) with (fuel := fuel) (st := start) (n := 0%nat)
                         (st' := final) (n' := n1) as (_ & Hn & Hlen).
    + intros st m st' m' (Hcount & Hm & Hlen) Hcond Hstep.
      destruct (fetchPage_grows _ _ _ _ _ _ Hpages Hstep) as (-> & Hcount' & Hgrow).
      subst cond. cbv beta in Hcond.
      apply andb_true_iff in Hcond as [_ Hbelow]. apply Nat.ltb_lt in Hbelow.
      split; [lia |]. split; lia.
    + cbn. lia.
    + exact Hrun.
    + split; [exact Hn |]. split; [exact Hlen | lia].
Qed.

Lemma X25_all_products_witness :
  let item := {| p_published_at := None; p_created_at := 0;
                 p_product_type := None; p_tags := None |} in
  let parse := fun _ : string =>
    Returned {| next := Some "cursor"%string; previous := None |} in
  let store := fun (_ : nat) (_ : option string) =>
    GetOk [item; item] (Some "<https://shop.example/products.json?page_info=cursor>"%string) in
  getAllProducts parse store 50%nat 0%nat = (Returned (Some [item; item]), 1%nat).
Proof.
  cbv zeta.
  apply (proj1 (X25_all_products _ _ 50%nat)
           _ (Some "<https://shop.example/products.json?page_info=cursor>"%string)
           eq_refl).
  - cbn. lia.
  - intros header _. eexists. reflexivity.
  - lia.
Defined.


(** ** Threshold factors *)

Lemma Math_round_nonneg (x : Q) :
  0 <= x ->
  exists z : Z, Math_round (Fin x) = Fin (inject_Z z) /\ (0 <= z)%Z.
Proof.
  intros Hx. cbn [Math_round]. eexists. split; [reflexivity |].
  change 0%Z with (Qfloor 0). apply Qfloor_resp_le. lra.
Qed.

(** The share of the stock in the estimated initial inventory, in whole
    percent. *)
Lemma percentage_remaining (stock est : Q) :
  0 <= stock -> stock <= est -> 0 < est ->
  exists pct : Z,
    Math_round (js_mul (js_div (Fin stock) (Fin est)) (Fin 100)) = Fin (inject_Z pct)
    /\ (0 <= pct <= 100)%Z
    /\ (pct = 0%Z <-> 200 * stock < est).
Proof.
  intros Hstock Hle Hest. rewrite js_div_Fin by lra. cbn [js_mul Math_round].
  eexists. split; [reflexivity |].
  assert (H0 : 0 <= stock / est) by (apply Qdiv_ge_iff; lra).
  assert (H1 : stock / est <= 1) by (apply Qdiv_le_iff; lra).
  assert (Hhalf : stock / est < 1 # 200 <-> 200 * stock < est).
  { rewrite Qdiv_lt_iff by exact Hest. split; intros; lra. }
  set (x := stock / est) in *.
  pose proof (Qfloor_le (x * 100 + (1 # 2))) as Hfl.
  pose proof (Qlt_floor (x * 100 + (1 # 2))) as Hfu.
  split; [split |].
  - change 0%Z with (Qfloor 0). apply Qfloor_resp_le. lra.
  - apply Z.le_trans with (Qfloor (201 # 2)); [| reflexivity].
    apply Qfloor_resp_le. lra.
  - rewrite <- Hhalf. split.
    + intros Hz. rewrite Hz in Hfu. change (inject_Z (0 + 1)) with 1 in Hfu. lra.
    + intros Hx. apply Qfloor_unique.
      * change (inject_Z 0) with 0. lra.
      * change (inject_Z (0 + 1)) with 1. lra.
Qed.

(** X26.  For a finite non-negative stock and revenue.  With a price that
    is zero or does not parse and a positive revenue, [getThresholdFactors]
    estimates an infinite initial inventory and labels the inventory
    [out_of_stock] whatever the stock.  With a positive price the percentage
    remaining is a whole number from 0 to 100, the category is
    [out_of_stock] exactly when it is 0, and it is 0 exactly when the stock
    is zero or below half a percent of the estimated initial inventory. *)
Theorem X26_threshold_factors (now : Z) (variant : Variant) (product : Product)
    (stock revenue : Q) :
  js_or (v_inventory_quantity variant) (Fin 0) = Fin stock ->
  0 <= stock -> 0 <= revenue ->
  let f := getThresholdFactors now variant product (Fin revenue) in
  (js_truthy (v_price variant) = false -> 0 < revenue ->
   estimated_initial_inventory f = PInf
   /\ inventory_percentage_remaining f =n= Fin 0
   /\ inventory_category f = "out_of_stock"%string)
  /\ (forall price, v_price variant = Fin price -> 0 < price ->
      exists pct sold : Z,
        inventory_percentage_remaining f = Fin (inject_Z pct)
        /\ estimated_initial_inventory f = Fin (stock + inject_Z sold)
        /\ (0 <= sold)%Z /\ (0 <= pct <= 100)%Z
        /\ (inventory_category f = "out_of_stock"%string <-> pct = 0%Z)
        /\ (pct = 0%Z <-> stock == 0 \/ 200 * stock < stock + inject_Z sold)).
Proof.
  intros Hinv Hstock Hrevenue. cbv zeta. unfold getThresholdFactors.
  rewrite Hinv. split.
  - intros Hprice Hpos.
    replace (js_or (Some (v_price variant)) (Fin 0)) with (Fin 0)
      by (unfold js_or; rewrite Hprice; reflexivity).
    unfold js_gt, js_ge. rewrite (proj2 (js_lt_Fin 0 revenue) Hpos).
    assert (Hinf : js_div (Fin revenue) (Fin 0) = PInf).
    { cbn [js_div]. change (Qeq_bool 0 0) with true. cbv iota.
      unfold inf_of_sign. apply Qgt_alt in Hpos. rewrite Hpos. reflexivity. }
    rewrite Hinf. cbn [Math_round js_add js_lt js_div js_mul].
    cbn [estimated_initial_inventory inventory_percentage_remaining
         inventory_category].
    split; [reflexivity |]. split; reflexivity.
  - intros price Hprice Hpos. rewrite Hprice.
    assert (Hpt : js_or (Some (Fin price)) (Fin 0) = Fin price).
    { unfold js_or, js_truthy.
      rewrite (proj2 (Qeq_bool_false price 0)) by lra. reflexivity. }
    rewrite Hpt.
    assert (Hsold : exists sold : Z,
               (if js_gt (Fin revenue) (Fin 0)
                then Math_round (js_div (Fin revenue) (Fin price)) else Fin 0)
               = Fin (inject_Z sold) /\ (0 <= sold)%Z).
    { destruct (js_gt (Fin revenue) (Fin 0)).
      - rewrite js_div_Fin by lra. apply Math_round_nonneg.
        apply Qdiv_ge_iff; lra.
      - exists 0%Z. split; [reflexivity | lia]. }
    destruct Hsold as (sold & -> & Hsold). cbn [js_add].
    assert (Hq : 0 <= inject_Z sold)
      by (change 0 with (inject_Z 0); rewrite <- Zle_Qle; exact Hsold).
    cbn [estimated_initial_inventory inventory_percentage_remaining
         inventory_category].
    set (est := stock + inject_Z sold) in *.
    unfold js_gt, js_ge.
    destruct (js_lt (Fin 0) (Fin est)) eqn:Hest;
      [apply js_lt_Fin in Hest | apply js_lt_Fin_false in Hest].
    + destruct (percentage_remaining stock est) as (pct & -> & Hpct & Hzero);
        [lra | subst est; lra | exact Hest |].
      exists pct, sold. split; [reflexivity |]. split; [reflexivity |].
      split; [exact Hsold |]. split; [exact Hpct |].
      assert (Hlo : 0 <= inject_Z pct)
        by (change 0 with (inject_Z 0); rewrite <- Zle_Qle; lia).
      assert (Hz : inject_Z pct <= 0 <-> pct = 0%Z).
      { change 0 with (inject_Z 0). rewrite <- Zle_Qle. lia. }
      split.
      * rewrite <- Hz. clear Hzero Hz. generalize dependent (inject_Z pct).
        intros q Hlo. finite_cases; split; intros; try discriminate;
          try reflexivity; try lra; exfalso; lra.
      * rewrite Hzero. split; [tauto |]. intros [Hs | Hlt]; [lra | exact Hlt].
    + exists 0%Z, sold. split; [reflexivity |]. split; [reflexivity |].
      split; [exact Hsold |]. split; [lia |].
      split; [split; reflexivity |].
      split; [intros _; left; subst est; lra | reflexivity].
Qed.

Lemma X26_threshold_factors_witness :
  let v := {| v_id := 1; v_price := Fin 0; v_inventory_quantity := Some (Fin 40) |} in
  let p := {| p_published_at := None; p_created_at := 0;
              p_product_type := None; p_tags := None |} in
  inventory_category (getThresholdFactors 86400000 v p (Fin 500))
  = "out_of_stock"%string.
Proof.
  cbv zeta.
  refine (proj2 (proj2 (proj1 (X26_threshold_factors 86400000
            {| v_id := 1; v_price := Fin 0; v_inventory_quantity := Some (Fin 40) |}
            {| p_published_at := None; p_created_at := 0;
               p_product_type := None; p_tags := None |}
            40 500 eq_refl _ _) eq_refl _)));
    unfold Qle, Qlt; simpl; lia.
Defined.


(** ** Customer analytics *)

(** Sorting finite keys in descending order leaves them descending. *)
Lemma js_sort_descending {A : Type} (key : A -> num) (l : list A) :
  Forall (fun x => is_finite (key x) = true) l ->
  StronglySorted (fun a b => finite_value (key b) <= finite_value (key a))
    (js_sort (fun a b => js_lt (js_sub (key b) (key a)) (Fin 0)) l).
Proof.
  set (before := fun a b : A => js_lt (js_sub (key b) (key a)) (Fin 0)).
  assert (Hbefore : forall y x,
             is_finite (key y) = true -> is_finite (key x) = true ->
             (before y x = true <-> finite_value (key x) < finite_value (key y))).
  { intros y x Hy Hx. subst before. cbv beta. unfold js_sub.
    destruct (key y) as [qy | | |]; try discriminate Hy.
    destruct (key x) as [qx | | |]; try discriminate Hx.
    cbn [js_neg js_add finite_value]. rewrite js_lt_Fin. split; intros; lra. }
  induction 1 as [| x l Hx Hl IH]; [constructor |].
  cbn [js_sort foldr].
  change (foldr (insert_sorted before) [] l) with (js_sort before l).
  assert (Hall : Forall (fun x => is_finite (key x) = true) (js_sort before l))
    by (rewrite js_sort_perm; exact Hl).
  revert IH Hall. generalize (js_sort before l). clear l Hl.
  intros l Hsorted Hfin.
  induction Hsorted as [| y l Hsorted IH Hbound]; cbn [insert_sorted].
  - repeat constructor.
  - apply Forall_cons in Hfin as [Hy Hfin].
    pose proof (Hbefore y x Hy Hx) as Hyx.
    destruct (before y x).
    + pose proof (proj1 Hyx eq_refl) as Hlt.
      constructor; [apply IH, Hfin |].
      rewrite (insert_sorted_perm before x l). constructor; [lra | exact Hbound].
    + assert (Hle : finite_value (key y) <= finite_value (key x)).
      { apply Qnot_lt_le. intros Hlt. apply Hyx in Hlt. discriminate Hlt. }
      constructor; [constructor; assumption |].
      constructor; [exact Hle |].
      eapply Forall_impl; [exact Hbound |]. cbv beta. intros z Hz. lra.
Qed.

Lemma StronglySorted_app_split {A : Type} (R : A -> A -> Prop) (l1 l2 : list A) :
  StronglySorted R (l1 ++ l2) ->
  StronglySorted R l1 /\ (forall x y, x ∈ l1 -> y ∈ l2 -> R x y).
Proof.
  induction l1 as [| a l1 IH]; cbn [app]; intros Hsorted.
  - split; [constructor |]. intros x y Hx. apply elem_of_nil in Hx. destruct Hx.
  - apply StronglySorted_inv in Hsorted as [Hrest Hall].
    destruct (IH Hrest) as [Hl1 Hcross].
    apply Forall_app in Hall as [Hall1 Hall2]. split.
    + constructor; assumption.
    + intros x y [-> | Hx]%elem_of_cons Hy.
      * rewrite Forall_forall in Hall2. apply Hall2, Hy.
      * apply Hcross; assumption.
Qed.

Lemma spent_sum_finite (customers : list ShopCustomer) :
  Forall (fun c => is_finite (spent c) = true) customers ->
  forall acc : Q,
    exists total,
      foldl (fun sum c => js_add sum (spent c)) (Fin acc) customers = Fin total.
Proof.
  induction 1 as [| c customers Hc _ IH]; intros acc; cbn [foldl];
    [eexists; reflexivity |].
  destruct (spent c) as [q | | |]; try discriminate Hc. cbn [js_add]. apply IH.
Qed.

(** X27.  The customer analytics send one request and pass its failure on;
    a body without a customer list is a failure too.  On a list, new and
    returning customers add up to the total; the average lifetime value of an
    empty list is zero; and the top customers are the first ten (or all, if
    fewer) of a rearrangement of the list.  When every amount spent is
    finite, the top customers are in descending order of amount, no
    customer left out spent more than one of them, and the average lifetime
    value is finite and, for a total that is not negative, lies between zero
    and the total. *)
Theorem X27_customer_analytics
    (customersReply : nat -> outcome (option (list ShopCustomer))) (n : nat) :
  let run := calculateCustomerAnalyticsWithCredentials customersReply n in
  (forall e, customersReply n = Thrown e -> run = (Thrown e, S n))
  /\ (customersReply n = Returned None -> exists e, run = (Thrown e, S n))
  /\ (forall customers, customersReply n = Returned (Some customers) ->
      exists a chosen rest,
        run = (Returned a, S n)
        /\ CustomerAnalytics.totalCustomers a = length customers
        /\ (CustomerAnalytics.newCustomers a
            + Z.of_nat (CustomerAnalytics.returningCustomers a)
            = Z.of_nat (CustomerAnalytics.totalCustomers a))%Z
        /\ (0 <= CustomerAnalytics.newCustomers a)%Z
        /\ (customers = [] -> CustomerAnalytics.averageLifetimeValue a = Fin 0)
        /\ customers ≡ₚ chosen ++ rest
        /\ CustomerAnalytics.topCustomers a = topCustomer <$> chosen
        /\ length chosen = Nat.min 10 (length customers)
        /\ (Forall (fun c => is_finite (spent c) = true) customers ->
            StronglySorted
              (fun x y => finite_value (spent y) <= finite_value (spent x)) chosen
            /\ (forall t r, t ∈ chosen -> r ∈ rest ->
                finite_value (spent r) <= finite_value (spent t))
            /\ (customers <> [] ->
                exists average total,
                  CustomerAnalytics.averageLifetimeValue a =n= Fin average
                  /\ foldl (fun sum c => js_add sum (spent c)) (Fin 0) customers
                     = Fin total
                  /\ (0 <= total -> 0 <= average /\ average <= total)))).
Proof.
  cbv zeta. unfold calculateCustomerAnalyticsWithCredentials, try_catch, request, throw.
  unfold mbind, mret, IO_bind, IO_ret.
  split; [| split].
  - intros e ->. reflexivity.
  - intros ->. eexists. reflexivity.
  - intros customers ->.
    set (before := fun a b : ShopCustomer =>
                     js_lt (js_sub (spent b) (spent a)) (Fin 0)).
    eexists _, (take 10 (js_sort before customers)),
      (drop 10 (js_sort before customers)).
    split; [reflexivity |].
    cbn [CustomerAnalytics.totalCustomers CustomerAnalytics.newCustomers
         CustomerAnalytics.returningCustomers CustomerAnalytics.averageLifetimeValue
         CustomerAnalytics.topCustomers].
    pose proof (filter_length_bound is_returning customers) as Hreturning.
    split; [reflexivity |]. split; [lia |]. split; [lia |].
    split; [intros ->; reflexivity |].
    split; [rewrite take_drop; symmetry; apply js_sort_perm |].
    split; [reflexivity |].
    split; [rewrite length_take, js_sort_perm; reflexivity |].
    intros Hfin.
    pose proof (js_sort_descending spent customers Hfin) as Hsorted.
    fold before in Hsorted.
    rewrite <- (take_drop 10 (js_sort before customers)) in Hsorted.
    apply StronglySorted_app_split in Hsorted as [Htop Hcross].
    split; [exact Htop |]. split; [exact Hcross |].
    intros Hne. destruct (spent_sum_finite customers Hfin 0) as [total Htotal].
    rewrite Htotal. unfold count.
    assert (Hlen : 0 < inject_Z (Z.of_nat (length customers))).
    { apply count_pos. destruct customers; [congruence | cbn; lia]. }
    rewrite js_div_Fin by lra.
    exists (total / inject_Z (Z.of_nat (length customers))), total.
    split; [| split; [reflexivity |]].
    2: { apply (share_between total (length customers)).
         destruct customers; [congruence | cbn; lia]. }
    unfold js_or, js_truthy.
    destruct (Qeq_bool (total / inject_Z (Z.of_nat (length customers))) 0) eqn:Hz;
      cbn [negb num_equiv]; [| reflexivity].
    apply Qeq_bool_iff in Hz. symmetry. exact Hz.
Qed.

Lemma X27_customer_analytics_witness :
  let c := fun (id : Z) (amount : Q) =>
    {| sc_id := id; sc_orders_count := Some (Fin 2);
       sc_total_spent := Some (Fin amount); sc_state := None |} in
  exists a,
    calculateCustomerAnalyticsWithCredentials
      (fun _ => Returned (Some [c 1%Z 10; c 2%Z 30; c 3%Z 20])) 0%nat
    = (Returned a, 1%nat)
    /\ CustomerAnalytics.totalCustomers a = 3%nat.
Proof.
  cbv zeta.
  destruct (proj2 (proj2 (X27_customer_analytics
              (fun _ => Returned (Some
                 [ {| sc_id := 1; sc_orders_count := Some (Fin 2);
                      sc_total_spent := Some (Fin 10); sc_state := None |};
                   {| sc_id := 2; sc_orders_count := Some (Fin 2);
                      sc_total_spent := Some (Fin 30); sc_state := None |};
                   {| sc_id := 3; sc_orders_count := Some (Fin 2);
                      sc_total_spent := Some (Fin 20); sc_state := None |} ]))
              0%nat)) _ eq_refl)
    as (a & chosen & rest & Hrun & Htotal & _).
  exists a. split; [exact Hrun | exact Htotal].
Defined.


(** ** Metrics for the strategy prediction *)

(** A share rounded to whole hundredths. *)
Lemma hundredths (x : Q) :
  0 <= x -> x <= 1 -> (0 <= Qfloor (x * 100 + (1 # 2)) <= 100)%Z.
Proof.
  intros H0 H1. split.
  - apply Z.le_trans with (Qfloor (1 # 2)); [reflexivity |].
    apply Qfloor_resp_le. lra.
  - apply Z.le_trans with (Qfloor (201 # 2)); [| reflexivity].
    apply Qfloor_resp_le. lra.
Qed.

(** A share and its complement, each rounded to hundredths, add up to one,
    or to 1.01 when both round up from a tie. *)
Lemma hundredths_complement (x : Q) :
  let a := Qfloor (x * 100 + (1 # 2)) in
  let b := Qfloor ((1 + - x) * 100 + (1 # 2)) in
  (a + b = 100 \/ a + b = 101)%Z.
Proof.
  cbv zeta. set (y := x * 100 + (1 # 2)).
  assert (Hz : (1 + - x) * 100 + (1 # 2) == 101 - y) by (subst y; ring).
  rewrite (Qfloor_comp _ _ Hz).
  pose proof (Qfloor_le y) as Hlo. pose proof (Qlt_floor y) as Hhi.
  rewrite inject_Z_plus in Hhi. change (inject_Z 1) with 1 in Hhi.
  set (k := Qfloor y) in *.
  destruct (Qlt_le_dec (inject_Z k) y) as [Hlt | Hge].
  - left. rewrite (Qfloor_unique (101 - y) (100 - k)); [lia | |].
    + unfold Z.sub. rewrite inject_Z_plus, inject_Z_opp.
      change (inject_Z 100) with 100. lra.
    + replace (100 - k + 1)%Z with (101 + - k)%Z by lia.
      rewrite inject_Z_plus, inject_Z_opp. change (inject_Z 101) with 101. lra.
  - right. rewrite (Qfloor_unique (101 - y) (101 - k)); [lia | |].
    + unfold Z.sub. rewrite inject_Z_plus, inject_Z_opp.
      change (inject_Z 101) with 101. lra.
    + replace (101 - k + 1)%Z with (102 + - k)%Z by lia.
      rewrite inject_Z_plus, inject_Z_opp. change (inject_Z 102) with 102. lra.
Qed.

(** The share of a part in a whole, as [calculateAIMetrics] computes it. *)
Lemma share_of_counts (part whole : nat) :
  (part <= whole)%nat ->
  exists x,
    (if (0 <? whole)%nat then js_div (count part) (count whole) else Fin 0) = Fin x
    /\ 0 <= x /\ x <= 1
    /\ (whole = 0%nat -> x = 0).
Proof.
  intros Hle. destruct (0 <? whole)%nat eqn:Hpos;
    [apply Nat.ltb_lt in Hpos | apply Nat.ltb_ge in Hpos].
  - unfold count. pose proof (count_pos whole Hpos) as Hw.
    pose proof (count_le part whole Hle) as Hpw.
    pose proof (count_le 0 part (Nat.le_0_l part)) as Hp.
    change (inject_Z (Z.of_nat 0)) with 0 in Hp.
    rewrite js_div_Fin by lra. eexists. split; [reflexivity |].
    split; [apply Qdiv_ge_iff; lra |]. split; [apply Qdiv_le_iff; lra | lia].
  - exists 0. split; [reflexivity |]. split; [lra |]. split; [lra | reflexivity].
Qed.

(** X28.  In the metrics for the strategy prediction the return rate, the
    repeat rate and the churn rate are whole hundredths between 0 and 1.
    The repeat rate and the churn rate, each rounded on its own, add up to 1
    or to 1.01.  Without orders the return and repeat rates are 0 and the
    churn rate is 1. *)
Theorem X28_rates (product : CatalogProduct) (orders : list MetricsOrder)
    (variantId : option Z) (externalCategory : option string) :
  let m := calculateAIMetrics product orders variantId externalCategory in
  exists returned repeated churned : Z,
    m_return_rate m = Fin (inject_Z returned / 100)
    /\ m_repeat_rate m = Fin (inject_Z repeated / 100)
    /\ m_churn_rate m = Fin (inject_Z churned / 100)
    /\ (0 <= returned <= 100)%Z /\ (0 <= repeated <= 100)%Z
    /\ (0 <= churned <= 100)%Z
    /\ (repeated + churned = 100 \/ repeated + churned = 101)%Z
    /\ (orders = [] -> returned = 0%Z /\ repeated = 0%Z /\ churned = 100%Z).
Proof.
  cbv zeta. unfold calculateAIMetrics.
  cbn [m_return_rate m_repeat_rate m_churn_rate].
  destruct (share_of_counts (length (List.filter has_refunds orders)) (length orders))
    as (ret & -> & Hret0 & Hret1 & Hretz); [apply filter_length_bound |].
  set (counts := customerOrderCounts orders).
  destruct (share_of_counts
              (length (List.filter (fun c => (1 <? c)%nat) (snd <$> map_to_list counts)))
              (length (map_to_list counts)))
    as (rep & -> & Hrep0 & Hrep1 & Hrepz).
  { etransitivity; [apply filter_length_bound |]. rewrite length_fmap. lia. }
  unfold js_sub. cbn [js_neg js_add]. rewrite !round2_Fin_eq. unfold Qround2.
  exists (Qfloor (ret * 100 + (1 # 2))), (Qfloor (rep * 100 + (1 # 2))),
    (Qfloor ((1 + - rep) * 100 + (1 # 2))).
  split; [reflexivity |]. split; [reflexivity |]. split; [reflexivity |].
  split; [apply hundredths; assumption |].
  split; [apply hundredths; assumption |].
  split; [apply hundredths; lra |].
  split; [apply hundredths_complement |].
  intros Hempty. subst orders. rewrite (Hretz eq_refl).
  assert (Hnone : rep = 0) by (apply Hrepz; reflexivity).
  rewrite Hnone. split; [reflexivity |]. split; reflexivity.
Qed.

Lemma X28_rates_witness :
  let customer := fun id : Z =>
    {| mo_refunds := None; mo_customer_id := Some id; mo_shipping_amount := None |} in
  let product :=
    {| cp_product := {| p_published_at := None; p_created_at := 0;
                        p_product_type := None; p_tags := None |};
       cp_title := None; cp_body_html := None; cp_vendor := None;
       cp_status := None; cp_variants := None |} in
  let m := calculateAIMetrics product
             [customer 1%Z; customer 1%Z; customer 2%Z; customer 3%Z; customer 4%Z;
              customer 5%Z; customer 6%Z; customer 7%Z; customer 8%Z] None None in
  exists repeated churned : Z,
    m_repeat_rate m = Fin (inject_Z repeated / 100)
    /\ m_churn_rate m = Fin (inject_Z churned / 100)
    /\ (repeated + churned = 100 \/ repeated + churned = 101)%Z
    /\ m_repeat_rate m =n= Fin (13 # 100)
    /\ m_churn_rate m =n= Fin (88 # 100).
Proof.
  cbv zeta.
  destruct (X28_rates
              {| cp_product := {| p_published_at := None; p_created_at := 0;
                                  p_product_type := None; p_tags := None |};
                 cp_title := None; cp_body_html := None; cp_vendor := None;
                 cp_status := None; cp_variants := None |}
              [ {| mo_refunds := None; mo_customer_id := Some 1%Z;
                   mo_shipping_amount := None |};
                {| mo_refunds := None; mo_customer_id := Some 1%Z;
                   mo_shipping_amount := None |};
                {| mo_refunds := None; mo_customer_id := Some 2%Z;
                   mo_shipping_amount := None |};
                {| mo_refunds := None; mo_customer_id := Some 3%Z;
                   mo_shipping_amount := None |};
                {| mo_refunds := None; mo_customer_id := Some 4%Z;
                   mo_shipping_amount := None |};
                {| mo_refunds := None; mo_customer_id := Some 5%Z;
                   mo_shipping_amount := None |};
                {| mo_refunds := None; mo_customer_id := Some 6%Z;
                   mo_shipping_amount := None |};
                {| mo_refunds := None; mo_customer_id := Some 7%Z;
                   mo_shipping_amount := None |};
                {| mo_refunds := None; mo_customer_id := Some 8%Z;
                   mo_shipping_amount := None |} ] None None)
    as (_ & repeated & churned & _ & Hrep & Hchu & _ & _ & _ & Hsum & _).
  exists repeated, churned.
  split; [exact Hrep |]. split; [exact Hchu |]. split; [exact Hsum |].
  split; vm_compute; reflexivity.
Defined.


(** ** Search by variants *)

Lemma matchesAll_text (searchParams : ProductSearchParams) (variant : CatalogVariant) :
  matchesAll searchParams variant = true -> matchesText searchParams variant = true.
Proof.
  unfold matchesAll. intros H.
  do 4 (apply andb_true_iff in H as [H _]). exact H.
Qed.

(** X29.  The search by variants sends one request and passes its failure
    on.  Every product it returns is one of the products answered, has a
    variant that meets all criteria, and comes with matching variants: these
    are not empty and hold every variant that meets all criteria, but they
    are chosen by SKU and barcode alone, so that without these two criteria
    they are all variants of the product, whatever the price and inventory
    bounds of the search. *)
Theorem X29_variant_search
    (catalogue : num -> nat -> outcome (list CatalogProduct))
    (searchParams : ProductSearchParams) (n : nat) :
  let limit := js_or (sp_limit searchParams) (Fin 250) in
  let run := searchProductsByVariants catalogue searchParams n in
  (forall e, catalogue limit n = Thrown e -> run = (Thrown e, S n))
  /\ (forall products, catalogue limit n = Returned products ->
      exists r,
        run = (Returned r, S n)
        /\ vs_count r = length (vs_products r)
        /\ (vs_count r <= length products)%nat
        /\ Forall (fun entry =>
                     exists variants,
                       In (fst entry) products
                       /\ cp_variants (fst entry) = Some variants
                       /\ snd entry <> []
                       /\ (forall v, In v (snd entry) <->
                                     In v variants
                                     /\ matchesText searchParams v = true)
                       /\ (forall v, In v variants ->
                                     matchesAll searchParams v = true ->
                                     In v (snd entry))
                       /\ (truthy_string (sp_sku searchParams) = None ->
                           truthy_string (sp_barcode searchParams) = None ->
                           snd entry = variants))
                  (vs_products r)).
Proof.
  cbv zeta. unfold searchProductsByVariants, try_catch, request, throw.
  unfold mbind, mret, IO_bind, IO_ret. split.
  - intros e ->. reflexivity.
  - intros products ->. eexists. split; [reflexivity |].
    cbn [vs_count vs_products].
    split; [rewrite length_fmap; reflexivity |].
    split; [apply filter_length_bound |].
    apply Forall_fmap, Forall_forall. intros product Hin.
    apply list_elem_of_In, filter_In in Hin as [Hin Hsome].
    unfold some_variant in Hsome.
    destruct (cp_variants product) as [variants |] eqn:Hvariants;
      [| discriminate Hsome].
    apply existsb_exists in Hsome as (w & Hw & Hall).
    exists variants. cbn [fst snd default]. rewrite Hvariants.
    change (default [] (Some variants)) with variants.
    split; [exact Hin |]. split; [reflexivity |].
    split.
    { intros Hnil.
      assert (Hw' : In w (List.filter (matchesText searchParams) variants))
        by (apply filter_In; split; [exact Hw | apply matchesAll_text, Hall]).
      rewrite Hnil in Hw'. destruct Hw'. }
    split; [intros v; apply filter_In |].
    split.
    { intros v Hv Hv'. apply filter_In. split; [exact Hv |].
      apply matchesAll_text, Hv'. }
    intros Hsku Hbarcode. apply filter_all. intros v.
    unfold matchesText. rewrite Hsku, Hbarcode. reflexivity.
Qed.

Lemma X29_variant_search_witness :
  let variant := fun (sku : string) (price : Q) =>
    {| cv_variant := {| v_id := 1; v_price := Fin price;
                        v_inventory_quantity := Some (Fin 3) |};
       cv_title := None; cv_sku := Some sku; cv_barcode := None |} in
  let product :=
    {| cp_product := {| p_published_at := None; p_created_at := 0;
                        p_product_type := None; p_tags := None |};
       cp_title := None; cp_body_html := None; cp_vendor := None;
       cp_status := None;
       cp_variants := Some [variant "A-1"%string 5; variant "B-2"%string 50] |} in
  let searchParams :=
    {| sp_limit := None; sp_page_info := None; sp_search := None; sp_title := None;
       sp_status := None; sp_sort_by := None; sp_sort_order := None;
       sp_vendor := None; sp_product_type := None; sp_sku := None;
       sp_barcode := None; sp_tags := None; sp_price_min := Some (Fin 10);
       sp_price_max := None; sp_inventory_quantity_min := None;
       sp_inventory_quantity_max := None |} in
  exists r,
    searchProductsByVariants (fun _ _ => Returned [product]) searchParams 0%nat
    = (Returned r, 1%nat)
    /\ vs_count r = length (vs_products r)
    /\ vs_products r
       = [(product, [variant "A-1"%string 5; variant "B-2"%string 50])].
Proof.
  cbv zeta.
  match goal with
  | |- exists r, searchProductsByVariants ?c ?p ?n = _ /\ _ =>
      destruct (proj2 (X29_variant_search c p n) _ eq_refl)
        as (r & Hrun & Hcount & _)
  end.
  exists r. split; [exact Hrun |]. split; [exact Hcount |].
  vm_compute in Hrun. injection Hrun as <-. vm_compute. reflexivity.
Defined.


(** ** The trend of a variant with few orders *)

Lemma acceleration_few_orders (orders : list Order) (variantId : Z) :
  (length (List.filter (has_variant variantId) orders) < 2)%nat ->
  calculateSalesAcceleration orders variantId = Fin 0.
Proof.
  intros Hfew. unfold calculateSalesAcceleration. cbv zeta.
  rewrite js_sort_perm. apply Nat.ltb_lt in Hfew. rewrite Hfew. reflexivity.
Qed.

(** X30.  With the sales acceleration computed by
    [calculateSalesAcceleration], a variant that occurs in fewer than two
    orders (one without sales in particular) is reported with an
    acceleration of zero and a STABLE trend, and gets neither a
    DECLINING_TREND nor a POSITIVE_MOMENTUM suggestion. *)
Theorem X30_trend_needs_two_orders
    (calculateSeasonalityScore : list Order -> Z -> num)
    (now : Z) (variant : Variant) (orders : list Order) (product : Product)
    (staleThreshold : option num) :
  (length (List.filter (has_variant (v_id variant)) orders) < 2)%nat
  \/ no_sales_of (v_id variant) orders ->
  let a := calculateFocusedVariantAnalytics calculateSalesAcceleration
             calculateSeasonalityScore now variant orders product staleThreshold in
  Analytics.sales_acceleration a =n= Fin 0
  /\ trend (performance_summary (Analytics.intelligent_suggestions a)) = STABLE
  /\ (DECLINING_TREND ∉ suggestion_types (Analytics.intelligent_suggestions a))
  /\ (POSITIVE_MOMENTUM ∉ suggestion_types (Analytics.intelligent_suggestions a)).
Proof.
  intros Hfew.
  assert (Hzero : calculateSalesAcceleration orders (v_id variant) = Fin 0).
  { apply acceleration_few_orders. destruct Hfew as [Hfew | Hnone]; [exact Hfew |].
    rewrite (filter_no_sales _ _ Hnone). cbn. lia. }
  cbv zeta. unfold calculateFocusedVariantAnalytics.
  cbn [Analytics.sales_acceleration Analytics.intelligent_suggestions].
  rewrite Hzero. split; [apply round2_zero; reflexivity |].
  split; [reflexivity |].
  rewrite !elem_of_types. cbn [rule_group].
  change (trendSuggestions (Fin 0)) with (@nil Suggestion).
  split; apply not_elem_of_nil.
Qed.

Lemma X30_trend_needs_two_orders_witness :
  let v := {| v_id := 7; v_price := Fin 20; v_inventory_quantity := Some (Fin 5) |} in
  let p := {| p_published_at := None; p_created_at := 0;
              p_product_type := None; p_tags := None |} in
  let sale :=
    {| o_created_at := 86400000;
       o_line_items := Some [ {| li_variant_id := 7; li_quantity := Some (Fin 90);
                                  li_price := Fin 20 |} ] |} in
  let a := calculateFocusedVariantAnalytics calculateSalesAcceleration
             (fun _ _ => Fin 0) 864000000 v [sale] p None in
  trend (performance_summary (Analytics.intelligent_suggestions a)) = STABLE.
Proof.
  cbv zeta.
  refine (proj1 (proj2 (X30_trend_needs_two_orders (fun _ _ => Fin 0) 864000000
            {| v_id := 7; v_price := Fin 20; v_inventory_quantity := Some (Fin 5) |}
            [ {| o_created_at := 86400000;
                 o_line_items := Some [ {| li_variant_id := 7;
                                            li_quantity := Some (Fin 90);
                                            li_price := Fin 20 |} ] |} ]
            {| p_published_at := None; p_created_at := 0;
               p_product_type := None; p_tags := None |} None _))).
  left. cbn. lia.
Defined.
